(** * Agentic payment operations: the control loop, embedded and verified

    A shallow embedding of the Observer, Reasoner, Decision Engine, Executor,
    Learner and Orchestrator of the payment-operations agent
    (observer.py, reasoner.py, decision.py, executor.py, learner.py, agent.py)
    and of the history-keeping writers of the dashboard state files
    (state_writer.py).

    Conventions of the embedding:
    - A Python [float] is the rational it denotes ([Q]).  Where the rounding
      of binary64 arithmetic decides a result, the operation is the one of
      [Py.Float64]: the Observer's [int(n * 0.95)] and the shares of the
      error distribution, and the differences, quotients and comparisons
      with a threshold in the regression test of the Executor and in the
      verdict of the Learner.  There a rational stands for the double nearest
      to it (rounding a double gives it back, [round_idempotent]), and the
      exponent range is taken to be unbounded (the rates, costs and latencies
      compared are far from overflow and underflow).  Means and sums of
      floats are exact.
    - Python [int] is [Z]; [str] is [string] (byte strings; [upper] acts on
      the ASCII letters); [Optional[T]] is [option T].
    - Python dictionaries whose iteration order is observable (the grouped
      breakdowns of the Observer, action parameters) are insertion-ordered
      association lists; the Learner's per-action counters are a [gmap].
    - Exceptions are explicit: a partial operation returns [result A].
    - Mutable objects are records threaded through the calls; reads of the
      clock are explicit arguments.
    - The Orchestrator's writes of the dashboard state files are recorded in
      order as publications; a write that fails in the file system (an
      [OSError] out of state_writer.py, which agent.py does not catch) is not
      modelled. *)

From Stdlib Require Import ZArith QArith Qabs Qround String Ascii List Lia Lqa Bool.
From Stdlib Require Import Sorting.Sorted Sorting.Permutation.
From Stdlib Require Import DecimalString DecimalZ.
From stdpp Require Import gmap strings list.

Import ListNotations.
Local Open Scope string_scope.
Local Open Scope list_scope.
Local Open Scope Z_scope.

(** ** Python primitives *)

Module Py.

(** Exceptions the modelled code can raise. *)
Inductive exn := ValueError | IndexError | AttributeError.

Inductive result (A : Type) :=
| Ok (a : A)
| Raise (e : exn).
Arguments Ok {A} a.
Arguments Raise {A} e.

#[export] Instance result_ret : MRet result := fun _ a => Ok a.

#[export] Instance result_bind : MBind result := fun _ _ k r =>
  match r with
  | Ok a => k a
  | Raise e => Raise e
  end.

(** *** Rational comparisons as booleans *)

Definition Qleb (x y : Q) : bool := Qle_bool x y.
Definition Qltb (x y : Q) : bool := negb (Qle_bool y x).
Definition Qgeb (x y : Q) : bool := Qle_bool y x.
Definition Qgtb (x y : Q) : bool := negb (Qle_bool x y).

(** [min(xs)] and [max(xs)]: the first extremal element; [ValueError] on an
    empty sequence. *)
Definition py_min (xs : list Q) : result Q :=
  match xs with
  | [] => Raise ValueError
  | x :: t => Ok (fold_left (fun m y => if Qltb y m then y else m) t x)
  end.

Definition py_max (xs : list Q) : result Q :=
  match xs with
  | [] => Raise ValueError
  | x :: t => Ok (fold_left (fun m y => if Qgtb y m then y else m) t x)
  end.

(** [min(d.items(), key=lambda x: x[1])] *)
Definition py_min_item {K} (xs : list (K * Q)) : result (K * Q) :=
  match xs with
  | [] => Raise ValueError
  | x :: t => Ok (fold_left (fun m y => if Qltb (snd y) (snd m) then y else m) t x)
  end.

Definition Qsum (xs : list Q) : Q := fold_left Qplus xs 0%Q.
Definition Zsum (xs : list Z) : Z := fold_left Z.add xs 0.

Definition len {A} (l : list A) : Z := Z.of_nat (List.length l).

(** *** Slices: [l[-k:]] and [l[k:]] for an integer [k] of either sign *)

Definition drop_z {A} (k : Z) (l : list A) : list A :=
  List.skipn (Z.to_nat k) l.

(** [l[k:]]: a negative [k] counts from the end. *)
Definition slice_from {A} (k : Z) (l : list A) : list A :=
  if k <? 0 then drop_z (len l + k) l else drop_z k l.

(** [l[-k:]]; note that [l[-0:]] is the whole list. *)
Definition slice_last {A} (k : Z) (l : list A) : list A := slice_from (- k) l.

(** *** Strings *)

Definition str_int (z : Z) : string := NilZero.string_of_int (Z.to_int z).

(** [s.upper()] on the ASCII letters. *)
Definition upper_ascii (c : ascii) : ascii :=
  let n := nat_of_ascii c in
  if ((97 <=? n) && (n <=? 122))%nat then ascii_of_nat (n - 32) else c.

Fixpoint upper (s : string) : string :=
  match s with
  | EmptyString => EmptyString
  | String c t => String (upper_ascii c) (upper t)
  end.

(** [needle in hay] *)
Fixpoint contains (needle hay : string) : bool :=
  String.prefix needle hay ||
  match hay with
  | EmptyString => false
  | String _ t => contains needle t
  end.

(** [s.replace(old, new)] for a non-empty [old]: occurrences are replaced
    left to right without overlap; [skip] counts the characters of a matched
    occurrence still to be dropped. *)
Fixpoint replace_aux (old new : string) (skip : nat) (s : string) : string :=
  match s with
  | EmptyString => EmptyString
  | String c t =>
      match skip with
      | S k => replace_aux old new k t
      | O =>
          if String.prefix old s
          then new +:+ replace_aux old new (String.length old - 1) t
          else String c (replace_aux old new 0 t)
      end
  end.

Definition replace (old new s : string) : string := replace_aux old new 0 s.

(** [s.split(sep)] for a non-empty [sep]; always returns at least one piece. *)
Fixpoint split_aux (sep : string) (skip : nat) (cur s : string) : list string :=
  match s with
  | EmptyString => [cur]
  | String c t =>
      match skip with
      | S k => split_aux sep k cur t
      | O =>
          if String.prefix sep s
          then cur :: split_aux sep (String.length sep - 1) EmptyString t
          else split_aux sep 0 (cur +:+ String c EmptyString) t
      end
  end.

Definition split (sep s : string) : list string := split_aux sep 0 EmptyString s.

(** [sep.join(parts)] *)
Definition join (sep : string) (parts : list string) : string :=
  String.concat sep parts.

(** [str(x)] of an [Optional[str]] inside an f-string. *)
Definition str_opt (o : option string) : string :=
  match o with
  | Some s => s
  | None => "None"
  end.

Definition str_bool (b : bool) : string := if b then "True" else "False".

(** Truthiness of a string and of an optional string. *)
Definition truthy_str (s : string) : bool :=
  match s with
  | EmptyString => false
  | _ => true
  end.

Definition truthy_opt_str (o : option string) : bool :=
  match o with
  | Some s => truthy_str s
  | None => false
  end.

(** *** Fixed-point formatting: [f"{x:.Nf}"] and [f"{x:.N%}"]

    The value is rounded half-to-even at [digits] decimals, as Python rounds
    the exact value of the float. *)

Definition round_half_even (x : Q) : Z :=
  let f := Qfloor x in
  let r := (x - inject_Z f)%Q in
  if Qltb r (1 # 2) then f
  else if Qgtb r (1 # 2) then f + 1
  else if Z.even f then f else f + 1.

Fixpoint zero_pad (width : nat) (s : string) : string :=
  match width with
  | O => s
  | S w => if (String.length s <? width)%nat then zero_pad w ("0" +:+ s) else s
  end.

Definition format_fixed (digits : nat) (x : Q) : string :=
  let scale := 10 ^ Z.of_nat digits in
  let m := round_half_even (Qabs x * inject_Z scale)%Q in
  let body :=
    match digits with
    | O => str_int m
    | _ => str_int (m / scale) +:+ "." +:+ zero_pad digits (str_int (m mod scale))
    end in
  if Qltb x 0 then "-" +:+ body else body.

Definition format_percent (digits : nat) (x : Q) : string :=
  format_fixed digits (x * 100)%Q +:+ "%".

(** *** Binary64 arithmetic, where it decides a result

    A positive finite double is [m * 2^e] with [m < 2^53].  [round53] rounds a
    positive dyadic [p * 2^e] to the nearest such value, ties to even. *)

Module Float64.

Definition round53 (p e : Z) : Z * Z :=
  let bits := Z.log2 p + 1 in
  if bits <=? 53 then (p, e)
  else
    let s := bits - 53 in
    let q := Z.shiftr p s in
    let r := Z.land p (Z.ones s) in
    let half := Z.shiftl 1 (s - 1) in
    let q' := if (half <? r) || ((r =? half) && Z.odd q) then q + 1 else q in
    (q', e + s).

(** [float(n)] for a non-negative integer. *)
Definition of_int (n : Z) : Z * Z := round53 n 0.

(** The double nearest to 0.95 is [0x1.e666666666666p-1]. *)
Definition mant_0_95 : Z := 8556839292003942.
Definition exp_0_95 : Z := -53.

(** [x * 0.95] in binary64. *)
Definition mul_0_95 (x : Z * Z) : Z * Z :=
  round53 (fst x * mant_0_95) (snd x + exp_0_95).

(** [int(x)] of a non-negative double: truncation. *)
Definition trunc (x : Z * Z) : Z :=
  if 0 <=? snd x then Z.shiftl (fst x) (snd x) else Z.shiftr (fst x) (- snd x).

(** [int(n * 0.95)] for a Python integer [n >= 0]. *)
Definition int_mul_0_95 (n : Z) : Z :=
  if n =? 0 then 0 else trunc (mul_0_95 (of_int n)).

(** The exact value the float computation approximates. *)
Definition floor_0_95 (n : Z) : Z := 19 * n / 20.

(** [2^e] for an integer exponent of either sign. *)
Definition pow2 (e : Z) : Q :=
  if 0 <=? e then inject_Z (2 ^ e) else 1 # Z.to_pos (2 ^ (- e)).

(** The integer nearest to [N / D] for [D > 0], ties to the even one. *)
Definition nearest_even (N D : Z) : Z :=
  let k := N / D in
  let r := N mod D in
  if 2 * r <? D then k
  else if D <? 2 * r then k + 1
  else if Z.even k then k else k + 1.

(** The double nearest to the positive rational [n / d]: the quotient is
    scaled by a power of two into [2^52, 2^54), rounded to an integer of 53
    bits, and scaled back. *)
Definition round_pos (n d : positive) : Q :=
  let e := Z.log2 (Zpos n) - Z.log2 (Zpos d) - 53 in
  let N := Zpos n * 2 ^ Z.max 0 (- e) in
  let D := Zpos d * 2 ^ Z.max 0 e in
  if N <? 2 ^ 53 * D
  then inject_Z (nearest_even N D) * pow2 e
  else inject_Z (nearest_even N (2 * D)) * (2 * pow2 e).

(** The double nearest to a rational, as a rational in lowest terms. *)
Definition round (q : Q) : Q :=
  Qred match Qnum q with
       | 0 => 0
       | Zpos n => round_pos n (Qden q)
       | Zneg n => - round_pos n (Qden q)
       end.

(** Half the distance from 1.0 to the next double: the relative error of one
    rounding is at most this. *)
Definition unit_roundoff : Q := 1 # 2 ^ 53.

(** [a - b] and [a / b] on floats. *)
Definition sub (a b : Q) : Q := round (round a - round b).
Definition div (a b : Q) : Q := round (round a / round b).

(** [a <= b] and [a < b] on floats, and [a >= b], [a > b] as Python
    evaluates them. *)
Definition le (a b : Q) : Prop := (round a <= round b)%Q.
Definition lt (a b : Q) : Prop := (round a < round b)%Q.
Definition geb (a b : Q) : bool := Qle_bool (round b) (round a).
Definition gtb (a b : Q) : bool := negb (Qle_bool (round a) (round b)).

(** [a / b] for Python integers: the correctly rounded quotient. *)
Definition div_int (a b : Z) : Q := round (inject_Z a / inject_Z b).

End Float64.

End Py.

Import Py.

(** ** Data model (models.py)

    The models.py of this version of the agent is not among the sources.  Each
    record below has the fields that the constructor calls and attribute
    reads of the sources use (simulator.py for [PaymentEvent], observer.py for
    [WindowMetrics], decision.py for [Action] and [DecisionTrace],
    reasoner.py for the hypothesis, learner.py for [OutcomeRecord]); the
    enumerations are those of the earlier models.py that is among them. *)

Inductive PaymentOutcome := SUCCESS | FAILED | PENDING | TIMEOUT.

Inductive ErrorCode :=
| NONE | INSUFFICIENT_FUNDS | ISSUER_UNAVAILABLE | NETWORK_TIMEOUT
| INVALID_CARD | RATE_LIMITED | UNKNOWN.

(** [ErrorCode.value] *)
Definition error_code_value (c : ErrorCode) : string :=
  match c with
  | NONE => "none"
  | INSUFFICIENT_FUNDS => "insufficient_funds"
  | ISSUER_UNAVAILABLE => "issuer_unavailable"
  | NETWORK_TIMEOUT => "network_timeout"
  | INVALID_CARD => "invalid_card"
  | RATE_LIMITED => "rate_limited"
  | UNKNOWN => "unknown"
  end.

Definition is_success (o : PaymentOutcome) : bool :=
  match o with
  | SUCCESS => true
  | _ => false
  end.

Record PaymentEvent := {
  event_id : string;
  issuer_bank : string;
  payment_method : string;
  merchant_id : option string;
  latency_ms : Q;
  retries : Z;
  outcome : PaymentOutcome;
  error_code : ErrorCode;
  timestamp : Q;
  total_attempts : option Z;
  estimated_cost : option Q
}.

(** An insertion-ordered dictionary with string keys. *)
Definition dict (V : Type) : Type := list (string * V).

Fixpoint dict_get {V} (d : dict V) (k : string) : option V :=
  match d with
  | [] => None
  | (k', v) :: t => if String.eqb k k' then Some v else dict_get t k
  end.

Fixpoint dict_set {V} (d : dict V) (k : string) (v : V) : dict V :=
  match d with
  | [] => [(k, v)]
  | (k', v') :: t =>
      if String.eqb k k' then (k', v) :: t else (k', v') :: dict_set t k v
  end.

(** The snapshot computed over the window.  The last five fields are the
    attributes the Observer attaches after construction; code that reads them
    with [getattr(metrics, name, None)] sees [None] when they are absent. *)
Record WindowMetrics := {
  window_id : string;
  start_ts : Q;
  end_ts : Q;
  success_rate : Q;
  p95_latency_ms : Q;
  retry_amplification : Q;
  error_distribution : dict Q;
  success_rate_by_issuer : dict Q;
  sample_count : Z;
  success_rate_by_merchant : option (dict Q);
  attempt_amplification_by_merchant : option (dict Q);
  avg_cost_by_merchant : option (dict Q);
  attempt_amplification : option Q;
  average_estimated_cost : option Q
}.

(** [m] with another window identifier. *)
Definition with_window_id (wid : string) (m : WindowMetrics) : WindowMetrics :=
  {| window_id := wid;
     start_ts := start_ts m;
     end_ts := end_ts m;
     success_rate := success_rate m;
     p95_latency_ms := p95_latency_ms m;
     retry_amplification := retry_amplification m;
     error_distribution := error_distribution m;
     success_rate_by_issuer := success_rate_by_issuer m;
     sample_count := sample_count m;
     success_rate_by_merchant := success_rate_by_merchant m;
     attempt_amplification_by_merchant := attempt_amplification_by_merchant m;
     avg_cost_by_merchant := avg_cost_by_merchant m;
     attempt_amplification := attempt_amplification m;
     average_estimated_cost := average_estimated_cost m |}.

(** Modelled from the spec: the declaration of [Hypothesis] is missing.  The
    fields are the keyword arguments the Reasoner passes; [uncertainty] is a
    number, as in the spec's data model ("confidence in [0,1], uncertainty in
    [0,1]").  The record cannot be called [Hypothesis], a reserved word. *)
Record Hyp := {
  cause : string;
  confidence : Q;
  evidence : string;
  source : string;
  uncertainty : Q
}.

(** [ActionType]: string constants. *)
Module ActionType.
Definition REROUTE : string := "reroute".
Definition RETRY_POLICY : string := "retry_policy".
Definition SUPPRESS : string := "suppress".
Definition NO_OP : string := "no_op".
End ActionType.

(** Values stored in [Action.params]. *)
Inductive PyVal :=
| VNone
| VBool (b : bool)
| VInt (z : Z)
| VFloat (q : Q)
| VStr (s : string).

(** Truthiness of a parameter value. *)
Definition truthy_val (v : PyVal) : bool :=
  match v with
  | VNone => false
  | VBool b => b
  | VInt z => negb (z =? 0)
  | VFloat q => negb (Qeq_bool q 0)
  | VStr s => truthy_str s
  end.

Definition val_opt_str (o : option string) : PyVal :=
  match o with
  | Some s => VStr s
  | None => VNone
  end.

Record Action := {
  action_type : string;
  target : option string;
  params : dict PyVal;
  risk_score : Q;
  reason : string
}.

Record DecisionTrace := {
  hypothesis : option Hyp;
  action : Action;
  trace_risk_score : Q;
  reasoning : string;
  trace_timestamp : Q
}.

(** ** Observer (observer.py) *)

Module Observer.

Record t := {
  window_size : Z;
  window_advance_events : Z;
  _buffer : list PaymentEvent;
  _window_counter : Z
}.

(** [Observer(window_size=200, window_advance_events=50)] *)
Definition init (ws wa : Z) : t :=
  {| window_size := ws; window_advance_events := wa;
     _buffer := []; _window_counter := 0 |}.

Definition ingest (o : t) (event : PaymentEvent) : t :=
  let buf := _buffer o ++ [event] in
  let buf' := if window_size o <? len buf then slice_last (window_size o) buf else buf in
  {| window_size := window_size o;
     window_advance_events := window_advance_events o;
     _buffer := buf';
     _window_counter := _window_counter o |}.

Definition ready (o : t) : bool := window_advance_events o <=? len (_buffer o).

(** [sorted(xs)]: a stable sort that compares with [<] only. *)
Fixpoint insert_sorted (x : Q) (l : list Q) : list Q :=
  match l with
  | [] => [x]
  | y :: t => if Qltb y x then y :: insert_sorted x t else x :: y :: t
  end.

Fixpoint sorted (l : list Q) : list Q :=
  match l with
  | [] => []
  | x :: t => insert_sorted x (sorted t)
  end.

(** [xs[i]] for [i >= 0]. *)
Definition index {A} (l : list A) (i : Z) : result A :=
  match l !! Z.to_nat i with
  | Some a => Ok a
  | None => Raise IndexError
  end.

Definition p95_index (n : Z) : Z := Z.max 0 (Float64.int_mul_0_95 n - 1).

Definition _latency_p95 (events : list PaymentEvent) : result Q :=
  match events with
  | [] => Ok 0%Q
  | _ =>
      let sorted_lat := sorted (map latency_ms events) in
      index sorted_lat (p95_index (len sorted_lat))
  end.

Definition count_true (l : list bool) : Z :=
  len (List.filter (fun b : bool => b) l).

(** [sum(v) / len(v)] for integers and floats; every call site guards the
    empty list. *)
Definition mean_bool (v : list bool) : Q := (inject_Z (count_true v) / inject_Z (len v))%Q.
Definition mean_int (v : list Z) : Q := (inject_Z (Zsum v) / inject_Z (len v))%Q.
Definition mean_float (v : list Q) : Q := (Qsum v / inject_Z (len v))%Q.

Definition _success_rate (events : list PaymentEvent) : Q :=
  match events with
  | [] => 0%Q
  | _ => mean_bool (map (fun e => is_success (outcome e)) events)
  end.

Definition _retry_amplification (events : list PaymentEvent) : Q :=
  match events with
  | [] => 0%Q
  | _ => mean_int (map retries events)
  end.

Definition _attempt_amplification (events : list PaymentEvent) : Q :=
  match omap total_attempts events with
  | [] => 1%Q
  | vals => mean_int vals
  end.

Definition _average_estimated_cost (events : list PaymentEvent) : Q :=
  match omap estimated_cost events with
  | [] => 0%Q
  | vals => mean_float vals
  end.

(** [d[k] = d[k] + 1] on a [defaultdict(int)] *)
Fixpoint count_incr (k : string) (d : dict Z) : dict Z :=
  match d with
  | [] => [(k, 1)]
  | (k', n) :: t =>
      if String.eqb k k' then (k', n + 1) :: t else (k', n) :: count_incr k t
  end.

Definition _error_distribution (events : list PaymentEvent) : dict Q :=
  let counts :=
    fold_left (fun d e => count_incr (error_code_value (error_code e)) d) events [] in
  let n := len events in
  if n =? 0 then []
  else map (fun kv => (fst kv, Float64.div_int (snd kv) n)) counts.

(** [d[k].append(v)] on a [defaultdict(list)] *)
Fixpoint group_append {A} (k : string) (v : A) (d : dict (list A)) : dict (list A) :=
  match d with
  | [] => [(k, [v])]
  | (k', vs) :: t =>
      if String.eqb k k' then (k', vs ++ [v]) :: t else (k', vs) :: group_append k v t
  end.

Definition map_values {A B} (f : A -> B) (d : dict A) : dict B :=
  map (fun kv => (fst kv, f (snd kv))) d.

Definition mean_or {A} (mean : list A -> Q) (dflt : Q) (v : list A) : Q :=
  match v with
  | [] => dflt
  | _ => mean v
  end.

Definition _success_rate_by_issuer (events : list PaymentEvent) : dict Q :=
  let by_issuer :=
    fold_left (fun d e => group_append (issuer_bank e) (is_success (outcome e)) d)
              events [] in
  map_values (mean_or mean_bool 0%Q) by_issuer.

Definition _success_rate_by_merchant (events : list PaymentEvent) : dict Q :=
  let by_merchant :=
    fold_left (fun d e =>
                 match merchant_id e with
                 | Some m => if truthy_str m
                             then group_append m (is_success (outcome e)) d else d
                 | None => d
                 end) events [] in
  map_values (mean_or mean_bool 0%Q) by_merchant.

Definition _attempt_amplification_by_merchant (events : list PaymentEvent) : dict Q :=
  let by_merchant :=
    fold_left (fun d e =>
                 match merchant_id e, total_attempts e with
                 | Some m, Some a => if truthy_str m then group_append m a d else d
                 | _, _ => d
                 end) events [] in
  map_values (mean_or mean_int 1%Q) by_merchant.

Definition _avg_cost_by_merchant (events : list PaymentEvent) : dict Q :=
  let by_merchant :=
    fold_left (fun d e =>
                 match merchant_id e, estimated_cost e with
                 | Some m, Some c => if truthy_str m then group_append m c d else d
                 | _, _ => d
                 end) events [] in
  map_values (mean_or mean_float 0%Q) by_merchant.

(** The body shared by [get_partial_metrics] and [get_current_metrics]:
    everything after the window identifier is chosen. *)
Definition build_metrics (wid : string) (events : list PaymentEvent)
  : result WindowMetrics :=
  start ← py_min (map timestamp events);
  stop ← py_max (map timestamp events);
  p95 ← _latency_p95 events;
  mret {| window_id := wid;
          start_ts := start;
          end_ts := stop;
          success_rate := _success_rate events;
          p95_latency_ms := p95;
          retry_amplification := _retry_amplification events;
          error_distribution := _error_distribution events;
          success_rate_by_issuer := _success_rate_by_issuer events;
          sample_count := len events;
          success_rate_by_merchant := Some (_success_rate_by_merchant events);
          attempt_amplification_by_merchant :=
            Some (_attempt_amplification_by_merchant events);
          avg_cost_by_merchant := Some (_avg_cost_by_merchant events);
          attempt_amplification := Some (_attempt_amplification events);
          average_estimated_cost := Some (_average_estimated_cost events) |}.

(** Both readers return the metrics together with the Observer after the call. *)
Definition get_partial_metrics (o : t) : result (option WindowMetrics * t) :=
  match _buffer o with
  | [] => mret (None, o)
  | _ =>
      let events := slice_last (window_size o) (_buffer o) in
      let wid := "partial-" +:+ str_int (len events) in
      m ← build_metrics wid events;
      mret (Some m, o)
  end.

Definition peek_metrics (o : t) : result (option WindowMetrics * t) :=
  get_partial_metrics o.

Definition get_current_metrics (o : t) : result (option WindowMetrics * t) :=
  match _buffer o with
  | [] => mret (None, o)
  | _ =>
      let events := slice_last (window_size o) (_buffer o) in
      let o' := {| window_size := window_size o;
                   window_advance_events := window_advance_events o;
                   _buffer := _buffer o;
                   _window_counter := _window_counter o + 1 |} in
      let wid := "w-" +:+ str_int (_window_counter o') in
      m ← build_metrics wid events;
      mret (Some m, o')
  end.

Definition advance (o : t) : t :=
  if window_advance_events o <=? len (_buffer o)
  then {| window_size := window_size o;
          window_advance_events := window_advance_events o;
          _buffer := slice_from (window_advance_events o) (_buffer o);
          _window_counter := _window_counter o |}
  else o.

End Observer.

(** [max(a, b)] and [min(a, b)] return the first argument on a tie. *)
Definition max2 (a b : Q) : Q := if Qgtb b a then b else a.
Definition min2 (a b : Q) : Q := if Qltb b a then b else a.

(** The persisted escalation record (state/pending_approval.json), as
    [Executor._set_pending_escalation] writes it.  A human approves or rejects
    by editing [status]. *)
Record PendingRecord := {
  active : bool;
  pr_action : Action;
  pr_action_type : string;
  pr_target : option string;
  pr_risk_score : Q;
  pr_reason : string;
  status : string;
  pr_timestamp : Q
}.

(** ** Reasoner (reasoner.py) *)

Module Reasoner.

Definition SUCCESS_RATE_DEGRADATION_THRESHOLD : Q := 75 # 100.
Definition P95_LATENCY_SPIKE_MS : Q := 600.
Definition RETRY_AMPLIFICATION_STORM : Q := 12 # 10.
Definition ATTEMPT_AMPLIFICATION_STORM : Q := 15 # 10.
Definition COST_ESCALATION_THRESHOLD : Q := 3 # 100.
Definition MIN_SAMPLE_FOR_ACT : Z := 30.
Definition CAUSE_INSUFFICIENT_SIGNAL : string := "INSUFFICIENT_SIGNAL".

Definition _compute_uncertainty (cause : string) (confidence : Q)
    (evidence_parts : list string) (metrics : WindowMetrics) : result Q :=
  let weak :=
    match evidence_parts with
    | [] => true
    | _ => String.eqb cause "Unknown" || String.eqb cause CAUSE_INSUFFICIENT_SIGNAL
    end in
  if weak then
    let u := (1 - confidence)%Q in
    let u := max2 u (5 # 10) in
    mret (min2 1 u)
  else
    let u := 0%Q in
    let u := if sample_count metrics <? 50 then (u + (25 # 100))%Q else u in
    let u := if sample_count metrics <? 100 then (u + (15 # 100))%Q else u in
    let by_issuer := success_rate_by_issuer metrics in
    let degraded_issuers :=
      List.filter (fun ir => Qltb (snd ir) SUCCESS_RATE_DEGRADATION_THRESHOLD) by_issuer in
    let u := if 1 <? len degraded_issuers then (u + (3 # 10))%Q else u in
    let err_dist := error_distribution metrics in
    u ← (if 3 <? len err_dist then
           top ← py_max (map snd err_dist);
           mret (if Qltb top (5 # 10) then (u + (2 # 10))%Q else u)
         else mret u);
    mret (min2 1 u).

(** The mutable locals of [_heuristic_hypothesis]. *)
Record locals := {
  l_cause : string;
  l_confidence : Q;
  l_evidence_parts : list string
}.

Definition _heuristic_hypothesis (metrics : WindowMetrics) : result Hyp :=
  if sample_count metrics <? MIN_SAMPLE_FOR_ACT then
    mret {| cause := CAUSE_INSUFFICIENT_SIGNAL;
            confidence := 0;
            evidence := "Sample count too low (" +:+ str_int (sample_count metrics)
                        +:+ ") for reliable hypothesis.";
            source := "heuristic";
            uncertainty := 1 |}
  else
    let st := {| l_cause := "Unknown"; l_confidence := 0; l_evidence_parts := [] |} in
    (* single-issuer degradation (worst success rate) *)
    st ← match success_rate_by_issuer metrics with
         | [] => mret st
         | items =>
             worst ← py_min_item items;
             let '(issuer_name, rate) := worst in
             if Qltb rate SUCCESS_RATE_DEGRADATION_THRESHOLD then
               mret {| l_cause := "Issuer_" +:+ issuer_name +:+ "_Degradation";
                       l_confidence := 85 # 100;
                       l_evidence_parts :=
                         l_evidence_parts st ++
                         ["Success rate for " +:+ issuer_name +:+ " dropped to "
                          +:+ format_percent 1 rate] |}
             else mret st
         end;
    (* legacy retry storm *)
    let st :=
      if Qgeb (retry_amplification metrics) RETRY_AMPLIFICATION_STORM
         && Qltb (success_rate metrics) (7 # 10)
         && Qltb (l_confidence st) (5 # 10)
      then {| l_cause := "Retry_Storm";
              l_confidence := 8 # 10;
              l_evidence_parts :=
                l_evidence_parts st ++
                ["Retry amplification " +:+ format_fixed 2 (retry_amplification metrics)
                 +:+ " with success rate " +:+ format_percent 1 (success_rate metrics)] |}
      else st in
    (* latency spike *)
    let st :=
      if Qgeb (p95_latency_ms metrics) P95_LATENCY_SPIKE_MS then
        let note := "P95 latency " +:+ format_fixed 0 (p95_latency_ms metrics) +:+ " ms" in
        if Qltb (l_confidence st) (5 # 10)
        then {| l_cause := "Latency_Spike";
                l_confidence := 75 # 100;
                l_evidence_parts := l_evidence_parts st ++ [note] |}
        else {| l_cause := l_cause st;
                l_confidence := l_confidence st;
                l_evidence_parts := l_evidence_parts st ++ [note] |}
      else st in
    (* global success-rate drop *)
    let st :=
      if Qltb (success_rate metrics) SUCCESS_RATE_DEGRADATION_THRESHOLD
         && match l_evidence_parts st with [] => true | _ => false end
      then {| l_cause := "General_Degradation";
              l_confidence := 7 # 10;
              l_evidence_parts :=
                l_evidence_parts st ++
                ["Overall success rate " +:+ format_percent 1 (success_rate metrics)] |}
      else st in
    (* attempt- and cost-aware retry storm *)
    let st :=
      match attempt_amplification metrics with
      | Some attempt_amp =>
          if Qgeb attempt_amp ATTEMPT_AMPLIFICATION_STORM
             && Qltb (success_rate metrics) (8 # 10)
          then
            let parts := ["Avg attempts per txn " +:+ format_fixed 2 attempt_amp;
                          "Success rate " +:+ format_percent 1 (success_rate metrics)] in
            match average_estimated_cost metrics with
            | Some avg_cost =>
                if Qgeb avg_cost COST_ESCALATION_THRESHOLD
                then {| l_cause := "Retry_Storm_Detected";
                        l_confidence := min2 (95 # 100) ((85 # 100) + (5 # 100))%Q;
                        l_evidence_parts :=
                          parts ++ ["Avg cost per txn " +:+ format_fixed 3 avg_cost] |}
                else {| l_cause := "Retry_Storm_Detected";
                        l_confidence := 85 # 100;
                        l_evidence_parts := parts |}
            | None => {| l_cause := "Retry_Storm_Detected";
                         l_confidence := 85 # 100;
                         l_evidence_parts := parts |}
            end
          else st
      | None => st
      end in
    let evidence0 :=
      match l_evidence_parts st with
      | [] => "No strong pattern detected."
      | parts => join " " parts
      end in
    let unknown := String.eqb (l_cause st) "Unknown" && Qeq_bool (l_confidence st) 0 in
    let cause1 := if unknown then CAUSE_INSUFFICIENT_SIGNAL else l_cause st in
    let evidence1 :=
      if unknown
      then "No strong pattern detected; insufficient signal to act (metrics stable or no clear degradation)."
      else evidence0 in
    u ← _compute_uncertainty cause1 (l_confidence st) (l_evidence_parts st) metrics;
    mret {| cause := cause1;
            confidence := l_confidence st;
            evidence := evidence1;
            source := "heuristic";
            uncertainty := u |}.

(** What the pluggable backend ([generate_hypothesis_llm]) may answer: a
    hypothesis whose uncertainty can be missing. *)
Record LlmAnswer := {
  llm_cause : string;
  llm_confidence : Q;
  llm_evidence : string;
  llm_source : string;
  llm_uncertainty : option Q
}.

(** [reason(metrics)]; [llm_h] is the backend's answer for these metrics. *)
Definition reason (llm_h : option LlmAnswer) (metrics : WindowMetrics) : result Hyp :=
  match llm_h with
  | Some a =>
      if Qgtb (llm_confidence a) 0 then
        u ← match llm_uncertainty a with
            | Some u => mret u
            | None => _compute_uncertainty (llm_cause a) (llm_confidence a)
                                           [llm_evidence a] metrics
            end;
        mret {| cause := llm_cause a;
                confidence := llm_confidence a;
                evidence := llm_evidence a;
                source := llm_source a;
                uncertainty := u |}
      else _heuristic_hypothesis metrics
  | None => _heuristic_hypothesis metrics
  end.

End Reasoner.

(** ** Decision engine (decision.py) *)

Module Decision.

Definition LOW_RISK_THRESHOLD : Q := 35 # 100.
Definition HIGH_RISK_THRESHOLD : Q := 65 # 100.
Definition MIN_CONFIDENCE_TO_ACT : Q := 6 # 10.
Definition REPEATED_ISSUER_WINDOW : Z := 5.
Definition RISK_BOOST_PER_REPEAT : Q := 8 # 100.
Definition ROLLBACK_COUNT_FORCE_HUMAN : Z := 2.
Definition SEVERE_DEGRADATION_SUCCESS_RATE : Q := 65 # 100.
Definition UNCERTAINTY_HANDOVER_THRESHOLD : Q := 5 # 10.
Definition MULTI_MERCHANT_DEGRADED_THRESHOLD : Z := 2.
Definition MERCHANT_DEGRADED_SUCCESS_RATE : Q := 75 # 100.
Definition SUCCESS_RATE_INTERVENE : Q := 78 # 100.
Definition P95_LATENCY_INTERVENE_MS : Q := 500.
Definition HIGH_COST_ESCALATION_THRESHOLD : Q := 5 # 100.
Definition HIGH_ATTEMPT_AMPLIFICATION : Q := 16 # 10.

(** One entry of [context["recent_causes"]]: the Orchestrator appends
    dictionaries; anything else is matched through [str(c)]. *)
Inductive CauseEntry :=
| CauseDict (c_cause : option string) (c_target : option string)
| CauseOther (c_repr : string).

(** The decision context the Orchestrator builds each cycle. *)
Record Context := {
  recent_causes : list CauseEntry;
  rollback_count : Z;
  pending_approval : option PendingRecord
}.

Definition _risk_score (h : Hyp) (a_type : string) (tgt : option string)
    (risk_accumulation : Q) : Q :=
  if String.eqb a_type ActionType.NO_OP then 0%Q
  else
    let base :=
      if String.eqb a_type ActionType.RETRY_POLICY then 25 # 100
      else if String.eqb a_type ActionType.REROUTE then 55 # 100
      else if String.eqb a_type ActionType.SUPPRESS then 6 # 10
      else 5 # 10 in
    let risk := (base * (1 - confidence h * (4 # 10)) + risk_accumulation)%Q in
    max2 0 (min2 1 risk).

Definition repeats (target_issuer : string) (c : CauseEntry) : bool :=
  match c with
  | CauseDict c_cause c_target =>
      let cause_text := match c_cause with
                        | Some s => if truthy_str s then s else ""
                        | None => ""
                        end in
      match c_target with
      | Some t => String.eqb t target_issuer
      | None => contains target_issuer cause_text
      end
  | CauseOther r => contains target_issuer r
  end.

Definition _compute_risk_accumulation (h : Hyp) (target_issuer : option string)
    (context : option Context) : Q :=
  match context, target_issuer with
  | Some ctx, Some ti =>
      if truthy_str ti then
        let recent := slice_last REPEATED_ISSUER_WINDOW (recent_causes ctx) in
        let count := len (List.filter (repeats ti) recent) in
        if count <=? 1 then 0%Q
        else min2 (25 # 100) (inject_Z (count - 1) * RISK_BOOST_PER_REPEAT)%Q
      else 0%Q
  | _, _ => 0%Q
  end.

Definition _should_force_human_handover (metrics : WindowMetrics) (h : Hyp)
    (context : option Context) : bool * list string :=
  let reasons := [] in
  let reasons :=
    if Qltb (success_rate metrics) SEVERE_DEGRADATION_SUCCESS_RATE
    then reasons ++ ["Severe degradation (success rate below threshold)"]
    else reasons in
  let rollbacks := match context with
                   | Some ctx => rollback_count ctx
                   | None => 0
                   end in
  let reasons :=
    if ROLLBACK_COUNT_FORCE_HUMAN <=? rollbacks
    then reasons ++ ["Multiple rollbacks (" +:+ str_int rollbacks
                     +:+ "); human approval required"]
    else reasons in
  let reasons :=
    match average_estimated_cost metrics with
    | Some avg_cost =>
        if Qgeb avg_cost HIGH_COST_ESCALATION_THRESHOLD
        then reasons ++ ["Economic risk (cost above escalation threshold)"]
        else reasons
    | None => reasons
    end in
  let by_merchant := match success_rate_by_merchant metrics with
                     | Some d => d
                     | None => []
                     end in
  let degraded_merchants :=
    List.filter (fun mr => Qltb (snd mr) MERCHANT_DEGRADED_SUCCESS_RATE) by_merchant in
  let reasons :=
    if MULTI_MERCHANT_DEGRADED_THRESHOLD <=? len degraded_merchants
    then reasons ++ ["Multiple merchants affected (" +:+ str_int (len degraded_merchants)
                     +:+ "); human approval required to confirm scope and action."]
    else reasons in
  let reasons :=
    if Qgeb (uncertainty h) UNCERTAINTY_HANDOVER_THRESHOLD
    then reasons ++ ["Uncertainty high (" +:+ format_fixed 2 (uncertainty h)
                     +:+ "); root cause unclear. Human approval required before acting."]
    else reasons in
  (0 <? len reasons, reasons).

Definition no_op (why : string) : Action :=
  {| action_type := ActionType.NO_OP; target := None; params := [];
     risk_score := 0; reason := why |}.

Definition with_param (a : Action) (k : string) (v : PyVal) : Action :=
  {| action_type := action_type a; target := target a;
     params := dict_set (params a) k v;
     risk_score := risk_score a; reason := reason a |}.

Definition with_risk (a : Action) (r : Q) : Action :=
  {| action_type := action_type a; target := target a; params := params a;
     risk_score := r; reason := reason a |}.

Definition forced_note (guardrail_reasons : list string) : string :=
  " Forced human approval: " +:+ join "; " guardrail_reasons +:+ ". ".

(** The cause-to-action mapping in the middle of [decide]: the proposed
    action and the reasoning text, starting from the default no-op [action0]
    and the reasoning prefix [reasoning0]. *)
Definition propose (metrics : WindowMetrics) (h : Hyp) (context : option Context)
    (force_human : bool) (guardrail_reasons : list string)
    (action0 : Action) (reasoning0 : string) : result (Action * string) :=
  let attempt_amp := attempt_amplification metrics in
  let avg_cost := average_estimated_cost metrics in
  let cause_u := upper (cause h) in
  if contains "ISSUER_" cause_u && contains "_DEGRADATION" cause_u then
    let parts := split "_" (replace "_DEGRADATION" "" (replace "ISSUER_" "" cause_u)) in
    let target_issuer := match parts with
                         | [] => None
                         | _ => Some (join "_" parts)
                         end in
    target_issuer ←
      (if negb (truthy_opt_str target_issuer)
          && match success_rate_by_issuer metrics with [] => false | _ => true end
       then worst ← py_min_item (success_rate_by_issuer metrics);
            mret (Some (fst worst))
       else mret target_issuer);
    if truthy_opt_str target_issuer then
      let risk_accum := _compute_risk_accumulation h target_issuer context in
      let a := {| action_type := ActionType.REROUTE;
                  target := target_issuer;
                  params := [("weight_reduce", VFloat (5 # 10))];
                  risk_score := _risk_score h ActionType.REROUTE target_issuer risk_accum;
                  reason := "Reroute traffic from degraded issuer "
                            +:+ str_opt target_issuer |} in
      let a := if force_human
               then with_param a "requires_human_approval" (VBool true) else a in
      let r := if force_human
               then reasoning0 +:+ forced_note guardrail_reasons else reasoning0 in
      mret (a, r +:+ "Issuer-level degradation detected; proposing reroute from "
                 +:+ str_opt target_issuer +:+ ".")
    else mret (action0, reasoning0)
  else if contains "RETRY_STORM" cause_u then
    let risk_accum := _compute_risk_accumulation h None context in
    let a := {| action_type := ActionType.RETRY_POLICY;
                target := None;
                params := [("max_retries", VInt 2);
                           ("backoff_scale", VFloat (15 # 10));
                           ("intent", VStr "reduce_retry_amplification")];
                risk_score := _risk_score h ActionType.RETRY_POLICY None risk_accum;
                reason := "Retry storm detected; reduce retries to limit cost and latency" |} in
    let r := reasoning0 +:+ "Retry storm detected; proposing retry policy tightening." in
    let costly := match avg_cost with
                  | Some c => Qgeb c HIGH_COST_ESCALATION_THRESHOLD
                  | None => false
                  end in
    let amplified := match attempt_amp with
                     | Some a => Qgeb a HIGH_ATTEMPT_AMPLIFICATION
                     | None => false
                     end in
    if force_human then
      mret (with_param a "requires_human_approval" (VBool true),
            r +:+ forced_note guardrail_reasons)
    else if costly || amplified then
      mret (with_param a "requires_human_approval" (VBool true),
            r +:+ " Elevated cost or retry amplification detected; "
              +:+ "human approval required before applying.")
    else mret (a, r)
  else if contains "LATENCY_SPIKE" cause_u then
    mret ({| action_type := ActionType.SUPPRESS;
             target := Some "heavy_path";
             params := [("duration_sec", VInt 60)];
             risk_score := _risk_score h ActionType.SUPPRESS (Some "heavy_path") 0;
             reason := "Latency spike detected; temporarily suppress heavy path" |},
          reasoning0 +:+ "Latency spike detected; proposing temporary suppression.")
  else if contains "GENERAL_DEGRADATION" cause_u || contains "DEGRADATION" cause_u then
    mret ({| action_type := ActionType.RETRY_POLICY;
             target := None;
             params := [("max_retries", VInt 2)];
             risk_score := _risk_score h ActionType.RETRY_POLICY None 0;
             reason := "General degradation; conservative retry reduction" |},
          reasoning0
          +:+ "General degradation detected; proposing conservative retry adjustment.")
  else mret (action0, reasoning0).

(** The end of [decide]: final risk assignment, forced approval, and the
    thrashing guard against the pending escalation. *)
Definition finish (h : Hyp) (context : option Context) (force_human : bool)
    (action1 : Action) (reasoning1 : string) (now : Q) : DecisionTrace :=
  let risk_accum := _compute_risk_accumulation h (target action1) context in
  let action2 :=
    with_risk action1
      (_risk_score h (action_type action1) (target action1) risk_accum) in
  let is_op := negb (String.eqb (action_type action2) ActionType.NO_OP) in
  let action3 :=
    if force_human && is_op
    then with_param action2 "requires_human_approval" (VBool true) else action2 in
  let pending := match context with
                 | Some ctx => pending_approval ctx
                 | None => None
                 end in
  let duplicate :=
    match pending with
    | Some p =>
        is_op && String.eqb (action_type action3) (pr_action_type p)
              && bool_decide (target action3 = pr_target p)
    | None => false
    end in
  if duplicate then
    {| hypothesis := Some h;
       action := no_op "Waiting for human approval";
       trace_risk_score := 0;
       reasoning := reasoning1 +:+ " [WAITING] Identical action pending human approval.";
       trace_timestamp := now |}
  else
    {| hypothesis := Some h;
       action := action3;
       trace_risk_score := risk_score action3;
       reasoning := reasoning1;
       trace_timestamp := now |}.

Definition reasoning_prefix (h : Hyp) : string :=
  "Hypothesis: " +:+ cause h +:+ " (confidence=" +:+ format_fixed 2 (confidence h)
  +:+ ", source=" +:+ source h +:+ "). ".

(** [decide(metrics, hypothesis, context)]; [now] is the reading of
    [time.time()] stamped on the trace. *)
Definition decide (metrics : WindowMetrics) (h : Hyp) (context : option Context)
    (now : Q) : result DecisionTrace :=
  if truthy_str (cause h) && contains "INSUFFICIENT_SIGNAL" (upper (cause h)) then
    mret {| hypothesis := Some h;
            action := no_op "Insufficient signal";
            trace_risk_score := 0;
            reasoning := "Hypothesis: " +:+ cause h +:+ " (confidence="
                         +:+ format_fixed 2 (confidence h) +:+ "). "
                         +:+ evidence h +:+ " No action taken.";
            trace_timestamp := now |}
  else
    let action0 := no_op "No intervention needed" in
    let reasoning0 := reasoning_prefix h in
    if Qltb (confidence h) MIN_CONFIDENCE_TO_ACT then
      mret {| hypothesis := Some h;
              action := action0;
              trace_risk_score := 0;
              reasoning := reasoning0 +:+ "Confidence below threshold; no action taken.";
              trace_timestamp := now |}
    else
      let '(force_human, guardrail_reasons) :=
        _should_force_human_handover metrics h context in
      '(action1, reasoning1) ←
        propose metrics h context force_human guardrail_reasons action0 reasoning0;
      mret (finish h context force_human action1 reasoning1 now).

End Decision.

(** ** Executor (executor.py) *)

Module Executor.

Definition AUTO_EXECUTE_RISK_THRESHOLD : Q := 45 # 100.
Definition ROLLBACK_SUCCESS_RATE_DROP : Q := 8 # 100.
Definition ROLLBACK_LATENCY_INCREASE_FRACTION : Q := 25 # 100.

(** A command sent through the injected [simulator_control] callback. *)
Record SimCmd := {
  cmd : string;
  cmd_params : dict PyVal
}.

(** What the Executor shares with the outside: the pending-approval file
    (state_writer.read_pending_approval / write_pending_approval) and the
    commands received by the controlled system. *)
Record World := {
  pending_file : option PendingRecord;
  sim_calls : list SimCmd
}.

Definition read_pending_approval (w : World) : option PendingRecord := pending_file w.

Definition write_pending_approval (approval : option PendingRecord) (w : World) : World :=
  {| pending_file := approval; sim_calls := sim_calls w |}.

Definition send (c : SimCmd) (w : World) : World :=
  {| pending_file := pending_file w; sim_calls := sim_calls w ++ [c] |}.

(** The bookkeeping dictionary kept beside an active trace. *)
Record Meta := {
  applied_at : Q;
  meta_status : string
}.

Record t := {
  _active_actions : list (DecisionTrace * Meta);
  _baseline_metrics : option WindowMetrics;
  _rollback_log : list string;
  _execution_log : list string;
  _simulator_control : bool;   (* is a callback installed? *)
  _pending_escalation : option PendingRecord
}.

Definition set_active l (e : t) : t :=
  {| _active_actions := l; _baseline_metrics := _baseline_metrics e;
     _rollback_log := _rollback_log e; _execution_log := _execution_log e;
     _simulator_control := _simulator_control e;
     _pending_escalation := _pending_escalation e |}.

Definition set_baseline b (e : t) : t :=
  {| _active_actions := _active_actions e; _baseline_metrics := b;
     _rollback_log := _rollback_log e; _execution_log := _execution_log e;
     _simulator_control := _simulator_control e;
     _pending_escalation := _pending_escalation e |}.

Definition set_rollback_log l (e : t) : t :=
  {| _active_actions := _active_actions e; _baseline_metrics := _baseline_metrics e;
     _rollback_log := l; _execution_log := _execution_log e;
     _simulator_control := _simulator_control e;
     _pending_escalation := _pending_escalation e |}.

Definition log_execution (msg : string) (e : t) : t :=
  {| _active_actions := _active_actions e; _baseline_metrics := _baseline_metrics e;
     _rollback_log := _rollback_log e; _execution_log := _execution_log e ++ [msg];
     _simulator_control := _simulator_control e;
     _pending_escalation := _pending_escalation e |}.

Definition set_pending p (e : t) : t :=
  {| _active_actions := _active_actions e; _baseline_metrics := _baseline_metrics e;
     _rollback_log := _rollback_log e; _execution_log := _execution_log e;
     _simulator_control := _simulator_control e;
     _pending_escalation := p |}.

(** [Executor()]: the constructor syncs with a persisted pending record. *)
Definition init (w : World) : t :=
  {| _active_actions := []; _baseline_metrics := None;
     _rollback_log := []; _execution_log := [];
     _simulator_control := false;
     _pending_escalation :=
       match read_pending_approval w with
       | Some p => if String.eqb (status p) "pending" then Some p else None
       | None => None
       end |}.

Definition set_simulator_control (e : t) : t :=
  {| _active_actions := _active_actions e; _baseline_metrics := _baseline_metrics e;
     _rollback_log := _rollback_log e; _execution_log := _execution_log e;
     _simulator_control := true;
     _pending_escalation := _pending_escalation e |}.

(** [{"issuer": target, **params}] *)
Definition reroute_params (tgt : string) (ps : dict PyVal) : dict PyVal :=
  fold_left (fun d kv => dict_set d (fst kv) (snd kv)) ps [("issuer", VStr tgt)].

Definition _apply_action (e : t) (trace : DecisionTrace) (w : World) : bool * World :=
  let a := action trace in
  if _simulator_control e then
    if String.eqb (action_type a) ActionType.REROUTE && truthy_opt_str (target a) then
      match target a with
      | Some tgt => (true, send {| cmd := "reroute"; cmd_params := reroute_params tgt (params a) |} w)
      | None => (true, w)
      end
    else if String.eqb (action_type a) ActionType.RETRY_POLICY then
      (true, send {| cmd := "retry_policy"; cmd_params := params a |} w)
    else if String.eqb (action_type a) ActionType.SUPPRESS then
      (true, send {| cmd := "suppress"; cmd_params := params a |} w)
    else (true, w)
  else (true, w).

Definition pending_of (a : Action) (why : string) (now : Q) : PendingRecord :=
  {| active := true;
     pr_action := a;
     pr_action_type := action_type a;
     pr_target := target a;
     pr_risk_score := risk_score a;
     pr_reason := why;
     status := "pending";
     pr_timestamp := now |}.

Definition _set_pending_escalation (e : t) (a : Action) (why : string) (now : Q)
    (w : World) : t * World :=
  let p := pending_of a why now in
  (set_pending (Some p) e, write_pending_approval (Some p) w).

Definition requires_human_approval (a : Action) : bool :=
  match dict_get (params a) "requires_human_approval" with
  | Some (VBool true) => true
  | _ => false
  end.

Definition approval_msg (a : Action) : string :=
  "[HUMAN-APPROVAL-REQUIRED] Action requires human approval: " +:+ action_type a
  +:+ " target=" +:+ str_opt (target a)
  +:+ " (risk=" +:+ format_fixed 2 (risk_score a) +:+ ")".

Definition high_risk_msg (a : Action) : string :=
  "[HUMAN-IN-THE-LOOP] High-risk action not auto-executed: " +:+ action_type a
  +:+ " target=" +:+ str_opt (target a)
  +:+ " risk=" +:+ format_fixed 2 (risk_score a).

(** [execute(trace, current_metrics)]; [now] is the reading of the clock. *)
Definition execute (e : t) (trace : DecisionTrace) (current_metrics : WindowMetrics)
    (now : Q) (w : World) : (bool * string) * t * World :=
  let a := action trace in
  if String.eqb (action_type a) ActionType.NO_OP then ((true, "NO_OP"), e, w)
  else if requires_human_approval a then
    let msg := approval_msg a in
    let '(e1, w1) :=
      _set_pending_escalation (log_execution msg e) a
        "Human approval required (cost/retry guardrail)" now w in
    ((false, msg), e1, w1)
  else if Qgeb (risk_score a) AUTO_EXECUTE_RISK_THRESHOLD then
    let msg := high_risk_msg a in
    let '(e1, w1) :=
      _set_pending_escalation (log_execution msg e) a
        "High risk; human approval required" now w in
    ((false, msg), e1, w1)
  else
    let e1 := match _active_actions e with
              | [] => set_baseline (Some current_metrics) e
              | _ => e
              end in
    let '(applied, w1) := _apply_action e1 trace w in
    if applied then
      let e2 := set_active (_active_actions e1 ++
                              [(trace, {| applied_at := now; meta_status := "executed" |})]) e1 in
      let msg := "Executed: " +:+ action_type a +:+ " target=" +:+ str_opt (target a) in
      ((true, msg), log_execution msg e2, w1)
    else
      let msg := "Failed to execute: " +:+ action_type a in
      ((false, msg), log_execution msg e1, w1).

Definition _rollback_action (e : t) (trace : DecisionTrace) (w : World) : World :=
  if _simulator_control e then
    send {| cmd := "rollback";
            cmd_params :=
              [("action_type", VStr (action_type (action trace)));
               ("target", val_opt_str (target (action trace)))] |} w
  else w.

Definition success_dropped (base cur : WindowMetrics) : bool :=
  Float64.geb (Float64.sub (success_rate base) (success_rate cur))
              ROLLBACK_SUCCESS_RATE_DROP.

Definition latency_increased (base cur : WindowMetrics) : bool :=
  Float64.gtb (p95_latency_ms base) 0
  && Float64.geb (Float64.div (Float64.sub (p95_latency_ms cur) (p95_latency_ms base))
                              (p95_latency_ms base))
                 ROLLBACK_LATENCY_INCREASE_FRACTION.

Definition rollback_msg (trace : DecisionTrace) (sd li : bool) : string :=
  "Rollback: " +:+ action_type (action trace)
  +:+ " (success_drop=" +:+ str_bool sd +:+ ", latency_inc=" +:+ str_bool li +:+ ")".

(** The loop of [check_rollback] over the active actions. *)
Fixpoint rollback_all (e : t) (sd li : bool) (active : list (DecisionTrace * Meta))
    (rollbacks : list string) (w : World) : list string * t * World :=
  match active with
  | [] => (rollbacks, e, w)
  | (trace, _) :: rest =>
      let w1 := _rollback_action e trace w in
      let msg := rollback_msg trace sd li in
      rollback_all (set_rollback_log (_rollback_log e ++ [msg]) e) sd li rest
                   (rollbacks ++ [msg]) w1
  end.

Definition check_rollback (e : t) (current_metrics : WindowMetrics) (w : World)
  : list string * t * World :=
  match _active_actions e, _baseline_metrics e with
  | [], _ => ([], e, w)
  | _, None => ([], e, w)
  | active, Some base =>
      let sd := success_dropped base current_metrics in
      let li := latency_increased base current_metrics in
      if sd || li then
        let '(rollbacks, e1, w1) := rollback_all e sd li active [] w in
        (rollbacks, set_baseline None (set_active [] e1), w1)
      else ([], e, w)
  end.

Definition get_active_actions (e : t) : list DecisionTrace := map fst (_active_actions e).
Definition get_rollback_count (e : t) : Z := len (_rollback_log e).
Definition get_escalation_state (e : t) : option PendingRecord := _pending_escalation e.

(** [check_and_apply_approval(metrics)] returns
    [(processed_something, message, approved_action)]. *)
Definition check_and_apply_approval (e : t) (metrics : WindowMetrics) (now : Q)
    (w : World) : (bool * option string * option Action) * t * World :=
  let loaded :=
    match _pending_escalation e with
    | Some _ => Some e
    | None =>
        match read_pending_approval w with
        | Some disk_state =>
            if String.eqb (status disk_state) "pending"
            then Some (set_pending (Some disk_state) e) else None
        | None => None
        end
    end in
  match loaded with
  | None => ((false, None, None), e, w)
  | Some e0 =>
      match read_pending_approval w with
      | None => ((false, None, None), set_pending None e0, w)
      | Some persisted =>
          if String.eqb (status persisted) "approved" then
            let a := pr_action persisted in
            let trace := {| hypothesis := None;
                            action := a;
                            trace_risk_score := risk_score a;
                            reasoning := "Human approved via dashboard";
                            trace_timestamp := now |} in
            let e1 := set_baseline (Some metrics) e0 in
            let '(success, w1) := _apply_action e1 trace w in
            let msg := "Human APPROVED: " +:+ action_type a
                       +:+ " target=" +:+ str_opt (target a) in
            let e2 := log_execution msg e1 in
            let e3 := if success
                      then set_active (_active_actions e2 ++
                             [(trace, {| applied_at := now; meta_status := "executed" |})]) e2
                      else e2 in
            ((true, Some msg, Some a), set_pending None e3, write_pending_approval None w1)
          else if String.eqb (status persisted) "rejected" then
            let msg := "Human REJECTED the proposed action." in
            ((true, Some msg, None), set_pending None (log_execution msg e0),
             write_pending_approval None w)
          else ((false, None, None), e0, w)
      end
  end.

Definition clear_escalation (e : t) (w : World) : t * World :=
  (set_pending None e, write_pending_approval None w).

End Executor.

(** ** Learner (learner.py) *)

Module Learner.

Definition HELPED_SUCCESS_IMPROVEMENT : Q := 3 # 100.
Definition HELPED_LATENCY_REDUCTION : Q := 15 # 100.
Definition HARMFUL_COST_INCREASE : Q := 4 # 100.
Definition HARMFUL_ATTEMPT_AMPLIFICATION : Q := 16 # 10.
Definition MAX_OUTCOME_RECORDS : Z := 500.

(** The dictionary built by [_metrics_snapshot]. *)
Record Snapshot := {
  s_success_rate : Q;
  s_p95_latency_ms : Q;
  s_retry_amplification : Q;
  s_sample_count : Z;
  s_average_estimated_cost : option Q;
  s_attempt_amplification : option Q
}.

Definition _metrics_snapshot (m : WindowMetrics) : Snapshot :=
  {| s_success_rate := success_rate m;
     s_p95_latency_ms := p95_latency_ms m;
     s_retry_amplification := retry_amplification m;
     s_sample_count := sample_count m;
     s_average_estimated_cost := average_estimated_cost m;
     s_attempt_amplification := attempt_amplification m |}.

Record OutcomeRecord := {
  context_snapshot : Snapshot;
  or_action : Action;
  outcome_metrics : Snapshot;
  helped : bool;
  rollback_applied : bool
}.

(** The counters [{"helped": _, "hurt": _, "neutral": _}] of one action type. *)
Record Stats := {
  n_helped : Z;
  n_hurt : Z;
  n_neutral : Z
}.

Definition zero_stats : Stats := {| n_helped := 0; n_hurt := 0; n_neutral := 0 |}.

Record t := {
  _outcomes : list OutcomeRecord;
  _context_before_action : option Snapshot;
  _action_pending : option Action;
  _action_stats : gmap string Stats
}.

Definition init : t :=
  {| _outcomes := []; _context_before_action := None;
     _action_pending := None; _action_stats := ∅ |}.

Definition record_decision_context (l : t) (metrics : WindowMetrics) (a : Action) : t :=
  if String.eqb (action_type a) "no_op" then l
  else {| _outcomes := _outcomes l;
          _context_before_action := Some (_metrics_snapshot metrics);
          _action_pending := Some a;
          _action_stats := _action_stats l |}.

Definition sr_improved (before after : Snapshot) : bool :=
  Float64.geb (Float64.sub (s_success_rate after) (s_success_rate before))
              HELPED_SUCCESS_IMPROVEMENT.

Definition lat_reduced (before after : Snapshot) : bool :=
  Float64.gtb (s_p95_latency_ms before) 0
  && Float64.geb (Float64.div (Float64.sub (s_p95_latency_ms before) (s_p95_latency_ms after))
                              (s_p95_latency_ms before))
                 HELPED_LATENCY_REDUCTION.

Definition cost_harmful (after : Snapshot) : bool :=
  match s_average_estimated_cost after with
  | Some cost_after => Float64.geb cost_after HARMFUL_COST_INCREASE
  | None => false
  end.

Definition attempts_harmful (after : Snapshot) : bool :=
  match s_attempt_amplification after with
  | Some attempt_after => Float64.geb attempt_after HARMFUL_ATTEMPT_AMPLIFICATION
  | None => false
  end.

(** Returns [(helped, learning_score)]: +1 helpful, 0 neutral, -1 harmful. *)
Definition _evaluate_helped (before after : Snapshot) (rollback : bool) : bool * Z :=
  if rollback then (false, -1)
  else if cost_harmful after then (false, -1)
  else if attempts_harmful after then (false, -1)
  else if sr_improved before after || lat_reduced before after then (true, 1)
  else (false, 0).

Definition bump (learning_score : Z) (s : Stats) : Stats :=
  if 0 <? learning_score then
    {| n_helped := n_helped s + 1; n_hurt := n_hurt s; n_neutral := n_neutral s |}
  else if learning_score <? 0 then
    {| n_helped := n_helped s; n_hurt := n_hurt s + 1; n_neutral := n_neutral s |}
  else
    {| n_helped := n_helped s; n_hurt := n_hurt s; n_neutral := n_neutral s + 1 |}.

Definition record_outcome (l : t) (metrics_after : WindowMetrics) (rollback : bool) : t :=
  match _context_before_action l, _action_pending l with
  | Some before, Some a =>
      let outcome_metrics := _metrics_snapshot metrics_after in
      let '(helped, learning_score) := _evaluate_helped before outcome_metrics rollback in
      let record := {| context_snapshot := before;
                       or_action := a;
                       outcome_metrics := outcome_metrics;
                       helped := helped;
                       rollback_applied := rollback |} in
      let outcomes := _outcomes l ++ [record] in
      let outcomes := if MAX_OUTCOME_RECORDS <? len outcomes
                      then slice_last MAX_OUTCOME_RECORDS outcomes else outcomes in
      let a_type := action_type a in
      let stats := match _action_stats l !! a_type with
                   | Some _ => _action_stats l
                   | None => <[a_type := zero_stats]> (_action_stats l)
                   end in
      let stats := alter (bump learning_score) a_type stats in
      {| _outcomes := outcomes;
         _context_before_action := None;
         _action_pending := None;
         _action_stats := stats |}
  | _, _ => l
  end.

Definition cancel_pending (l : t) : t :=
  {| _outcomes := _outcomes l;
     _context_before_action := None;
     _action_pending := None;
     _action_stats := _action_stats l |}.

Definition get_recent_outcomes (l : t) (n : Z) : list OutcomeRecord :=
  slice_last n (_outcomes l).

Definition get_action_effectiveness (l : t) : gmap string Stats := _action_stats l.

End Learner.

(** *** Learner: the summary published with the control state *)

Module LearnerState.

Record t := {
  ls_helped : Z;
  ls_hurt : Z;
  ls_neutral : Z;
  ls_recent_rollbacks : list string;
  ls_action_effectiveness : gmap string Learner.Stats
}.

Definition get_learning_state (l : Learner.t) : t :=
  let recent := Learner.get_recent_outcomes l 20 in
  let helped :=
    len (List.filter (fun r => Learner.helped r && negb (Learner.rollback_applied r)) recent) in
  let hurt := len (List.filter Learner.rollback_applied recent) in
  let rollbacks :=
    map (fun r => action_type (Learner.or_action r) +:+ " target="
                  +:+ str_opt (target (Learner.or_action r)))
        (List.filter Learner.rollback_applied recent) in
  {| ls_helped := helped;
     ls_hurt := hurt;
     ls_neutral := len recent - helped - hurt;
     ls_recent_rollbacks := slice_last 5 rollbacks;
     ls_action_effectiveness := Learner._action_stats l |}.

End LearnerState.

(** ** Orchestrator (agent.py) *)

Module Agent.

Definition UNCERTAINTY_THRESHOLD : Q := 5 # 10.
Definition MIN_CONFIDENCE_TO_ACT : Q := 6 # 10.
Definition RISK_ACCUMULATION_SAME_CAUSE_COUNT : Z := 2.
Definition DEBOUNCE_SEC : Q := 3.

Definition OUTCOME_EXECUTED : string := "executed".
Definition OUTCOME_BLOCKED : string := "blocked".
Definition OUTCOME_SKIPPED_COOLDOWN : string := "skipped_cooldown".
Definition OUTCOME_ROLLED_BACK : string := "rolled_back".

Definition SYSTEM_MODE_NORMAL : string := "NORMAL".
Definition SYSTEM_MODE_DEGRADED : string := "DEGRADED".
Definition SYSTEM_MODE_HUMAN_APPROVAL_REQUIRED : string := "HUMAN_APPROVAL_REQUIRED".
Definition SYSTEM_MODE_COOLDOWN_ACTIVE : string := "COOLDOWN_ACTIVE".

Definition ActionKey : Type := string * option string.
Definition WrittenKey : Type := string * option string * string.

(** One call of [state_writer.write_action]. *)
Record ActionWrite := {
  aw_action_type : string;
  aw_target : option string;
  aw_risk_score : Q;
  aw_reason : string;
  aw_reasoning : string;
  aw_executed : bool;
  aw_message : string;
  aw_ts : Q;
  aw_outcome : string;
  aw_guardrails_triggered : list string;
  aw_append_to_history : bool;
  aw_what_changed_since_last : option string;
  aw_why_action_now : option string;
  aw_why_human_approval : option string
}.

(** One call of [state_writer.write_control_state]. *)
Record ControlWrite := {
  cw_system_mode : string;
  cw_ts : Q;
  cw_cooldown_until_ts : option Q;
  cw_escalation : option PendingRecord;
  cw_learning : LearnerState.t
}.

(** Everything the Orchestrator publishes or commands, in order. *)
Inductive Publication :=
| PubHypothesis (h : Hyp) (ts : Q)
| PubMetrics (m : WindowMetrics) (ts : Q)
| PubAction (w : ActionWrite)
| PubControl (w : ControlWrite)
| SimClearFailureMode.

Record World := {
  exw : Executor.World;
  published : list Publication
}.

(** A write of a state file, or a command to the simulator, recorded in
    order.  The write is taken to succeed: [_write_json] of state_writer.py
    can raise an [OSError], which agent.py does not catch and which is not
    modelled here. *)
Definition publish (p : Publication) (w : World) : World :=
  {| exw := exw w; published := published w ++ [p] |}.

Definition with_exw (x : Executor.World) (w : World) : World :=
  {| exw := x; published := published w |}.

Record MetricsBrief := {
  mb_success_rate : Q;
  mb_p95_latency_ms : Q;
  mb_sample_count : Z
}.

Record t := {
  executor : Executor.t;
  learner : Learner.t;
  _last_action_executed : bool;
  _pending_outcome : bool;
  _cycle_count : Z;
  _recent_causes : list Decision.CauseEntry;
  _max_recent_causes : Z;
  _last_executed_action_key : option ActionKey;
  _last_executed_cycle : Z;
  _cooldown_until_cycle : option Z;
  _cooldown_cycles : Z;
  _last_written_action_key : option WrittenKey;
  _last_executed_trace : option DecisionTrace;
  _last_decision_ts : Q;
  _last_decision_action_key : option ActionKey;
  _last_decision_metrics_snapshot : option MetricsBrief;
  _last_decision_hypothesis_cause : option string;
  _baseline_metrics : option WindowMetrics
}.

(** [Agent(simulator, observer, executor, learner)] *)
Definition init (e : Executor.t) (l : Learner.t) : t :=
  {| executor := Executor.set_simulator_control e;
     learner := l;
     _last_action_executed := false;
     _pending_outcome := false;
     _cycle_count := 0;
     _recent_causes := [];
     _max_recent_causes := 10;
     _last_executed_action_key := None;
     _last_executed_cycle := -1;
     _cooldown_until_cycle := None;
     _cooldown_cycles := 2;
     _last_written_action_key := None;
     _last_executed_trace := None;
     _last_decision_ts := 0;
     _last_decision_action_key := None;
     _last_decision_metrics_snapshot := None;
     _last_decision_hypothesis_cause := None;
     _baseline_metrics := None |}.

(** [Counter(keys)] and the largest count. *)
Definition count_occ_key (k : option string * option string)
    (keys : list (option string * option string)) : Z :=
  len (List.filter (fun k' => bool_decide (k = k')) keys).

Definition _risk_accumulation_signal (a : t) : bool :=
  if len (_recent_causes a) <? RISK_ACCUMULATION_SAME_CAUSE_COUNT then false
  else
    let recent := slice_last 5 (_recent_causes a) in
    let keys := omap (fun c => match c with
                               | Decision.CauseDict c t => Some (c, t)
                               | Decision.CauseOther _ => None
                               end) recent in
    match keys with
    | [] => false
    | _ => existsb (fun k => RISK_ACCUMULATION_SAME_CAUSE_COUNT <=? count_occ_key k keys) keys
    end.

Definition _should_trigger_reason_decide (a : t) (h : Hyp) : bool :=
  if Qgeb (uncertainty h) UNCERTAINTY_THRESHOLD then true
  else if Qgeb (confidence h) MIN_CONFIDENCE_TO_ACT then true
  else _risk_accumulation_signal a.

Definition _explain_what_changed (a : t) (metrics : WindowMetrics) : string :=
  match _last_decision_metrics_snapshot a with
  | None => "First decision in this run."
  | Some prev =>
      let parts := [] in
      let parts :=
        if Qgeb (Qabs (success_rate metrics - mb_success_rate prev)) (2 # 100)
        then parts ++ ["success_rate " +:+ format_percent 1 (mb_success_rate prev)
                       +:+ " -> " +:+ format_percent 1 (success_rate metrics)]
        else parts in
      let parts :=
        if Qgeb (Qabs (p95_latency_ms metrics - mb_p95_latency_ms prev)) 20
        then parts ++ ["p95_latency " +:+ format_fixed 0 (mb_p95_latency_ms prev)
                       +:+ " -> " +:+ format_fixed 0 (p95_latency_ms metrics) +:+ " ms"]
        else parts in
      let parts :=
        if negb (sample_count metrics =? mb_sample_count prev)
        then parts ++ ["sample_count " +:+ str_int (mb_sample_count prev)
                       +:+ " -> " +:+ str_int (sample_count metrics)]
        else parts in
      match parts with
      | [] => "No significant metric change since last decision."
      | _ => join "; " parts
      end
  end.

Definition _explain_why_action_now (a : t) (h : Hyp) : string :=
  if Qgeb (confidence h) MIN_CONFIDENCE_TO_ACT then
    "Confidence crossed threshold (" +:+ format_fixed 2 (confidence h) +:+ " >= 0.6)."
  else if Qgeb (uncertainty h) UNCERTAINTY_THRESHOLD then
    "Uncertainty high (" +:+ format_fixed 2 (uncertainty h) +:+ "); evaluation triggered."
  else if _risk_accumulation_signal a then
    "Risk accumulation: same cause/target repeating."
  else "Trigger: confidence or uncertainty or risk signal.".

Definition system_mode (a : t) (metrics : WindowMetrics) (cooldown_active : bool) : string :=
  let escalated := match Executor.get_escalation_state (executor a) with
                   | Some p => active p
                   | None => false
                   end in
  let cooling := match _cooldown_until_cycle a with
                 | Some c => _cycle_count a <=? c
                 | None => false
                 end in
  if escalated then SYSTEM_MODE_HUMAN_APPROVAL_REQUIRED
  else if cooldown_active || cooling then SYSTEM_MODE_COOLDOWN_ACTIVE
  else if Qltb (success_rate metrics) (78 # 100) then SYSTEM_MODE_DEGRADED
  else SYSTEM_MODE_NORMAL.

Definition _write_control_state (a : t) (metrics : WindowMetrics) (ts : Q)
    (cooldown_active : bool) (w : World) : World :=
  publish
    (PubControl
       {| cw_system_mode := system_mode a metrics cooldown_active;
          cw_ts := ts;
          cw_cooldown_until_ts :=
            match _cooldown_until_cycle a with
            | Some c => Some (ts + inject_Z (c - _cycle_count a) * 2)%Q
            | None => None
            end;
          cw_escalation := Executor.get_escalation_state (executor a);
          cw_learning := LearnerState.get_learning_state (learner a) |}) w.

(** Attribute assignments [self.f = v]. *)

Definition set_executor v (a : t) : t :=
  {| executor := v;
     learner := learner a;
     _last_action_executed := _last_action_executed a;
     _pending_outcome := _pending_outcome a;
     _cycle_count := _cycle_count a;
     _recent_causes := _recent_causes a;
     _max_recent_causes := _max_recent_causes a;
     _last_executed_action_key := _last_executed_action_key a;
     _last_executed_cycle := _last_executed_cycle a;
     _cooldown_until_cycle := _cooldown_until_cycle a;
     _cooldown_cycles := _cooldown_cycles a;
     _last_written_action_key := _last_written_action_key a;
     _last_executed_trace := _last_executed_trace a;
     _last_decision_ts := _last_decision_ts a;
     _last_decision_action_key := _last_decision_action_key a;
     _last_decision_metrics_snapshot := _last_decision_metrics_snapshot a;
     _last_decision_hypothesis_cause := _last_decision_hypothesis_cause a;
     _baseline_metrics := _baseline_metrics a |}.

Definition set_learner v (a : t) : t :=
  {| executor := executor a;
     learner := v;
     _last_action_executed := _last_action_executed a;
     _pending_outcome := _pending_outcome a;
     _cycle_count := _cycle_count a;
     _recent_causes := _recent_causes a;
     _max_recent_causes := _max_recent_causes a;
     _last_executed_action_key := _last_executed_action_key a;
     _last_executed_cycle := _last_executed_cycle a;
     _cooldown_until_cycle := _cooldown_until_cycle a;
     _cooldown_cycles := _cooldown_cycles a;
     _last_written_action_key := _last_written_action_key a;
     _last_executed_trace := _last_executed_trace a;
     _last_decision_ts := _last_decision_ts a;
     _last_decision_action_key := _last_decision_action_key a;
     _last_decision_metrics_snapshot := _last_decision_metrics_snapshot a;
     _last_decision_hypothesis_cause := _last_decision_hypothesis_cause a;
     _baseline_metrics := _baseline_metrics a |}.

Definition set_last_action_executed v (a : t) : t :=
  {| executor := executor a;
     learner := learner a;
     _last_action_executed := v;
     _pending_outcome := _pending_outcome a;
     _cycle_count := _cycle_count a;
     _recent_causes := _recent_causes a;
     _max_recent_causes := _max_recent_causes a;
     _last_executed_action_key := _last_executed_action_key a;
     _last_executed_cycle := _last_executed_cycle a;
     _cooldown_until_cycle := _cooldown_until_cycle a;
     _cooldown_cycles := _cooldown_cycles a;
     _last_written_action_key := _last_written_action_key a;
     _last_executed_trace := _last_executed_trace a;
     _last_decision_ts := _last_decision_ts a;
     _last_decision_action_key := _last_decision_action_key a;
     _last_decision_metrics_snapshot := _last_decision_metrics_snapshot a;
     _last_decision_hypothesis_cause := _last_decision_hypothesis_cause a;
     _baseline_metrics := _baseline_metrics a |}.

Definition set_pending_outcome v (a : t) : t :=
  {| executor := executor a;
     learner := learner a;
     _last_action_executed := _last_action_executed a;
     _pending_outcome := v;
     _cycle_count := _cycle_count a;
     _recent_causes := _recent_causes a;
     _max_recent_causes := _max_recent_causes a;
     _last_executed_action_key := _last_executed_action_key a;
     _last_executed_cycle := _last_executed_cycle a;
     _cooldown_until_cycle := _cooldown_until_cycle a;
     _cooldown_cycles := _cooldown_cycles a;
     _last_written_action_key := _last_written_action_key a;
     _last_executed_trace := _last_executed_trace a;
     _last_decision_ts := _last_decision_ts a;
     _last_decision_action_key := _last_decision_action_key a;
     _last_decision_metrics_snapshot := _last_decision_metrics_snapshot a;
     _last_decision_hypothesis_cause := _last_decision_hypothesis_cause a;
     _baseline_metrics := _baseline_metrics a |}.

Definition set_cycle_count v (a : t) : t :=
  {| executor := executor a;
     learner := learner a;
     _last_action_executed := _last_action_executed a;
     _pending_outcome := _pending_outcome a;
     _cycle_count := v;
     _recent_causes := _recent_causes a;
     _max_recent_causes := _max_recent_causes a;
     _last_executed_action_key := _last_executed_action_key a;
     _last_executed_cycle := _last_executed_cycle a;
     _cooldown_until_cycle := _cooldown_until_cycle a;
     _cooldown_cycles := _cooldown_cycles a;
     _last_written_action_key := _last_written_action_key a;
     _last_executed_trace := _last_executed_trace a;
     _last_decision_ts := _last_decision_ts a;
     _last_decision_action_key := _last_decision_action_key a;
     _last_decision_metrics_snapshot := _last_decision_metrics_snapshot a;
     _last_decision_hypothesis_cause := _last_decision_hypothesis_cause a;
     _baseline_metrics := _baseline_metrics a |}.

Definition set_recent_causes v (a : t) : t :=
  {| executor := executor a;
     learner := learner a;
     _last_action_executed := _last_action_executed a;
     _pending_outcome := _pending_outcome a;
     _cycle_count := _cycle_count a;
     _recent_causes := v;
     _max_recent_causes := _max_recent_causes a;
     _last_executed_action_key := _last_executed_action_key a;
     _last_executed_cycle := _last_executed_cycle a;
     _cooldown_until_cycle := _cooldown_until_cycle a;
     _cooldown_cycles := _cooldown_cycles a;
     _last_written_action_key := _last_written_action_key a;
     _last_executed_trace := _last_executed_trace a;
     _last_decision_ts := _last_decision_ts a;
     _last_decision_action_key := _last_decision_action_key a;
     _last_decision_metrics_snapshot := _last_decision_metrics_snapshot a;
     _last_decision_hypothesis_cause := _last_decision_hypothesis_cause a;
     _baseline_metrics := _baseline_metrics a |}.

Definition set_last_executed_action_key v (a : t) : t :=
  {| executor := executor a;
     learner := learner a;
     _last_action_executed := _last_action_executed a;
     _pending_outcome := _pending_outcome a;
     _cycle_count := _cycle_count a;
     _recent_causes := _recent_causes a;
     _max_recent_causes := _max_recent_causes a;
     _last_executed_action_key := v;
     _last_executed_cycle := _last_executed_cycle a;
     _cooldown_until_cycle := _cooldown_until_cycle a;
     _cooldown_cycles := _cooldown_cycles a;
     _last_written_action_key := _last_written_action_key a;
     _last_executed_trace := _last_executed_trace a;
     _last_decision_ts := _last_decision_ts a;
     _last_decision_action_key := _last_decision_action_key a;
     _last_decision_metrics_snapshot := _last_decision_metrics_snapshot a;
     _last_decision_hypothesis_cause := _last_decision_hypothesis_cause a;
     _baseline_metrics := _baseline_metrics a |}.

Definition set_last_executed_cycle v (a : t) : t :=
  {| executor := executor a;
     learner := learner a;
     _last_action_executed := _last_action_executed a;
     _pending_outcome := _pending_outcome a;
     _cycle_count := _cycle_count a;
     _recent_causes := _recent_causes a;
     _max_recent_causes := _max_recent_causes a;
     _last_executed_action_key := _last_executed_action_key a;
     _last_executed_cycle := v;
     _cooldown_until_cycle := _cooldown_until_cycle a;
     _cooldown_cycles := _cooldown_cycles a;
     _last_written_action_key := _last_written_action_key a;
     _last_executed_trace := _last_executed_trace a;
     _last_decision_ts := _last_decision_ts a;
     _last_decision_action_key := _last_decision_action_key a;
     _last_decision_metrics_snapshot := _last_decision_metrics_snapshot a;
     _last_decision_hypothesis_cause := _last_decision_hypothesis_cause a;
     _baseline_metrics := _baseline_metrics a |}.

Definition set_cooldown_until_cycle v (a : t) : t :=
  {| executor := executor a;
     learner := learner a;
     _last_action_executed := _last_action_executed a;
     _pending_outcome := _pending_outcome a;
     _cycle_count := _cycle_count a;
     _recent_causes := _recent_causes a;
     _max_recent_causes := _max_recent_causes a;
     _last_executed_action_key := _last_executed_action_key a;
     _last_executed_cycle := _last_executed_cycle a;
     _cooldown_until_cycle := v;
     _cooldown_cycles := _cooldown_cycles a;
     _last_written_action_key := _last_written_action_key a;
     _last_executed_trace := _last_executed_trace a;
     _last_decision_ts := _last_decision_ts a;
     _last_decision_action_key := _last_decision_action_key a;
     _last_decision_metrics_snapshot := _last_decision_metrics_snapshot a;
     _last_decision_hypothesis_cause := _last_decision_hypothesis_cause a;
     _baseline_metrics := _baseline_metrics a |}.

Definition set_last_written_action_key v (a : t) : t :=
  {| executor := executor a;
     learner := learner a;
     _last_action_executed := _last_action_executed a;
     _pending_outcome := _pending_outcome a;
     _cycle_count := _cycle_count a;
     _recent_causes := _recent_causes a;
     _max_recent_causes := _max_recent_causes a;
     _last_executed_action_key := _last_executed_action_key a;
     _last_executed_cycle := _last_executed_cycle a;
     _cooldown_until_cycle := _cooldown_until_cycle a;
     _cooldown_cycles := _cooldown_cycles a;
     _last_written_action_key := v;
     _last_executed_trace := _last_executed_trace a;
     _last_decision_ts := _last_decision_ts a;
     _last_decision_action_key := _last_decision_action_key a;
     _last_decision_metrics_snapshot := _last_decision_metrics_snapshot a;
     _last_decision_hypothesis_cause := _last_decision_hypothesis_cause a;
     _baseline_metrics := _baseline_metrics a |}.

Definition set_last_executed_trace v (a : t) : t :=
  {| executor := executor a;
     learner := learner a;
     _last_action_executed := _last_action_executed a;
     _pending_outcome := _pending_outcome a;
     _cycle_count := _cycle_count a;
     _recent_causes := _recent_causes a;
     _max_recent_causes := _max_recent_causes a;
     _last_executed_action_key := _last_executed_action_key a;
     _last_executed_cycle := _last_executed_cycle a;
     _cooldown_until_cycle := _cooldown_until_cycle a;
     _cooldown_cycles := _cooldown_cycles a;
     _last_written_action_key := _last_written_action_key a;
     _last_executed_trace := v;
     _last_decision_ts := _last_decision_ts a;
     _last_decision_action_key := _last_decision_action_key a;
     _last_decision_metrics_snapshot := _last_decision_metrics_snapshot a;
     _last_decision_hypothesis_cause := _last_decision_hypothesis_cause a;
     _baseline_metrics := _baseline_metrics a |}.

Definition set_last_decision_ts v (a : t) : t :=
  {| executor := executor a;
     learner := learner a;
     _last_action_executed := _last_action_executed a;
     _pending_outcome := _pending_outcome a;
     _cycle_count := _cycle_count a;
     _recent_causes := _recent_causes a;
     _max_recent_causes := _max_recent_causes a;
     _last_executed_action_key := _last_executed_action_key a;
     _last_executed_cycle := _last_executed_cycle a;
     _cooldown_until_cycle := _cooldown_until_cycle a;
     _cooldown_cycles := _cooldown_cycles a;
     _last_written_action_key := _last_written_action_key a;
     _last_executed_trace := _last_executed_trace a;
     _last_decision_ts := v;
     _last_decision_action_key := _last_decision_action_key a;
     _last_decision_metrics_snapshot := _last_decision_metrics_snapshot a;
     _last_decision_hypothesis_cause := _last_decision_hypothesis_cause a;
     _baseline_metrics := _baseline_metrics a |}.

Definition set_last_decision_action_key v (a : t) : t :=
  {| executor := executor a;
     learner := learner a;
     _last_action_executed := _last_action_executed a;
     _pending_outcome := _pending_outcome a;
     _cycle_count := _cycle_count a;
     _recent_causes := _recent_causes a;
     _max_recent_causes := _max_recent_causes a;
     _last_executed_action_key := _last_executed_action_key a;
     _last_executed_cycle := _last_executed_cycle a;
     _cooldown_until_cycle := _cooldown_until_cycle a;
     _cooldown_cycles := _cooldown_cycles a;
     _last_written_action_key := _last_written_action_key a;
     _last_executed_trace := _last_executed_trace a;
     _last_decision_ts := _last_decision_ts a;
     _last_decision_action_key := v;
     _last_decision_metrics_snapshot := _last_decision_metrics_snapshot a;
     _last_decision_hypothesis_cause := _last_decision_hypothesis_cause a;
     _baseline_metrics := _baseline_metrics a |}.

Definition set_last_decision_metrics_snapshot v (a : t) : t :=
  {| executor := executor a;
     learner := learner a;
     _last_action_executed := _last_action_executed a;
     _pending_outcome := _pending_outcome a;
     _cycle_count := _cycle_count a;
     _recent_causes := _recent_causes a;
     _max_recent_causes := _max_recent_causes a;
     _last_executed_action_key := _last_executed_action_key a;
     _last_executed_cycle := _last_executed_cycle a;
     _cooldown_until_cycle := _cooldown_until_cycle a;
     _cooldown_cycles := _cooldown_cycles a;
     _last_written_action_key := _last_written_action_key a;
     _last_executed_trace := _last_executed_trace a;
     _last_decision_ts := _last_decision_ts a;
     _last_decision_action_key := _last_decision_action_key a;
     _last_decision_metrics_snapshot := v;
     _last_decision_hypothesis_cause := _last_decision_hypothesis_cause a;
     _baseline_metrics := _baseline_metrics a |}.

Definition set_last_decision_hypothesis_cause v (a : t) : t :=
  {| executor := executor a;
     learner := learner a;
     _last_action_executed := _last_action_executed a;
     _pending_outcome := _pending_outcome a;
     _cycle_count := _cycle_count a;
     _recent_causes := _recent_causes a;
     _max_recent_causes := _max_recent_causes a;
     _last_executed_action_key := _last_executed_action_key a;
     _last_executed_cycle := _last_executed_cycle a;
     _cooldown_until_cycle := _cooldown_until_cycle a;
     _cooldown_cycles := _cooldown_cycles a;
     _last_written_action_key := _last_written_action_key a;
     _last_executed_trace := _last_executed_trace a;
     _last_decision_ts := _last_decision_ts a;
     _last_decision_action_key := _last_decision_action_key a;
     _last_decision_metrics_snapshot := _last_decision_metrics_snapshot a;
     _last_decision_hypothesis_cause := v;
     _baseline_metrics := _baseline_metrics a |}.

Definition set_baseline_metrics v (a : t) : t :=
  {| executor := executor a;
     learner := learner a;
     _last_action_executed := _last_action_executed a;
     _pending_outcome := _pending_outcome a;
     _cycle_count := _cycle_count a;
     _recent_causes := _recent_causes a;
     _max_recent_causes := _max_recent_causes a;
     _last_executed_action_key := _last_executed_action_key a;
     _last_executed_cycle := _last_executed_cycle a;
     _cooldown_until_cycle := _cooldown_until_cycle a;
     _cooldown_cycles := _cooldown_cycles a;
     _last_written_action_key := _last_written_action_key a;
     _last_executed_trace := _last_executed_trace a;
     _last_decision_ts := _last_decision_ts a;
     _last_decision_action_key := _last_decision_action_key a;
     _last_decision_metrics_snapshot := _last_decision_metrics_snapshot a;
     _last_decision_hypothesis_cause := _last_decision_hypothesis_cause a;
     _baseline_metrics := v |}.

Definition written_key (aw : ActionWrite) : WrittenKey :=
  (aw_action_type aw, aw_target aw, aw_outcome aw).

(** [write_action(...)] preceded by the de-duplication test on
    [_last_written_action_key]; [mk] builds the record from [append]. *)
Definition write_action_dedup (a : t) (mk : bool -> ActionWrite) (w : World) : t * World :=
  let current_key := written_key (mk true) in
  let append := negb (bool_decide (Some current_key = _last_written_action_key a)) in
  let a' := if append then set_last_written_action_key (Some current_key) a else a in
  (a', publish (PubAction (mk append)) w).

Definition in_cycle_cooldown (a : t) (action_key : ActionKey) : bool :=
  bool_decide (_last_executed_action_key a = Some action_key)
  && (_cycle_count a - _last_executed_cycle a <=? _cooldown_cycles a).

Definition in_time_cooldown (a : t) (action_key : ActionKey) (now : Q) : bool :=
  bool_decide (_last_decision_action_key a = Some action_key)
  && Qltb (now - _last_decision_ts a) DEBOUNCE_SEC
  && _last_action_executed a.

(** The part of [run_cycle] after [decide]: bookkeeping of recent causes, the
    no-op write, the debounce, the execution and its publication. *)
Definition act (a : t) (metrics : WindowMetrics) (h : Hyp) (trace : DecisionTrace)
    (ts now : Q) (w : World) : t * World :=
  let act_ := action trace in
  let causes := _recent_causes a ++ [Decision.CauseDict (Some (cause h)) (target act_)] in
  let causes := if _max_recent_causes a <? len causes
                then slice_last (_max_recent_causes a) causes else causes in
  let a := set_recent_causes causes a in
  let guardrails_triggered :=
    match dict_get (params act_) "requires_human_approval" with
    | Some v => if truthy_val v then ["Human approval required"] else []
    | None => []
    end in
  if String.eqb (action_type act_) ActionType.NO_OP then
    let '(a, w) :=
      write_action_dedup a
        (fun append =>
           {| aw_action_type := "no_op"; aw_target := None; aw_risk_score := 0;
              aw_reason := reason act_; aw_reasoning := reasoning trace;
              aw_executed := false; aw_message := "No intervention needed";
              aw_ts := ts; aw_outcome := "executed";
              aw_guardrails_triggered := guardrails_triggered;
              aw_append_to_history := append;
              aw_what_changed_since_last := None; aw_why_action_now := None;
              aw_why_human_approval := None |}) w in
    (a, _write_control_state a metrics ts false w)
  else
    let action_key : ActionKey := (action_type act_, target act_) in
    if in_cycle_cooldown a action_key || in_time_cooldown a action_key now then
      let a := set_cooldown_until_cycle (Some (_cycle_count a + _cooldown_cycles a)) a in
      let a := set_learner (Learner.cancel_pending (learner a)) a in
      let msg := "[COOLDOWN] Skipped: " +:+ action_type act_ +:+ " target="
                 +:+ str_opt (target act_) +:+ " (same action within cooldown)" in
      let '(a, w) :=
        write_action_dedup a
          (fun append =>
             {| aw_action_type := action_type act_; aw_target := target act_;
                aw_risk_score := risk_score act_;
                aw_reason := reason act_; aw_reasoning := reasoning trace;
                aw_executed := false; aw_message := msg;
                aw_ts := ts; aw_outcome := OUTCOME_SKIPPED_COOLDOWN;
                aw_guardrails_triggered := ["Cooldown active"];
                aw_append_to_history := append;
                aw_what_changed_since_last := None; aw_why_action_now := None;
                aw_why_human_approval := None |}) w in
      (a, _write_control_state a metrics ts true w)
    else
      let '((executed, msg), ex, xw) :=
        Executor.execute (executor a) trace metrics now (exw w) in
      let a := set_executor ex a in
      let w := with_exw xw w in
      let outcome := if executed then "executed" else "blocked" in
      let a :=
        if executed then
          set_baseline_metrics (Some metrics)
            (set_pending_outcome true
               (set_last_decision_action_key (Some action_key)
                  (set_last_decision_ts now
                     (set_last_executed_cycle (_cycle_count a)
                        (set_last_executed_action_key (Some action_key)
                           (set_last_action_executed true a))))))
        else set_last_action_executed false a in
      let what_changed := _explain_what_changed a metrics in
      let why_now := _explain_why_action_now a h in
      let why_human := match guardrails_triggered with
                       | [] => None
                       | _ => Some (join "; " guardrails_triggered)
                       end in
      let a := set_last_decision_metrics_snapshot
                 (Some {| mb_success_rate := success_rate metrics;
                          mb_p95_latency_ms := p95_latency_ms metrics;
                          mb_sample_count := sample_count metrics |}) a in
      let a := set_last_decision_hypothesis_cause (Some (cause h)) a in
      let '(a, w) :=
        write_action_dedup a
          (fun append =>
             {| aw_action_type := action_type act_; aw_target := target act_;
                aw_risk_score := risk_score act_;
                aw_reason := reason act_; aw_reasoning := reasoning trace;
                aw_executed := executed; aw_message := msg;
                aw_ts := ts; aw_outcome := outcome;
                aw_guardrails_triggered := guardrails_triggered;
                aw_append_to_history := append;
                aw_what_changed_since_last := Some what_changed;
                aw_why_action_now := Some why_now;
                aw_why_human_approval := why_human |}) w in
      let '(a, w) :=
        if executed then
          let a := set_last_action_executed true a in
          let a := set_last_executed_trace (Some trace) a in
          let a := set_learner (Learner.record_decision_context (learner a) metrics act_) a in
          let w := if String.eqb (action_type act_) "reroute" && truthy_opt_str (target act_)
                   then publish SimClearFailureMode w else w in
          (a, w)
        else
          let a := set_learner (Learner.cancel_pending (learner a)) a in
          (set_last_executed_trace None a, w) in
      (a, _write_control_state a metrics ts false w).

(** [run_cycle(metrics, hypothesis)].  [ts] and [now] are the two readings of
    the clock the method takes; [llm_h] is what the hypothesis backend would
    answer if the caller passed no hypothesis. *)
Definition run_cycle (a : t) (metrics : WindowMetrics) (hypothesis : option Hyp)
    (llm_h : option Reasoner.LlmAnswer) (ts now : Q) (w : World)
  : result (t * World) :=
  let a := set_cycle_count (_cycle_count a + 1) a in
  let a := set_last_action_executed false a in
  h ← match hypothesis with
      | Some h => mret h
      | None => Reasoner.reason llm_h metrics
      end;
  let w := publish (PubHypothesis h ts) w in
  (* expire cooldown *)
  let a := match _cooldown_until_cycle a with
           | Some c => if c <? _cycle_count a then set_cooldown_until_cycle None a else a
           | None => a
           end in
  let pending := Executor.get_escalation_state (executor a) in
  let pending_active := match pending with
                        | Some p => if active p then Some p else None
                        | None => None
                        end in
  let context := {| Decision.recent_causes := _recent_causes a;
                    Decision.rollback_count := Executor.get_rollback_count (executor a);
                    Decision.pending_approval := pending_active |} in
  (* poll for approval *)
  let '((approved, approval_msg, approved_action), ex, xw) :=
    Executor.check_and_apply_approval (executor a) metrics ts (exw w) in
  let a := set_executor ex a in
  let w := with_exw xw w in
  if approved then
    let a :=
      match approval_msg, approved_action with
      | Some m, Some aa =>
          if contains "APPROVED" m then
            set_last_executed_cycle (_cycle_count a)
              (set_last_executed_action_key (Some (action_type aa, target aa))
                 (set_last_decision_ts ts
                    (set_pending_outcome true
                       (set_last_action_executed true a))))
          else set_learner (Learner.cancel_pending (learner a)) a
      | _, _ => set_learner (Learner.cancel_pending (learner a)) a
      end in
    mret (a, _write_control_state a metrics ts false w)
  else
    let w := publish (PubMetrics metrics ts) w in
    match pending_active with
    | Some _ => mret (a, _write_control_state a metrics ts false w)
    | None =>
        trace ← Decision.decide metrics h (Some context) ts;
        mret (act a metrics h trace ts now w)
    end.

(** [check_rollback_and_learn(metrics)]; [now] stamps the rolled-back write. *)
Definition check_rollback_and_learn (a : t) (metrics : WindowMetrics) (now : Q)
    (w : World) : t * World :=
  let '(rollbacks, ex, xw) := Executor.check_rollback (executor a) metrics (exw w) in
  let a := set_executor ex a in
  let w := with_exw xw w in
  let '(a, w) :=
    match rollbacks, _last_executed_trace a with
    | _ :: _, Some trace =>
        let aw := {| aw_action_type := action_type (action trace);
                     aw_target := target (action trace);
                     aw_risk_score := risk_score (action trace);
                     aw_reason := reason (action trace);
                     aw_reasoning := "Rolled back due to metric regression";
                     aw_executed := false;
                     aw_message := "Rollback: " +:+ action_type (action trace)
                                   +:+ " target=" +:+ str_opt (target (action trace));
                     aw_ts := now;
                     aw_outcome := OUTCOME_ROLLED_BACK;
                     aw_guardrails_triggered := ["Rollback applied"];
                     aw_append_to_history := true;
                     aw_what_changed_since_last := None; aw_why_action_now := None;
                     aw_why_human_approval := None |} in
        (set_last_executed_trace None
           (set_last_written_action_key (Some (written_key aw)) a),
         publish (PubAction aw) w)
    | _, _ => (a, w)
    end in
  if _last_action_executed a then
    (set_learner (Learner.record_outcome (learner a) metrics
                    (match rollbacks with [] => false | _ => true end)) a, w)
  else (a, w).

End Agent.

(** ** The specification's wording, for comparison with the code *)

Module Spec.

(** "index = floor(n * 0.95), clamped >= 0" *)
Definition p95_index (n : Z) : Z := Z.max 0 (Float64.floor_0_95 n).

Definition latency_p95 (events : list PaymentEvent) : result Q :=
  let sorted_lat := Observer.sorted (map latency_ms events) in
  Observer.index sorted_lat (p95_index (len sorted_lat)).

(** "success rate dropped by at least 0.08, or p95 latency exceeds a positive
    baseline by a fraction of at least 0.25" *)
Definition regression (base cur : WindowMetrics) : Prop :=
  (success_rate base - success_rate cur >= 8 # 100)%Q \/
  ((0 < p95_latency_ms base)%Q /\
   ((p95_latency_ms cur - p95_latency_ms base) / p95_latency_ms base >= 25 # 100)%Q).

(** The "rollback" command that reverts one applied action. *)
Definition rollback_cmd (trace : DecisionTrace) : Executor.SimCmd :=
  {| Executor.cmd := "rollback";
     Executor.cmd_params :=
       [("action_type", VStr (action_type (action trace)));
        ("target", val_opt_str (target (action trace)))] |}.

(** What applying an action sends to the controlled system: a reroute with
    a target is the "reroute" command naming the issuer, a retry-policy or
    suppress action is the command of that name with the action's
    parameters; any other action, and every action of an Executor without a
    callback, sends nothing. *)
Definition applied_cmds (callback : bool) (a : Action) : list Executor.SimCmd :=
  if negb callback then []
  else if String.eqb (action_type a) "reroute" then
    match target a with
    | Some tgt =>
        if String.eqb tgt "" then []
        else [{| Executor.cmd := "reroute";
                 Executor.cmd_params := Executor.reroute_params tgt (params a) |}]
    | None => []
    end
  else if String.eqb (action_type a) "retry_policy" then
    [{| Executor.cmd := "retry_policy"; Executor.cmd_params := params a |}]
  else if String.eqb (action_type a) "suppress" then
    [{| Executor.cmd := "suppress"; Executor.cmd_params := params a |}]
  else [].

(** "rollback implies hurt; otherwise a cost or retry-amplification increase
    beyond the harm thresholds implies hurt; otherwise a success-rate
    improvement or latency reduction beyond the help thresholds implies
    helped; otherwise neutral" *)
Inductive Verdict := Helped | Hurt | Neutral.

(** "an increase beyond the threshold": the value after the action exceeds
    the value before it by at least the threshold. *)
Definition increased (before after : option Q) (threshold : Q) : bool :=
  match before, after with
  | Some b, Some x => Qgeb (x - b)%Q threshold
  | _, _ => false
  end.

Definition harmful (before after : Learner.Snapshot) : bool :=
  increased (Learner.s_average_estimated_cost before)
            (Learner.s_average_estimated_cost after) Learner.HARMFUL_COST_INCREASE
  || increased (Learner.s_attempt_amplification before)
               (Learner.s_attempt_amplification after)
               Learner.HARMFUL_ATTEMPT_AMPLIFICATION.

Definition helpful (before after : Learner.Snapshot) : bool :=
  Qgeb (Learner.s_success_rate after - Learner.s_success_rate before)%Q
       Learner.HELPED_SUCCESS_IMPROVEMENT
  || (Qgtb (Learner.s_p95_latency_ms before) 0
      && Qgeb ((Learner.s_p95_latency_ms before - Learner.s_p95_latency_ms after)
               / Learner.s_p95_latency_ms before)%Q
              Learner.HELPED_LATENCY_REDUCTION).

Definition classify (before after : Learner.Snapshot) (rollback : bool) : Verdict :=
  if rollback then Hurt
  else if harmful before after then Hurt
  else if helpful before after then Helped
  else Neutral.

(** One more outcome of the given verdict. *)
Definition counted (v : Verdict) (s : Learner.Stats) : Learner.Stats :=
  match v with
  | Helped => {| Learner.n_helped := Learner.n_helped s + 1;
                 Learner.n_hurt := Learner.n_hurt s;
                 Learner.n_neutral := Learner.n_neutral s |}
  | Hurt => {| Learner.n_helped := Learner.n_helped s;
               Learner.n_hurt := Learner.n_hurt s + 1;
               Learner.n_neutral := Learner.n_neutral s |}
  | Neutral => {| Learner.n_helped := Learner.n_helped s;
                  Learner.n_hurt := Learner.n_hurt s;
                  Learner.n_neutral := Learner.n_neutral s + 1 |}
  end.

Definition is_helped (v : Verdict) : bool :=
  match v with
  | Helped => true
  | _ => false
  end.

(** A cause that matches none of the patterns [decide] recognises. *)
Definition unrecognized (c : string) : Prop :=
  let u := upper c in
  contains "INSUFFICIENT_SIGNAL" u = false /\
  (contains "ISSUER_" u && contains "_DEGRADATION" u = false) /\
  contains "RETRY_STORM" u = false /\
  contains "LATENCY_SPIKE" u = false /\
  contains "GENERAL_DEGRADATION" u = false /\
  contains "DEGRADATION" u = false.

(** What starts a debounce window: the last-executed key and cycle, and the
    last-decision timestamp and key. *)
Definition debounce_keys (a : Agent.t) :=
  (Agent._last_executed_action_key a, Agent._last_executed_cycle a,
   Agent._last_decision_ts a, Agent._last_decision_action_key a).

End Spec.

(** ** The conditions the code decides, where they differ from the wording *)

Module Amended.

(** The regression test of [check_rollback] as binary64 evaluates it: the
    rounded difference of the success rates is at least the double nearest
    to 0.08, or the rounded relative rise of the p95 latency over a positive
    baseline is at least 0.25. *)
Definition regression (base cur : WindowMetrics) : Prop :=
  Float64.le (8 # 100) (Float64.sub (success_rate base) (success_rate cur)) \/
  (Float64.lt 0 (p95_latency_ms base) /\
   Float64.le (25 # 100)
              (Float64.div (Float64.sub (p95_latency_ms cur) (p95_latency_ms base))
                           (p95_latency_ms base))).

(** The harm test of the Learner reads the level after the action, not its
    change: an average estimated cost of at least 0.04, or an attempt
    amplification of at least 1.6, in the metrics of the outcome. *)
Definition at_least (x : option Q) (level : Q) : bool :=
  match x with
  | Some v => Float64.geb v level
  | None => false
  end.

Definition harmful (after : WindowMetrics) : bool :=
  at_least (average_estimated_cost after) (4 # 100)
  || at_least (attempt_amplification after) (16 # 10).

(** The help test compares the outcome with the stored context, in binary64:
    success rate up by at least 0.03, or p95 latency down by at least 15% of
    a positive value before. *)
Definition helpful (before : Learner.Snapshot) (after : WindowMetrics) : bool :=
  Float64.geb (Float64.sub (success_rate after) (Learner.s_success_rate before)) (3 # 100)
  || (Float64.gtb (Learner.s_p95_latency_ms before) 0
      && Float64.geb (Float64.div (Float64.sub (Learner.s_p95_latency_ms before)
                                               (p95_latency_ms after))
                                  (Learner.s_p95_latency_ms before))
                     (15 # 100)).

Definition classify (before : Learner.Snapshot) (after : WindowMetrics) (rollback : bool)
  : Spec.Verdict :=
  if rollback then Spec.Hurt
  else if harmful after then Spec.Hurt
  else if helpful before after then Spec.Helped
  else Spec.Neutral.

(** The claim's decimal conditions, shifted by a margin: the binary64 tests
    agree with them for every margin beyond the rounding errors. *)
Definition decimal_regression (margin : Q) (base cur : WindowMetrics) : Prop :=
  ((8 # 100) + margin <= success_rate base - success_rate cur)%Q \/
  ((0 < p95_latency_ms base)%Q /\
   ((25 # 100) + margin
    <= (p95_latency_ms cur - p95_latency_ms base) / p95_latency_ms base)%Q).

Definition decimal_help (margin : Q) (before : Learner.Snapshot) (after : WindowMetrics)
  : Prop :=
  ((3 # 100) + margin <= success_rate after - Learner.s_success_rate before)%Q \/
  ((0 < Learner.s_p95_latency_ms before)%Q /\
   ((15 # 100) + margin
    <= (Learner.s_p95_latency_ms before - p95_latency_ms after)
       / Learner.s_p95_latency_ms before)%Q).

End Amended.

(** ** Sample data *)

Module Sample.

Definition event (issuer : string) (lat : Q) (ok : bool) (ts : Q) : PaymentEvent :=
  {| event_id := "e"; issuer_bank := issuer; payment_method := "card";
     merchant_id := Some "m1"; latency_ms := lat; retries := 0;
     outcome := if ok then SUCCESS else FAILED;
     error_code := if ok then NONE else ISSUER_UNAVAILABLE;
     timestamp := ts; total_attempts := Some 1; estimated_cost := Some (1 # 100) |}.

(** Two events with latencies 20 ms and 10 ms. *)
Definition two_events : list PaymentEvent :=
  [event "HDFC" 20 true 1; event "HDFC" 10 true 2].

Definition observer2 : Observer.t :=
  Observer.ingest (Observer.ingest (Observer.init 200 50) (event "HDFC" 20 true 1))
                  (event "HDFC" 10 true 2).

End Sample.

Module SampleExec.

Definition metrics (sr lat : Q) : WindowMetrics :=
  {| window_id := "partial-200"; start_ts := 0; end_ts := 10;
     success_rate := sr; p95_latency_ms := lat; retry_amplification := 0;
     error_distribution := [("none", 1%Q)];
     success_rate_by_issuer := [("HDFC", sr)];
     sample_count := 200;
     success_rate_by_merchant := Some [("m1", sr)];
     attempt_amplification_by_merchant := Some [("m1", 1%Q)];
     avg_cost_by_merchant := Some [("m1", 1 # 100)];
     attempt_amplification := Some 1%Q;
     average_estimated_cost := Some (1 # 100) |}.

Definition reroute (tgt : string) (risk : Q) (approval : bool) : Action :=
  {| action_type := ActionType.REROUTE; target := Some tgt;
     params := if approval
               then [("weight_reduce", VFloat (5 # 10)); ("requires_human_approval", VBool true)]
               else [("weight_reduce", VFloat (5 # 10))];
     risk_score := risk;
     reason := "Reroute traffic from degraded issuer " +:+ tgt |}.

Definition trace_of (a : Action) : DecisionTrace :=
  {| hypothesis := None; action := a; trace_risk_score := risk_score a;
     reasoning := "r"; trace_timestamp := 0 |}.

Definition world0 : Executor.World := {| Executor.pending_file := None; Executor.sim_calls := [] |}.

Definition executor0 : Executor.t := Executor.set_simulator_control (Executor.init world0).

(** The Executor after a first escalation, of a reroute away from HDFC. *)
Definition escalated : Executor.t * Executor.World :=
  let '(_, e, w) :=
    Executor.execute executor0 (trace_of (reroute "HDFC" (363 # 1000) true))
                     (metrics (9 # 10) 300) 100 world0 in
  (e, w).

(** The Executor after executing a low-risk reroute at baseline 0.90 / 300 ms. *)
Definition running : Executor.t * Executor.World :=
  let '(_, e, w) :=
    Executor.execute executor0 (trace_of (reroute "HDFC" (363 # 1000) false))
                     (metrics (9 # 10) 300) 100 world0 in
  (e, w).

(** The pending file after a human set its status. *)
Definition answered (st : string) (w : Executor.World) : Executor.World :=
  {| Executor.pending_file :=
       match Executor.pending_file w with
       | Some p => Some {| active := active p; pr_action := pr_action p;
                           pr_action_type := pr_action_type p; pr_target := pr_target p;
                           pr_risk_score := pr_risk_score p; pr_reason := pr_reason p;
                           status := st; pr_timestamp := pr_timestamp p |}
       | None => None
       end;
     Executor.sim_calls := Executor.sim_calls w |}.

(** A Learner holding the context of an accepted reroute. *)
Definition learning : Learner.t :=
  Learner.record_decision_context Learner.init (metrics (7 # 10) 300)
                                  (reroute "HDFC" (363 # 1000) false).

Definition hyp (c : string) (conf unc : Q) : Hyp :=
  {| cause := c; confidence := conf; evidence := "e"; source := "heuristic";
     uncertainty := unc |}.

(** Ten samples only. *)
Definition thin_metrics : WindowMetrics :=
  {| window_id := "partial-10"; start_ts := 0; end_ts := 1;
     success_rate := 5 # 10; p95_latency_ms := 900; retry_amplification := 2;
     error_distribution := [("none", 1%Q)];
     success_rate_by_issuer := [("HDFC", 5 # 10)];
     sample_count := 10;
     success_rate_by_merchant := None;
     attempt_amplification_by_merchant := None;
     avg_cost_by_merchant := None;
     attempt_amplification := None;
     average_estimated_cost := None |}.

End SampleExec.

(** A run of the Orchestrator: a reroute is executed in cycle 1 at t = 100 s,
    two quiet cycles follow, and the same degradation is reported again. *)
Module SampleRun.

Definition agent0 : Agent.t := Agent.init (Executor.init SampleExec.world0) Learner.init.

Definition world0 : Agent.World :=
  {| Agent.exw := SampleExec.world0; Agent.published := [] |}.

Definition degraded : WindowMetrics := SampleExec.metrics (8 # 10) 300.
Definition hdfc_down : Hyp := SampleExec.hyp "Issuer_HDFC_Degradation" (85 # 100) 0.
Definition quiet : Hyp := SampleExec.hyp "INSUFFICIENT_SIGNAL" 0 1.

(** Run the cycles of a schedule [(hypothesis, clock)] in order. *)
Fixpoint cycles (schedule : list (Hyp * Q)) (s : Agent.t * Agent.World)
  : result (Agent.t * Agent.World) :=
  match schedule with
  | [] => mret s
  | (h, clock) :: rest =>
      s' ← Agent.run_cycle (fst s) degraded (Some h) None clock clock (snd s);
      cycles rest s'
  end.

(** The last [write_action] published. *)
Definition last_action (w : Agent.World) : option Agent.ActionWrite :=
  last (omap (fun p => match p with
                       | Agent.PubAction aw => Some aw
                       | _ => None
                       end) (Agent.published w)).

Definition outcome_of (r : result (Agent.t * Agent.World)) : option (string * bool) :=
  match r with
  | Ok (_, w) => (fun aw => (Agent.aw_outcome aw, Agent.aw_executed aw)) <$> last_action w
  | Raise _ => None
  end.

(** The same proposal again in the very next cycle, half a second later. *)
Definition next_cycle : result (Agent.t * Agent.World) :=
  cycles [(hdfc_down, 100); (hdfc_down, 1005 # 10)]%Q (agent0, world0).

(** The same proposal again in cycle 4, one and a half seconds after the
    execution: inside the 3 s window, outside the 2-cycle window. *)
Definition fourth_cycle : result (Agent.t * Agent.World) :=
  cycles [(hdfc_down, 100); (quiet, 1005 # 10); (quiet, 101); (hdfc_down, 1015 # 10)]%Q
         (agent0, world0).

Definition before_fourth : result (Agent.t * Agent.World) :=
  cycles [(hdfc_down, 100); (quiet, 1005 # 10); (quiet, 101)]%Q (agent0, world0).

End SampleRun.

(** ** Dashboard state files (state_writer.py)

    The writers read the file, append to its history and write it back; a
    missing or unreadable file reads as the empty dictionary, whose history
    is empty. *)

Module StateWriter.

Definition MAX_LATENCY_POINTS : Z := 100.
Definition MAX_HYPOTHESES_HISTORY : Z := 50.
Definition MAX_ACTIONS_HISTORY : Z := 50.

(** One point of the latency trend. *)
Record TrendPoint := {
  tp_window_id : string;
  tp_p95_latency_ms : Q;
  tp_ts : Q
}.

(** state/metrics.json *)
Record MetricsFile := {
  mf_current : option (WindowMetrics * Q);
  mf_latency_trend : list TrendPoint
}.

(** state/hypotheses.json *)
Record HypothesesFile := {
  hf_latest : option (Hyp * Q);
  hf_history : list (Hyp * Q)
}.

(** state/actions.json; the entries are the [latest] dictionaries, which
    carry every field of the call but [append_to_history]. *)
Record ActionsFile := {
  af_latest : option Agent.ActionWrite;
  af_history : list Agent.ActionWrite
}.

(** [write_metrics(..., window_id, ts, ...)] *)
Definition write_metrics (m : WindowMetrics) (ts : Q) (existing : option MetricsFile)
  : MetricsFile :=
  let trend := match existing with
               | Some f => mf_latency_trend f
               | None => []
               end in
  let trend := trend ++ [{| tp_window_id := window_id m;
                            tp_p95_latency_ms := p95_latency_ms m;
                            tp_ts := ts |}] in
  let trend := if MAX_LATENCY_POINTS <? len trend
               then slice_last MAX_LATENCY_POINTS trend else trend in
  {| mf_current := Some (m, ts); mf_latency_trend := trend |}.

(** [write_hypothesis(cause, confidence, evidence, source, ts, uncertainty)] *)
Definition write_hypothesis (h : Hyp) (ts : Q) (existing : option HypothesesFile)
  : HypothesesFile :=
  let history := match existing with
                 | Some f => hf_history f
                 | None => []
                 end in
  let history := history ++ [(h, ts)] in
  let history := if MAX_HYPOTHESES_HISTORY <? len history
                 then slice_last MAX_HYPOTHESES_HISTORY history else history in
  {| hf_latest := Some (h, ts); hf_history := history |}.

(** [write_action(..., append_to_history=...)] *)
Definition write_action (aw : Agent.ActionWrite) (existing : option ActionsFile)
  : ActionsFile :=
  let history := match existing with
                 | Some f => af_history f
                 | None => []
                 end in
  let history :=
    if Agent.aw_append_to_history aw then
      let history := history ++ [aw] in
      if MAX_ACTIONS_HISTORY <? len history
      then slice_last MAX_ACTIONS_HISTORY history else history
    else history in
  {| af_latest := Some aw; af_history := history |}.

End StateWriter.

(** ** Notions used by the further properties *)

Module Notions.

(** How many events of the window carry the error code [k]. *)
Definition occurrences (k : string) (events : list PaymentEvent) : Z :=
  len (List.filter (fun e => String.eqb k (error_code_value (error_code e))) events).

(** The event names a merchant: [if e.merchant_id:] holds. *)
Definition has_merchant (e : PaymentEvent) : bool := truthy_opt_str (merchant_id e).

(** *** The rules of [_heuristic_hypothesis], one by one

    The function runs five rules over its locals and then concludes;
    [heuristic_rules] below shows that their composition is the function. *)

Definition start : Reasoner.locals :=
  {| Reasoner.l_cause := "Unknown"; Reasoner.l_confidence := 0;
     Reasoner.l_evidence_parts := [] |}.

Definition issuer_rule (m : WindowMetrics) (st : Reasoner.locals) : result Reasoner.locals :=
  match success_rate_by_issuer m with
  | [] => mret st
  | items =>
      worst ← py_min_item items;
      let '(issuer_name, rate) := worst in
      if Qltb rate Reasoner.SUCCESS_RATE_DEGRADATION_THRESHOLD then
        mret {| Reasoner.l_cause := "Issuer_" +:+ issuer_name +:+ "_Degradation";
                Reasoner.l_confidence := 85 # 100;
                Reasoner.l_evidence_parts :=
                  Reasoner.l_evidence_parts st ++
                  ["Success rate for " +:+ issuer_name +:+ " dropped to "
                   +:+ format_percent 1 rate] |}
      else mret st
  end.

Definition legacy_storm_rule (m : WindowMetrics) (st : Reasoner.locals) : Reasoner.locals :=
  if Qgeb (retry_amplification m) Reasoner.RETRY_AMPLIFICATION_STORM
     && Qltb (success_rate m) (7 # 10)
     && Qltb (Reasoner.l_confidence st) (5 # 10)
  then {| Reasoner.l_cause := "Retry_Storm";
          Reasoner.l_confidence := 8 # 10;
          Reasoner.l_evidence_parts :=
            Reasoner.l_evidence_parts st ++
            ["Retry amplification " +:+ format_fixed 2 (retry_amplification m)
             +:+ " with success rate " +:+ format_percent 1 (success_rate m)] |}
  else st.

Definition latency_rule (m : WindowMetrics) (st : Reasoner.locals) : Reasoner.locals :=
  if Qgeb (p95_latency_ms m) Reasoner.P95_LATENCY_SPIKE_MS then
    let note := "P95 latency " +:+ format_fixed 0 (p95_latency_ms m) +:+ " ms" in
    if Qltb (Reasoner.l_confidence st) (5 # 10)
    then {| Reasoner.l_cause := "Latency_Spike";
            Reasoner.l_confidence := 75 # 100;
            Reasoner.l_evidence_parts := Reasoner.l_evidence_parts st ++ [note] |}
    else {| Reasoner.l_cause := Reasoner.l_cause st;
            Reasoner.l_confidence := Reasoner.l_confidence st;
            Reasoner.l_evidence_parts := Reasoner.l_evidence_parts st ++ [note] |}
  else st.

Definition general_rule (m : WindowMetrics) (st : Reasoner.locals) : Reasoner.locals :=
  if Qltb (success_rate m) Reasoner.SUCCESS_RATE_DEGRADATION_THRESHOLD
     && match Reasoner.l_evidence_parts st with [] => true | _ => false end
  then {| Reasoner.l_cause := "General_Degradation";
          Reasoner.l_confidence := 7 # 10;
          Reasoner.l_evidence_parts :=
            Reasoner.l_evidence_parts st ++
            ["Overall success rate " +:+ format_percent 1 (success_rate m)] |}
  else st.

(** The attempt-based storm test of the last rule. *)
Definition attempt_storm (m : WindowMetrics) : bool :=
  match attempt_amplification m with
  | Some attempt_amp =>
      Qgeb attempt_amp Reasoner.ATTEMPT_AMPLIFICATION_STORM && Qltb (success_rate m) (8 # 10)
  | None => false
  end.

Definition attempt_rule (m : WindowMetrics) (st : Reasoner.locals) : Reasoner.locals :=
  match attempt_amplification m with
  | Some attempt_amp =>
      if Qgeb attempt_amp Reasoner.ATTEMPT_AMPLIFICATION_STORM
         && Qltb (success_rate m) (8 # 10)
      then
        let parts := ["Avg attempts per txn " +:+ format_fixed 2 attempt_amp;
                      "Success rate " +:+ format_percent 1 (success_rate m)] in
        match average_estimated_cost m with
        | Some avg_cost =>
            if Qgeb avg_cost Reasoner.COST_ESCALATION_THRESHOLD
            then {| Reasoner.l_cause := "Retry_Storm_Detected";
                    Reasoner.l_confidence := min2 (95 # 100) ((85 # 100) + (5 # 100))%Q;
                    Reasoner.l_evidence_parts :=
                      parts ++ ["Avg cost per txn " +:+ format_fixed 3 avg_cost] |}
            else {| Reasoner.l_cause := "Retry_Storm_Detected";
                    Reasoner.l_confidence := 85 # 100;
                    Reasoner.l_evidence_parts := parts |}
        | None => {| Reasoner.l_cause := "Retry_Storm_Detected";
                     Reasoner.l_confidence := 85 # 100;
                     Reasoner.l_evidence_parts := parts |}
        end
      else st
  | None => st
  end.

Definition conclude (m : WindowMetrics) (st : Reasoner.locals) : result Hyp :=
  let evidence0 :=
    match Reasoner.l_evidence_parts st with
    | [] => "No strong pattern detected."
    | parts => join " " parts
    end in
  let unknown := String.eqb (Reasoner.l_cause st) "Unknown"
                 && Qeq_bool (Reasoner.l_confidence st) 0 in
  let cause1 := if unknown then Reasoner.CAUSE_INSUFFICIENT_SIGNAL else Reasoner.l_cause st in
  let evidence1 :=
    if unknown
    then "No strong pattern detected; insufficient signal to act (metrics stable or no clear degradation)."
    else evidence0 in
  u ← Reasoner._compute_uncertainty cause1 (Reasoner.l_confidence st)
                                    (Reasoner.l_evidence_parts st) m;
  mret {| cause := cause1;
          confidence := Reasoner.l_confidence st;
          evidence := evidence1;
          source := "heuristic";
          uncertainty := u |}.

(** The locals either still hold their initial values, or name a detected
    cause with a confidence between 0.7 and 0.9 and some evidence. *)
Definition settled (st : Reasoner.locals) : Prop :=
  st = start \/
  (Reasoner.l_cause st <> "Unknown" /\
   Reasoner.l_cause st <> Reasoner.CAUSE_INSUFFICIENT_SIGNAL /\
   (7 # 10 <= Reasoner.l_confidence st <= 9 # 10)%Q /\
   Reasoner.l_evidence_parts st <> []).

(** No two neighbouring entries of the list are equal. *)
Fixpoint no_repeat {A} (l : list A) : Prop :=
  match l with
  | x :: t => match t with
              | y :: _ => x <> y
              | [] => True
              end /\ no_repeat t
  | [] => True
  end.

(** The history of the actions file agrees with the Orchestrator's memory of
    the last key written: the newest entry, if any, has that key, and no two
    neighbouring entries share a key. *)
Definition history_in_step (a : Agent.t) (f : StateWriter.ActionsFile) : Prop :=
  match last (StateWriter.af_history f) with
  | Some e => Agent._last_written_action_key a = Some (Agent.written_key e)
  | None => True
  end /\
  no_repeat (map Agent.written_key (StateWriter.af_history f)).

End Notions.

(** ** Further sample data *)

Module Cases.

(** A window in an attempt storm: two attempts per transaction at a 70%
    success rate, one issuer below the degradation threshold. *)
Definition storm : WindowMetrics :=
  {| window_id := "window-1"; start_ts := 0; end_ts := 10;
     success_rate := 7 # 10; p95_latency_ms := 300; retry_amplification := 1;
     error_distribution := [("none", 7 # 10); ("timeout", 3 # 10)];
     success_rate_by_issuer := [("HDFC", 6 # 10); ("SBI", 8 # 10)];
     sample_count := 200;
     success_rate_by_merchant := Some [("m1", 7 # 10)];
     attempt_amplification_by_merchant := Some [("m1", 2%Q)];
     avg_cost_by_merchant := Some [("m1", 1 # 100)];
     attempt_amplification := Some 2%Q;
     average_estimated_cost := Some (1 # 100) |}.

(** The same window without the attempt storm. *)
Definition issuer_down : WindowMetrics :=
  {| window_id := "window-2"; start_ts := 0; end_ts := 10;
     success_rate := 7 # 10; p95_latency_ms := 300; retry_amplification := 1;
     error_distribution := [("none", 7 # 10); ("timeout", 3 # 10)];
     success_rate_by_issuer := [("HDFC", 6 # 10); ("SBI", 8 # 10)];
     sample_count := 200;
     success_rate_by_merchant := Some [("m1", 7 # 10)];
     attempt_amplification_by_merchant := Some [("m1", 1%Q)];
     avg_cost_by_merchant := Some [("m1", 1 # 100)];
     attempt_amplification := Some 1%Q;
     average_estimated_cost := Some (1 # 100) |}.

(** A decision context in which a reroute away from HDFC awaits approval. *)
Definition waiting : Decision.Context :=
  {| Decision.recent_causes := [];
     Decision.rollback_count := 0;
     Decision.pending_approval :=
       Some (Executor.pending_of (SampleExec.reroute "HDFC" (363 # 1000) false)
                                 "High risk; human approval required" 100) |}.

(** The Orchestrator right after cycle 1 has executed the reroute. *)
Definition reroute_running : Agent.t * Agent.World :=
  match SampleRun.cycles [(SampleRun.hdfc_down, 100%Q)] (SampleRun.agent0, SampleRun.world0) with
  | Ok s => s
  | Raise _ => (SampleRun.agent0, SampleRun.world0)
  end.

(** A no-op entry for the action timeline. *)
Definition noop_write (append : bool) : Agent.ActionWrite :=
  {| Agent.aw_action_type := "no_op"; Agent.aw_target := None; Agent.aw_risk_score := 0;
     Agent.aw_reason := "No intervention needed"; Agent.aw_reasoning := "r";
     Agent.aw_executed := false; Agent.aw_message := "No intervention needed";
     Agent.aw_ts := 100; Agent.aw_outcome := "executed";
     Agent.aw_guardrails_triggered := [];
     Agent.aw_append_to_history := append;
     Agent.aw_what_changed_since_last := None; Agent.aw_why_action_now := None;
     Agent.aw_why_human_approval := None |}.

(** The actions file before the first write. *)
Definition empty_actions : StateWriter.ActionsFile :=
  {| StateWriter.af_latest := None; StateWriter.af_history := [] |}.

(** The Executor after executing a low-risk reroute at baseline 0.88 / 300 ms. *)
Definition running_at_0_88 : Executor.t * Executor.World :=
  let '(_, e, w) :=
    Executor.execute SampleExec.executor0
                     (SampleExec.trace_of (SampleExec.reroute "HDFC" (363 # 1000) false))
                     (SampleExec.metrics (88 # 100) 300) 100 SampleExec.world0 in
  (e, w).

(** A window with the given success rate and average estimated cost. *)
Definition priced (sr cost : Q) : WindowMetrics :=
  {| window_id := "partial-200"; start_ts := 0; end_ts := 10;
     success_rate := sr; p95_latency_ms := 300; retry_amplification := 0;
     error_distribution := [("none", 1%Q)];
     success_rate_by_issuer := [("HDFC", sr)];
     sample_count := 200;
     success_rate_by_merchant := Some [("m1", sr)];
     attempt_amplification_by_merchant := Some [("m1", 1%Q)];
     avg_cost_by_merchant := Some [("m1", cost)];
     attempt_amplification := Some 1%Q;
     average_estimated_cost := Some cost |}.

(** A Learner holding the context of a reroute accepted at a success rate of
    0.70 and an average cost of 0.05. *)
Definition learning_priced : Learner.t :=
  Learner.record_decision_context Learner.init (priced (7 # 10) (5 # 100))
                                  (SampleExec.reroute "HDFC" (363 # 1000) false).

(** An event that ended with the error code [c]. *)
Definition with_error (c : ErrorCode) : PaymentEvent :=
  {| event_id := "e"; issuer_bank := "HDFC"; payment_method := "card";
     merchant_id := Some "m1"; latency_ms := 100; retries := 0;
     outcome := match c with NONE => SUCCESS | _ => FAILED end;
     error_code := c;
     timestamp := 1; total_attempts := Some 1; estimated_cost := Some (1 # 100) |}.

(** A window of 200 events over the seven error codes, with 160, 10, 10,
    10, 5, 3 and 2 occurrences. *)
Definition mixed_errors : list PaymentEvent :=
  List.repeat (with_error NONE) 160%nat
  ++ List.repeat (with_error INSUFFICIENT_FUNDS) 10%nat
  ++ List.repeat (with_error ISSUER_UNAVAILABLE) 10%nat
  ++ List.repeat (with_error NETWORK_TIMEOUT) 10%nat
  ++ List.repeat (with_error INVALID_CARD) 5%nat
  ++ List.repeat (with_error RATE_LIMITED) 3%nat
  ++ List.repeat (with_error UNKNOWN) 2%nat.

End Cases.

(** * Properties *)

(** ** Facts about the primitives *)

Lemma Qleb_le x y : Qleb x y = true <-> (x <= y)%Q.
Proof. apply Qle_bool_iff. Qed.

Lemma Qltb_lt x y : Qltb x y = true <-> (x < y)%Q.
Proof.
  unfold Qltb. rewrite negb_true_iff, <- not_true_iff_false, Qle_bool_iff.
  split; [apply Qnot_le_lt | apply Qlt_not_le].
Qed.

Lemma Qltb_ge x y : Qltb x y = false <-> (y <= x)%Q.
Proof. unfold Qltb. rewrite negb_false_iff. apply Qle_bool_iff. Qed.

Lemma append_nil_r (s : string) : s +:+ "" = s.
Proof.
  induction s as [|c s IH]; [reflexivity |].
  change (String c (s +:+ "") = String c s). now rewrite IH.
Qed.

Lemma append_assoc (a b c : string) : (a +:+ b) +:+ c = a +:+ (b +:+ c).
Proof.
  induction a as [|x a IH]; [reflexivity |].
  change (String x ((a +:+ b) +:+ c) = String x (a +:+ (b +:+ c))). now rewrite IH.
Qed.

Lemma to_int_proper z : Z.to_int z <> Decimal.Pos Decimal.Nil /\
                        Z.to_int z <> Decimal.Neg Decimal.Nil.
Proof.
  destruct z as [|p|p]; simpl; split; try discriminate;
    intros [= E]; now apply (DecimalPos.Unsigned.to_uint_nonnil p).
Qed.

Lemma str_int_inj a b : str_int a = str_int b -> a = b.
Proof.
  unfold str_int. intros E.
  apply DecimalZ.to_int_inj.
  assert (H : NilZero.int_of_string (NilZero.string_of_int (Z.to_int a)) =
              NilZero.int_of_string (NilZero.string_of_int (Z.to_int b)))
    by (now rewrite E).
  rewrite !NilZero.isi in H; try apply to_int_proper.
  now injection H.
Qed.

(** The arithmetic core of the rounding argument.  [p = n * M] is split at
    the rounding position as [S * q + r]; [T] is the weight of one unit in
    the kept significand, [Q] and [rho] are quotient and remainder of 19n by
    20; the rounded significand [q'] truncates to [Q]. *)
Lemma round_target (S T H q r p Q rho n : Z) :
  p = S * q + r -> 0 <= r < S -> S = 2 * H ->
  S * T = 2 ^ 53 -> 32 <= T ->
  p < S * 2 ^ 53 ->
  20 * p = (20 * Q + rho) * 2 ^ 53 - 8 * n ->
  0 <= rho < 20 -> 19 * n = 20 * Q + rho ->
  2 <= n < 2 ^ 48 ->
  let q' := if (H <? r) || ((r =? H) && Z.odd q) then q + 1 else q in
  Q * T <= q' < (Q + 1) * T.
Proof.
  intros Hp Hr HS HST HT Hlow H20 Hrho H19 Hn q'.
  change (2 ^ 53) with 9007199254740992 in *.
  change (2 ^ 48) with 281474976710656 in *.
  assert (Hq' : q <= q' <= q + 1) by (subst q'; destruct (_ || _); lia).
  assert (HSpos : 0 < S) by lia.
  split.
  - (* lower bound *)
    destruct (Z.eq_dec rho 0) as [E0|Ne].
    + (* 19n/20 is an integer: the product lies just below it and rounds up *)
      subst rho.
      assert (Hk : exists k, n = 20 * k /\ Q = 19 * k /\ 1 <= k) by (exists (n - Q); lia).
      destruct Hk as (k & -> & -> & Hk1).
      assert (HS16 : 16 * k < S) by lia.
      assert (E : S * q + r = S * (19 * k * T - 1) + (S - 8 * k)).
      { replace (S * (19 * k * T - 1)) with (19 * k * (S * T) - S) by ring.
        rewrite HST. lia. }
      apply Z.div_mod_unique in E; [| lia | lia].
      destruct E as [Eq Er].
      assert (Hup : (H <? r) = true) by (apply Z.ltb_lt; lia).
      subst q'. rewrite Hup. cbn [orb]. lia.
    + assert (Hlt : S * (Q * T) < S * (q + 1)).
      { replace (S * (Q * T)) with (Q * (S * T)) by ring. rewrite HST. lia. }
      apply Z.mul_lt_mono_pos_l in Hlt; lia.
  - (* upper bound *)
    assert (Hle : S * (20 * q) <= S * ((20 * Q + 19) * T)).
    { replace (S * ((20 * Q + 19) * T)) with ((20 * Q + 19) * (S * T)) by ring.
      rewrite HST. lia. }
    apply Z.mul_le_mono_pos_l in Hle; lia.
Qed.

Lemma of_int_small n : 0 < n < 2 ^ 53 -> Float64.of_int n = (n, 0).
Proof.
  intros Hn. unfold Float64.of_int, Float64.round53.
  assert (Z.log2 n < 53) by (apply Z.log2_lt_pow2; lia).
  now rewrite (proj2 (Z.leb_le (Z.log2 n + 1) 53)) by lia.
Qed.

(** Below 2^48 elements the binary64 product [n * 0.95] truncates to the
    exact floor of 19n/20: the error of the constant never crosses an
    integer, and on multiples of 20 the product rounds up to the integer. *)
Lemma int_mul_0_95_exact n :
  0 <= n < 2 ^ 48 -> Float64.int_mul_0_95 n = Float64.floor_0_95 n.
Proof.
  intros Hn.
  destruct (Z.eq_dec n 0) as [-> | N0]; [reflexivity |].
  destruct (Z.eq_dec n 1) as [-> | N1]; [reflexivity |].
  unfold Float64.int_mul_0_95, Float64.floor_0_95.
  rewrite (proj2 (Z.eqb_neq n 0) N0).
  rewrite of_int_small
    by (change (2 ^ 48) with 281474976710656 in Hn;
        change (2 ^ 53) with 9007199254740992; lia).
  unfold Float64.mul_0_95. cbn [fst snd].
  set (p := n * Float64.mant_0_95).
  assert (Hp20 : 20 * p = 19 * n * 2 ^ 53 - 8 * n).
  { subst p. unfold Float64.mant_0_95. change (2 ^ 53) with 9007199254740992. lia. }
  assert (Hppos : 0 < p) by (subst p; unfold Float64.mant_0_95; lia).
  assert (HL : 53 <= Z.log2 p < 101).
  { split.
    - apply Z.log2_le_pow2; [exact Hppos |].
      subst p. unfold Float64.mant_0_95. change (2 ^ 53) with 9007199254740992. lia.
    - apply Z.log2_lt_pow2; [exact Hppos |].
      subst p. unfold Float64.mant_0_95.
      change (2 ^ 48) with 281474976710656 in Hn.
      change (2 ^ 101) with 2535301200456458802993406410752. lia. }
  destruct (Z.log2_spec p Hppos) as [Hlo Hhi].
  unfold Float64.round53, Float64.trunc, Float64.exp_0_95.
  rewrite (proj2 (Z.leb_gt (Z.log2 p + 1) 53)) by lia.
  cbn [fst snd].
  set (s := Z.log2 p + 1 - 53) in *.
  rewrite (proj2 (Z.leb_gt 0 (0 + -53 + s))) by lia.
  replace (- (0 + -53 + s)) with (53 - s) by lia.
  rewrite Z.shiftr_div_pow2, Z.land_ones, Z.shiftl_1_l by lia.
  rewrite Z.shiftr_div_pow2 by lia.
  set (S := 2 ^ s). set (T := 2 ^ (53 - s)). set (H := 2 ^ (s - 1)).
  assert (HSpos : 0 < S) by (apply Z.pow_pos_nonneg; lia).
  assert (HTpos : 0 < T) by (apply Z.pow_pos_nonneg; lia).
  pose proof (Z.div_mod p S ltac:(lia)) as Hdm.
  pose proof (Z.mod_pos_bound p S HSpos) as Hmod.
  pose proof (Z.div_mod (19 * n) 20 ltac:(lia)) as Hdm19.
  pose proof (Z.mod_pos_bound (19 * n) 20 ltac:(lia)) as Hmod19.
  assert (HS2 : S = 2 * H).
  { subst S H. replace s with (Z.succ (s - 1)) at 1 by lia.
    apply Z.pow_succ_r. lia. }
  assert (HST : S * T = 2 ^ 53).
  { subst S T. rewrite <- Z.pow_add_r by lia. f_equal. lia. }
  assert (HT32 : 32 <= T).
  { subst T. change 32 with (2 ^ 5). apply Z.pow_le_mono_r; lia. }
  assert (Hhi' : p < S * 2 ^ 53).
  { subst S. rewrite <- Z.pow_add_r by lia.
    replace (s + 53) with (Z.succ (Z.log2 p)) by lia. exact Hhi. }
  pose proof (round_target S T H (p / S) (p mod S) p (19 * n / 20) ((19 * n) mod 20) n
                Hdm Hmod HS2 HST HT32 Hhi' ltac:(lia) Hmod19 Hdm19 ltac:(lia)) as [Hlow Hupp].
  cbv zeta in Hlow, Hupp.
  symmetry.
  apply Z.div_unique with (r := (if (H <? p mod S) || ((p mod S =? H) && Z.odd (p / S))
                                 then p / S + 1 else p / S) - T * (19 * n / 20)); lia.
Qed.

(** ** Observer *)

Lemma insert_sorted_perm x l : Permutation (x :: l) (Observer.insert_sorted x l).
Proof.
  induction l as [|y t IH]; simpl.
  - reflexivity.
  - destruct (Qltb y x).
    + rewrite perm_swap. now apply perm_skip.
    + reflexivity.
Qed.

Lemma sorted_perm l : Permutation l (Observer.sorted l).
Proof.
  induction l as [|x t IH]; simpl.
  - constructor.
  - rewrite <- insert_sorted_perm. now apply perm_skip.
Qed.

Lemma sorted_length l : List.length (Observer.sorted l) = List.length l.
Proof. symmetry. apply Permutation_length, sorted_perm. Qed.

Lemma insert_sorted_ordered x l :
  StronglySorted Qle l -> StronglySorted Qle (Observer.insert_sorted x l).
Proof.
  induction 1 as [|y t Hs IH Hall]; simpl.
  - repeat constructor.
  - destruct (Qltb y x) eqn:E.
    + constructor; [exact IH |].
      apply Qltb_lt, Qlt_le_weak in E.
      rewrite Forall_forall in *. intros z Hz.
      rewrite <- insert_sorted_perm in Hz.
      apply elem_of_cons in Hz as [-> | Hz]; [exact E | now apply Hall].
    + apply Qltb_ge in E.
      constructor; [now constructor |].
      constructor; [exact E |].
      rewrite Forall_forall in *. intros z Hz.
      apply Qle_trans with y; [exact E | now apply Hall].
Qed.

Lemma sorted_ordered l : StronglySorted Qle (Observer.sorted l).
Proof.
  induction l as [|x t IH]; simpl; [constructor | now apply insert_sorted_ordered].
Qed.

Lemma index_in_range {A} (l : list A) (i : Z) :
  0 <= i < len l -> exists a, Observer.index l i = Ok a /\ l !! Z.to_nat i = Some a.
Proof.
  intros Hi. unfold Observer.index, len in *.
  destruct (l !! Z.to_nat i) as [a|] eqn:E; [now exists a |].
  apply lookup_ge_None in E. lia.
Qed.

Lemma p95_index_exact n :
  0 < n < 2 ^ 48 ->
  Observer.p95_index n = Z.max 0 (19 * n / 20 - 1) /\ 0 <= Observer.p95_index n < n.
Proof.
  intros Hn. unfold Observer.p95_index.
  rewrite int_mul_0_95_exact by lia. unfold Float64.floor_0_95.
  split; [reflexivity |].
  assert (19 * n / 20 <= n) by (apply Z.div_le_upper_bound; lia).
  lia.
Qed.

Lemma latency_p95_lookup (events : list PaymentEvent) :
  0 < len events < 2 ^ 48 ->
  exists v,
    Observer._latency_p95 events = Ok v /\
    Observer.sorted (map latency_ms events)
      !! Z.to_nat (Z.max 0 (19 * len events / 20 - 1)) = Some v.
Proof.
  intros Hn. set (lat := map latency_ms events).
  assert (Hlen : len (Observer.sorted lat) = len events).
  { unfold len, lat. now rewrite sorted_length, length_map. }
  destruct (p95_index_exact (len events) Hn) as [Hidx Hrange].
  destruct (index_in_range (Observer.sorted lat) (Observer.p95_index (len events)))
    as (v & Hv & Hlook); [rewrite Hlen; exact Hrange |].
  exists v. split.
  - unfold Observer._latency_p95.
    destruct events as [|e t]; [unfold len in Hn; simpl in Hn; lia |].
    fold lat. rewrite Hlen. exact Hv.
  - rewrite <- Hidx. exact Hlook.
Qed.

(** C3 (as amended).  For a buffer of [n] events, [0 < n < 2^48], the p95
    latency is the element of the sorted latency sample at index
    [max(0, floor(n * 0.95) - 1)]: the code subtracts one from the floor
    before clamping.  The lookup is always in range, the binary64 product
    [n * 0.95] truncates to the exact floor of 19n/20, and the sample is a
    sorted permutation of the latencies. *)
Theorem latency_p95_rank (events : list PaymentEvent) :
  0 < len events < 2 ^ 48 ->
  let lat := map latency_ms events in
  exists v,
    Observer._latency_p95 events = Ok v /\
    Observer.sorted lat !! Z.to_nat (Z.max 0 (19 * len events / 20 - 1)) = Some v /\
    StronglySorted Qle (Observer.sorted lat) /\
    Permutation lat (Observer.sorted lat).
Proof.
  intros Hn lat.
  destruct (latency_p95_lookup events Hn) as (v & Hv & Hlook).
  exists v. repeat split; [exact Hv | exact Hlook | apply sorted_ordered | apply sorted_perm].
Qed.

Lemma latency_p95_rank_witness :
  exists v,
    Observer._latency_p95 Sample.two_events = Ok v /\
    Observer.sorted (map latency_ms Sample.two_events)
      !! Z.to_nat (Z.max 0 (19 * len Sample.two_events / 20 - 1)) = Some v /\
    StronglySorted Qle (Observer.sorted (map latency_ms Sample.two_events)) /\
    Permutation (map latency_ms Sample.two_events)
                (Observer.sorted (map latency_ms Sample.two_events)).
Proof.
  apply (latency_p95_rank Sample.two_events). vm_compute. split; reflexivity.
Defined.

(** C3, counterexample.  With two events of latencies 20 ms and 10 ms the
    code returns the lower one (index 0), while the index floor(2 * 0.95) = 1
    of the claim selects the higher one. *)
Lemma latency_p95_floor_rank_fails :
  Observer._latency_p95 Sample.two_events = Ok 10%Q /\
  Spec.latency_p95 Sample.two_events = Ok 20%Q.
Proof. split; reflexivity. Qed.

Lemma build_metrics_ok (events : list PaymentEvent) :
  0 < len events < 2 ^ 48 ->
  exists m, forall wid,
    Observer.build_metrics wid events = Ok (with_window_id wid m).
Proof.
  intros Hn.
  destruct (latency_p95_lookup events Hn) as (p95 & Hp & _).
  destruct events as [|e t]; [unfold len in Hn; simpl in Hn; lia |].
  unfold Observer.build_metrics. rewrite Hp.
  cbn [map py_min py_max mbind result_bind mret result_ret].
  eexists (Build_WindowMetrics EmptyString _ _ _ _ _ _ _ _ _ _ _ _ _).
  intros wid. reflexivity.
Qed.

Lemma window_ids_differ (c : Z) :
  "w-" +:+ str_int (c + 1) <> "w-" +:+ str_int (c + 1 + 1).
Proof.
  intros E. simpl in E. injection E as E. apply str_int_inj in E. lia.
Qed.

(** C5 (as amended).  Over a fixed buffer whose window holds fewer than
    2^48 events (and at least one), [get_partial_metrics] is pure and idempotent: it returns the
    same [WindowMetrics], window identifier [partial-n] included, and leaves
    the Observer as it was.  [get_current_metrics] leaves the buffer as it was
    but advances the window counter: two successive reads agree on every
    field except the window identifier, which goes from [w-(c+1)] to
    [w-(c+2)].  On an empty buffer both return [None] and change nothing. *)
Theorem metrics_reads_repeatable (o : Observer.t) :
  (Observer._buffer o = [] ->
   Observer.get_partial_metrics o = Ok (None, o) /\
   Observer.get_current_metrics o = Ok (None, o)) /\
  (Observer._buffer o <> [] ->
   0 < len (slice_last (Observer.window_size o) (Observer._buffer o)) < 2 ^ 48 ->
   exists m o1 o2,
     Observer.get_partial_metrics o = Ok (Some m, o) /\
     window_id m =
       "partial-" +:+ str_int (len (slice_last (Observer.window_size o) (Observer._buffer o))) /\
     Observer.get_current_metrics o =
       Ok (Some (with_window_id ("w-" +:+ str_int (Observer._window_counter o + 1)) m), o1) /\
     Observer.get_current_metrics o1 =
       Ok (Some (with_window_id ("w-" +:+ str_int (Observer._window_counter o + 2)) m), o2) /\
     Observer._buffer o1 = Observer._buffer o /\
     Observer._buffer o2 = Observer._buffer o /\
     "w-" +:+ str_int (Observer._window_counter o + 1) <>
     "w-" +:+ str_int (Observer._window_counter o + 2)).
Proof.
  split.
  - intros Hb. unfold Observer.get_partial_metrics, Observer.get_current_metrics.
    rewrite Hb. split; reflexivity.
  - intros Hb Hn.
    destruct (build_metrics_ok _ Hn) as (m0 & Hm).
    set (events := slice_last (Observer.window_size o) (Observer._buffer o)) in *.
    pose (bumped := fun k =>
            {| Observer.window_size := Observer.window_size o;
               Observer.window_advance_events := Observer.window_advance_events o;
               Observer._buffer := Observer._buffer o;
               Observer._window_counter := Observer._window_counter o + k |}).
    exists (with_window_id ("partial-" +:+ str_int (len events)) m0),
           (bumped 1), (bumped 2).
    unfold Observer.get_partial_metrics, Observer.get_current_metrics.
    cbn [bumped Observer._buffer Observer.window_size Observer._window_counter].
    fold events.
    destruct (Observer._buffer o) as [|e t] eqn:Eb; [congruence |].
    rewrite !Hm.
    cbn [mbind result_bind mret result_ret].
    replace (Observer._window_counter o + 1 + 1)
      with (Observer._window_counter o + 2) by lia.
    repeat split.
    replace (Observer._window_counter o + 2)
      with (Observer._window_counter o + 1 + 1) by lia.
    apply window_ids_differ.
Qed.

Lemma metrics_reads_repeatable_witness :
  exists m o1 o2,
    Observer.get_partial_metrics Sample.observer2 = Ok (Some m, Sample.observer2) /\
    window_id m = "partial-2" /\
    Observer.get_current_metrics Sample.observer2 =
      Ok (Some (with_window_id "w-1" m), o1) /\
    Observer.get_current_metrics o1 = Ok (Some (with_window_id "w-2" m), o2) /\
    Observer._buffer o1 = Observer._buffer Sample.observer2 /\
    Observer._buffer o2 = Observer._buffer Sample.observer2 /\
    "w-1" <> "w-2".
Proof.
  apply (proj2 (metrics_reads_repeatable Sample.observer2)).
  - discriminate.
  - vm_compute. split; reflexivity.
Defined.

(** C5, counterexample.  Two successive [get_current_metrics] over the same
    two-event buffer, with no ingest in between, return different window
    identifiers. *)
Lemma get_current_metrics_not_idempotent :
  match Observer.get_current_metrics Sample.observer2 with
  | Ok (Some m1, o1) =>
      match Observer.get_current_metrics o1 with
      | Ok (Some m2, _) =>
          Observer._buffer o1 = Observer._buffer Sample.observer2 /\
          window_id m1 = "w-1" /\ window_id m2 = "w-2" /\ m1 <> m2
      | _ => False
      end
  | _ => False
  end.
Proof.
  vm_compute. repeat split. intros E. discriminate E.
Qed.

(** ** Executor *)

Lemma rollback_all_spec (e : Executor.t) sd li active : forall rollbacks w,
  Executor.rollback_all e sd li active rollbacks w =
  (rollbacks ++ map (fun tm => Executor.rollback_msg (fst tm) sd li) active,
   Executor.set_rollback_log
     (Executor._rollback_log e ++ map (fun tm => Executor.rollback_msg (fst tm) sd li) active) e,
   fold_left (fun w tm => Executor._rollback_action e (fst tm) w) active w).
Proof.
  revert e. induction active as [|[trace meta] rest IH]; intros e rollbacks w.
  - cbn. rewrite !app_nil_r. now destruct e.
  - cbn [Executor.rollback_all map fold_left fst].
    rewrite IH. cbn. rewrite <- !app_assoc. reflexivity.
Qed.

Lemma rollback_fold (e : Executor.t) active : forall w,
  fold_left (fun w tm => Executor._rollback_action e (fst tm) w) active w =
  {| Executor.pending_file := Executor.pending_file w;
     Executor.sim_calls :=
       Executor.sim_calls w ++
       (if Executor._simulator_control e
        then map (fun tm : DecisionTrace * Executor.Meta => Spec.rollback_cmd (fst tm)) active
        else []) |}.
Proof.
  induction active as [|tm rest IH]; intros w.
  - cbn. destruct (Executor._simulator_control e), w; cbn; now rewrite app_nil_r.
  - cbn [fold_left]. rewrite IH. unfold Executor._rollback_action.
    destruct (Executor._simulator_control e); cbn.
    + now rewrite <- app_assoc.
    + reflexivity.
Qed.

Lemma Qgtb_lt x y : Qgtb x y = true <-> (y < x)%Q.
Proof.
  unfold Qgtb. rewrite negb_true_iff, <- not_true_iff_false, Qle_bool_iff.
  split; [apply Qnot_le_lt | apply Qlt_not_le].
Qed.

Lemma Qgeb_le x y : Qgeb x y = true <-> (y <= x)%Q.
Proof. apply Qle_bool_iff. Qed.

(** *** Rounding to binary64 *)

Lemma pow2_pos e : (0 < Float64.pow2 e)%Q.
Proof.
  unfold Float64.pow2. destruct (0 <=? e) eqn:E.
  - apply Z.leb_le in E. assert (0 < 2 ^ e) by (apply Z.pow_pos_nonneg; lia).
    unfold Qlt. cbn [Qnum Qden inject_Z]. lia.
  - reflexivity.
Qed.

Lemma nearest_even_close (N D : Z) :
  0 < D -> 2 * Z.abs (Float64.nearest_even N D * D - N) <= D.
Proof.
  intros HD. unfold Float64.nearest_even.
  pose proof (Z.div_mod N D ltac:(lia)) as Hdm.
  pose proof (Z.mod_pos_bound N D HD) as Hr.
  destruct (Z.ltb_spec (2 * (N mod D)) D); [nia |].
  destruct (Z.ltb_spec D (2 * (N mod D))); [nia |].
  destruct (Z.even (N / D)); nia.
Qed.

Lemma nearest_even_upper (N D K : Z) :
  0 < D -> N <= K * D -> Float64.nearest_even N D <= K.
Proof.
  intros HD H. unfold Float64.nearest_even.
  pose proof (Z.div_mod N D ltac:(lia)) as Hdm.
  pose proof (Z.mod_pos_bound N D HD) as Hr.
  assert (Hk : N / D <= K).
  { apply Z.div_le_upper_bound; lia. }
  destruct (Z.eq_dec (N / D) K) as [E|E].
  - assert (N mod D = 0) by nia.
    rewrite (proj2 (Z.ltb_lt (2 * (N mod D)) D)) by lia. exact Hk.
  - destruct (_ <? _); [exact Hk |].
    destruct (_ <? _); [lia |]. destruct (Z.even _); lia.
Qed.


Lemma pow2_scaled (e : Z) (n d : positive) :
  let N := Zpos n * 2 ^ Z.max 0 (- e) in
  let D := Zpos d * 2 ^ Z.max 0 e in
  ((Zpos n # d) * inject_Z D == inject_Z N * Float64.pow2 e)%Q /\ 0 < D.
Proof.
  cbv zeta. unfold Float64.pow2.
  destruct (Z.leb_spec 0 e) as [He|He].
  - rewrite (Z.max_l 0 (- e)) by lia. rewrite (Z.max_r 0 e) by lia.
    assert (Hp : 0 < 2 ^ e) by (apply Z.pow_pos_nonneg; lia).
    split; [| lia].
    unfold Qeq. cbn [Qnum Qden Qmult inject_Z]. rewrite !Pos2Z.inj_mul. cbn [Z.pow]. ring.
  - rewrite (Z.max_r 0 (- e)) by lia. rewrite (Z.max_l 0 e) by lia.
    assert (Hp : 0 < 2 ^ (- e)) by (apply Z.pow_pos_nonneg; lia).
    split; [| cbn; lia].
    unfold Qeq. cbn [Qnum Qden Qmult inject_Z]. rewrite !Pos2Z.inj_mul.
    rewrite Z2Pos.id by exact Hp. cbn [Z.pow]. ring.
Qed.

Lemma log2_window (n d : positive) :
  let e := Z.log2 (Zpos n) - Z.log2 (Zpos d) - 53 in
  let N := Zpos n * 2 ^ Z.max 0 (- e) in
  let D := Zpos d * 2 ^ Z.max 0 e in
  2 ^ 52 * D < N /\ N < 2 ^ 54 * D.
Proof.
  cbv zeta.
  set (a := Z.log2 (Zpos n)). set (b := Z.log2 (Zpos d)).
  assert (Ha : 0 <= a) by apply Z.log2_nonneg.
  assert (Hb : 0 <= b) by apply Z.log2_nonneg.
  destruct (Z.log2_spec (Zpos n) ltac:(lia)) as [Hn1 Hn2]. fold a in Hn1, Hn2.
  destruct (Z.log2_spec (Zpos d) ltac:(lia)) as [Hd1 Hd2]. fold b in Hd1, Hd2.
  rewrite Z.pow_succ_r in Hn2, Hd2 by lia.
  assert (Hpa : 0 < 2 ^ a) by (apply Z.pow_pos_nonneg; lia).
  assert (Hpb : 0 < 2 ^ b) by (apply Z.pow_pos_nonneg; lia).
  change (2 ^ 52) with 4503599627370496. change (2 ^ 54) with 18014398509481984.
  destruct (Z.leb_spec 0 (a - b - 53)) as [He|He].
  - rewrite (Z.max_l 0 (- (a - b - 53))) by lia. rewrite (Z.max_r 0 (a - b - 53)) by lia.
    assert (Hpe : 0 < 2 ^ (a - b - 53)) by (apply Z.pow_pos_nonneg; lia).
    assert (Ea : 2 ^ a = 2 ^ (a - b - 53) * 2 ^ b * 9007199254740992).
    { replace a with ((a - b - 53) + b + 53) at 1 by lia.
      rewrite !Z.pow_add_r by lia. reflexivity. }
    change (2 ^ 0) with 1. nia.
  - rewrite (Z.max_r 0 (- (a - b - 53))) by lia. rewrite (Z.max_l 0 (a - b - 53)) by lia.
    assert (Hpe : 0 < 2 ^ (- (a - b - 53))) by (apply Z.pow_pos_nonneg; lia).
    assert (Ea : 2 ^ a * 2 ^ (- (a - b - 53)) = 2 ^ b * 9007199254740992).
    { rewrite <- Z.pow_add_r by lia. replace (a + - (a - b - 53)) with (b + 53) by lia.
      rewrite Z.pow_add_r by lia. reflexivity. }
    change (2 ^ 0) with 1. nia.
Qed.

(** What [round_pos] returns: an integer [m] of 53 bits times a power of
    two [s], where [m] is nearest to the scaled quotient [N / D]. *)
Lemma round_pos_spec (n d : positive) :
  exists m N D s,
    Float64.round_pos n d = (inject_Z m * s)%Q /\
    ((Zpos n # d) * inject_Z D == inject_Z N * s)%Q /\
    0 < D /\ (0 < s)%Q /\
    2 ^ 52 * D <= N /\ N < 2 ^ 53 * D /\
    2 * Z.abs (m * D - N) <= D.
Proof.
  unfold Float64.round_pos. cbv zeta.
  set (e := Z.log2 (Zpos n) - Z.log2 (Zpos d) - 53).
  destruct (pow2_scaled e n d) as [Hq HD]. cbv zeta in Hq, HD.
  destruct (log2_window n d) as [Hlo Hhi]. cbv zeta in Hlo, Hhi. fold e in Hlo, Hhi.
  set (N := Zpos n * 2 ^ Z.max 0 (- e)) in *.
  set (D := Zpos d * 2 ^ Z.max 0 e) in *.
  pose proof (pow2_pos e) as Hs.
  destruct (Z.ltb_spec N (2 ^ 53 * D)) as [H53|H53].
  - exists (Float64.nearest_even N D), N, D, (Float64.pow2 e).
    split; [reflexivity |]. split; [exact Hq |]. split; [exact HD |]. split; [exact Hs |].
    split; [lia |]. split; [exact H53 |]. now apply nearest_even_close.
  - exists (Float64.nearest_even N (2 * D)), N, (2 * D), (2 * Float64.pow2 e)%Q.
    split; [reflexivity |]. split.
    { rewrite inject_Z_mult. 
      transitivity (2 * ((Zpos n # d) * inject_Z D))%Q; [ring |]. rewrite Hq. ring. }
    split; [lia |]. split; [lra |].
    change (2 ^ 52) with 4503599627370496 in *. change (2 ^ 53) with 9007199254740992 in *.
    change (2 ^ 54) with 18014398509481984 in *.
    split; [lia |]. split; [lia |]. apply nearest_even_close. lia.
Qed.


Lemma round_pos_spec53 (n d : positive) :
  exists m N D s,
    Float64.round_pos n d = (inject_Z m * s)%Q /\
    ((Zpos n # d) * inject_Z D == inject_Z N * s)%Q /\
    0 < D /\ (0 < s)%Q /\
    2 ^ 52 * D <= N /\ N < 2 ^ 53 * D /\
    2 * Z.abs (m * D - N) <= D /\
    2 ^ 52 <= m <= 2 ^ 53.
Proof.
  destruct (round_pos_spec n d) as (m & N & D & s & Hr & Hq & HD & Hs & Hlo & Hhi & Hc).
  exists m, N, D, s. repeat split; try assumption.
  - change (2 ^ 52) with 4503599627370496 in *. change (2 ^ 53) with 9007199254740992 in *. nia.
  - change (2 ^ 52) with 4503599627370496 in *. change (2 ^ 53) with 9007199254740992 in *. nia.
Qed.

Lemma round_pos_positive (n d : positive) : (0 < Float64.round_pos n d)%Q.
Proof.
  destruct (round_pos_spec53 n d) as (m & N & D & s & -> & _ & _ & Hs & _ & _ & _ & [Hm _]).
  apply Qmult_lt_0_compat; [| exact Hs].
  change 0%Q with (inject_Z 0). rewrite <- Zlt_Qlt.
  change (2 ^ 52) with 4503599627370496 in Hm. lia.
Qed.

Lemma abs_bound_Q (m D N : Z) (Hc : 2 * Z.abs (m * D - N) <= D) :
  (2 * (inject_Z m * inject_Z D - inject_Z N) <= inject_Z D)%Q /\
  (- inject_Z D <= 2 * (inject_Z m * inject_Z D - inject_Z N))%Q.
Proof.
  unfold Qle, Qmult, Qminus, Qplus, Qopp, inject_Z; cbn [Qnum Qden].
  rewrite ?Pos.mul_1_r, ?Z.mul_1_r. cbn [Qnum Qden]. rewrite ?Z.mul_1_r. lia.
Qed.

(** The relative error of rounding is at most [2^-53]. *)
Lemma round_pos_error (n d : positive) :
  ((Zpos n # d) * (1 - (1 # 2 ^ 53)) <= Float64.round_pos n d
   <= (Zpos n # d) * (1 + (1 # 2 ^ 53)))%Q.
Proof.
  destruct (round_pos_spec n d) as (m & N & D & s & -> & Hq & HD & Hs & Hlo & Hhi & Hc).
  set (q := (Zpos n # d)) in *.
  assert (HDq : (0 < inject_Z D)%Q).
  { change 0%Q with (inject_Z 0). now rewrite <- Zlt_Qlt. }
  assert (Hlo' : (inject_Z (2 ^ 52) * inject_Z D <= inject_Z N)%Q).
  { rewrite <- inject_Z_mult. now rewrite <- Zle_Qle. }
  destruct (abs_bound_Q m D N Hc) as [Hc1 Hc2].
  change (inject_Z (2 ^ 52)) with (4503599627370496 # 1) in Hlo'.
  change (1 # 2 ^ 53) with (1 # 9007199254740992).
  set (M := inject_Z m) in *. set (NN := inject_Z N) in *. set (DD := inject_Z D) in *.
  assert (E2 : (DD * (1 # 2) * s <= NN * (1 # 9007199254740992) * s)%Q)
    by (apply Qmult_le_compat_r; lra).
  split.
  - apply (Qmult_le_r _ _ DD HDq).
    assert (E : (q * (1 - (1 # 9007199254740992)) * DD
                 == q * DD * (1 - (1 # 9007199254740992)))%Q) by ring.
    rewrite E, Hq.
    assert (E1 : (- (DD * (1 # 2)) * s <= (M * DD - NN) * s)%Q)
      by (apply Qmult_le_compat_r; lra).
    lra.
  - apply (Qmult_le_r _ _ DD HDq).
    assert (E : (q * (1 + (1 # 9007199254740992)) * DD
                 == q * DD * (1 + (1 # 9007199254740992)))%Q) by ring.
    rewrite E, Hq.
    assert (E1 : ((M * DD - NN) * s <= DD * (1 # 2) * s)%Q)
      by (apply Qmult_le_compat_r; lra).
    lra.
Qed.

Lemma round_pos_le_1 (n d : positive) :
  (n <= d)%positive -> (Float64.round_pos n d <= 1)%Q.
Proof.
  intros Hnd. unfold Float64.round_pos. cbv zeta.
  assert (Hlog : Z.log2 (Zpos n) <= Z.log2 (Zpos d)) by (apply Z.log2_le_mono; lia).
  set (e := Z.log2 (Zpos n) - Z.log2 (Zpos d) - 53).
  assert (He : e <= -53) by (subst e; lia).
  rewrite (Z.max_r 0 (- e)) by lia. rewrite (Z.max_l 0 e) by lia.
  change (2 ^ 0) with 1. rewrite Z.mul_1_r.
  assert (HK : 0 < 2 ^ (- e)) by (apply Z.pow_pos_nonneg; lia).
  assert (HK2 : 2 ^ (- e) = 2 * 2 ^ (- e - 1)).
  { rewrite <- Z.pow_succ_r by lia. f_equal. lia. }
  unfold Float64.pow2. rewrite (proj2 (Z.leb_gt 0 e)) by lia.
  destruct (_ <? _).
  - assert (Hm : Float64.nearest_even (Zpos n * 2 ^ (- e)) (Zpos d) <= 2 ^ (- e)).
    { apply nearest_even_upper; [lia |]. nia. }
    unfold Qle. cbn [Qnum Qden Qmult inject_Z]. rewrite ?Pos.mul_1_l, Z2Pos.id by exact HK. lia.
  - assert (Hm : Float64.nearest_even (Zpos n * 2 ^ (- e)) (2 * Zpos d) <= 2 ^ (- e - 1)).
    { apply nearest_even_upper; [lia |]. nia. }
    unfold Qle. cbn [Qnum Qden Qmult inject_Z]. rewrite ?Pos.mul_1_l, Z2Pos.id by exact HK. lia.
Qed.

Lemma div_int_pos (c n : Z) :
  0 < c -> 0 < n ->
  (Float64.div_int c n == Float64.round_pos (Z.to_pos c) (Z.to_pos n))%Q.
Proof.
  intros Hc Hn. destruct c as [|pc|pc]; try lia. destruct n as [|pn|pn]; try lia.
  unfold Float64.div_int, Float64.round. rewrite Qred_correct.
  unfold Qdiv, Qinv, Qmult.
  cbn [Qnum Qden inject_Z Z.to_pos]. rewrite Z.mul_1_r, Pos.mul_1_l. reflexivity.
Qed.

Lemma div_int_share (c n : Z) :
  0 < c <= n ->
  (0 < Float64.div_int c n <= 1)%Q /\
  ((inject_Z c / inject_Z n) * (1 - Float64.unit_roundoff) <= Float64.div_int c n
   <= (inject_Z c / inject_Z n) * (1 + Float64.unit_roundoff))%Q.
Proof.
  intros [Hc Hn]. unfold Float64.unit_roundoff. rewrite div_int_pos by lia.
  split; [split; [apply round_pos_positive | apply round_pos_le_1; lia] |].
  assert (E : (inject_Z c / inject_Z n == Zpos (Z.to_pos c) # Z.to_pos n)%Q).
  { destruct c as [|pc|pc]; try lia. destruct n as [|pn|pn]; try lia.
    unfold Qeq, Qdiv, Qinv, Qmult. cbn. lia. }
  rewrite E. apply round_pos_error.
Qed.

Lemma pow2_shift (a j : Z) :
  0 <= j -> (Float64.pow2 (a + j) == inject_Z (2 ^ j) * Float64.pow2 a)%Q.
Proof.
  intros Hj. unfold Float64.pow2.
  destruct (Z.leb_spec 0 a) as [Ha|Ha], (Z.leb_spec 0 (a + j)) as [Haj|Haj]; try lia.
  - rewrite <- inject_Z_mult, Z.pow_add_r by lia. now rewrite Z.mul_comm.
  - assert (H1 : 0 < 2 ^ (- a)) by (apply Z.pow_pos_nonneg; lia).
    unfold Qeq. cbn [Qnum Qden Qmult inject_Z]. rewrite Pos.mul_1_l, Z2Pos.id by exact H1.
    rewrite !Z.mul_1_r, <- Z.pow_add_r by lia. f_equal. lia.
  - assert (H1 : 0 < 2 ^ (- a)) by (apply Z.pow_pos_nonneg; lia).
    assert (H2 : 0 < 2 ^ (- (a + j))) by (apply Z.pow_pos_nonneg; lia).
    unfold Qeq. cbn [Qnum Qden Qmult inject_Z].
    rewrite Pos.mul_1_l, !Z2Pos.id by assumption.
    rewrite Z.mul_1_l, Z.mul_1_r, <- Z.pow_add_r by lia. f_equal. lia.
Qed.

Lemma nearest_even_exact (c D : Z) : 0 < D -> Float64.nearest_even (c * D) D = c.
Proof.
  intros HD. unfold Float64.nearest_even.
  rewrite Z.div_mul, Z.mod_mul by lia. cbv zeta.
  now rewrite (proj2 (Z.ltb_lt (2 * 0) D)) by lia.
Qed.

Lemma Qmult_cancel_r (x y s : Q) : (0 < s)%Q -> (x * s == y * s)%Q -> (x == y)%Q.
Proof.
  intros Hs E. apply Qmult_inj_r with s; [| exact E]. intros E0. rewrite E0 in Hs.
  discriminate.
Qed.

(** A rational that is a double is rounded to itself. *)
Lemma round_pos_exact (n d : positive) (m k : Z) :
  2 ^ 52 <= m <= 2 ^ 53 ->
  (Zpos n # d == inject_Z m * Float64.pow2 k)%Q ->
  (Float64.round_pos n d == Zpos n # d)%Q.
Proof.
  intros Hm Hq. unfold Float64.round_pos. cbv zeta.
  set (e := Z.log2 (Zpos n) - Z.log2 (Zpos d) - 53).
  destruct (pow2_scaled e n d) as [Hs HD]. cbv zeta in Hs, HD.
  destruct (log2_window n d) as [Hlo Hhi]. cbv zeta in Hlo, Hhi. fold e in Hlo, Hhi.
  set (N := Zpos n * 2 ^ Z.max 0 (- e)) in *.
  set (D := Zpos d * 2 ^ Z.max 0 e) in *.
  pose proof (pow2_pos e) as He. pose proof (pow2_pos k) as Hk.
  assert (HDq : (0 < inject_Z D)%Q) by (change 0%Q with (inject_Z 0); now rewrite <- Zlt_Qlt).
  change (2 ^ 52) with 4503599627370496 in *. change (2 ^ 53) with 9007199254740992 in *.
  change (2 ^ 54) with 18014398509481984 in *.
  rewrite Hq in Hs.
  destruct (Z_le_gt_dec e k) as [Hek|Hek].
  - (* the scaled quotient is the integer m * 2^(k - e) *)
    assert (Hj : 0 <= k - e) by lia.
    pose proof (pow2_shift e (k - e) Hj) as Hsh.
    replace (e + (k - e)) with k in Hsh by lia. rewrite Hsh in Hs.
    assert (HN : N = m * 2 ^ (k - e) * D).
    { assert (E : (inject_Z (m * 2 ^ (k - e) * D) * Float64.pow2 e
                   == inject_Z N * Float64.pow2 e)%Q).
      { rewrite <- Hs, !inject_Z_mult. ring. }
      apply Qmult_cancel_r in E; [| exact He].
      unfold Qeq in E. cbn [Qnum Qden inject_Z] in E. lia. }
    assert (Hp : 0 < 2 ^ (k - e)) by (apply Z.pow_pos_nonneg; lia).
    set (c := m * 2 ^ (k - e)) in *.
    assert (Hval : (Zpos n # d == inject_Z c * Float64.pow2 e)%Q).
    { rewrite Hq, Hsh. subst c. rewrite inject_Z_mult. ring. }
    destruct (Z.ltb_spec N (9007199254740992 * D)) as [H53|H53].
    + rewrite HN, nearest_even_exact by exact HD. now rewrite Hval.
    + assert (Hc2 : exists c2, c = 2 * c2).
      { destruct (Z.eq_dec (k - e) 0) as [E0|E0].
        - exists 4503599627370496. subst c. rewrite E0 in *. change (2 ^ 0) with 1 in *. nia.
        - exists (m * 2 ^ (k - e - 1)). subst c.
          replace (k - e) with (Z.succ (k - e - 1)) at 1 by lia.
          rewrite Z.pow_succ_r by lia. ring. }
      destruct Hc2 as (c2 & Hc2).
      replace N with (c2 * (2 * D)) by (rewrite HN, Hc2; ring).
      rewrite nearest_even_exact by lia. rewrite Hval, Hc2, inject_Z_mult. 
      change (inject_Z 2) with 2%Q. ring.
  - (* k < e would make m exceed 53 bits *)
    exfalso. assert (Hj : 0 <= e - k) by lia.
    pose proof (pow2_shift k (e - k) Hj) as Hsh.
    replace (k + (e - k)) with e in Hsh by lia. rewrite Hsh in Hs.
    assert (HN : m * D = N * 2 ^ (e - k)).
    { assert (E : (inject_Z (m * D) * Float64.pow2 k
                   == inject_Z (N * 2 ^ (e - k)) * Float64.pow2 k)%Q).
      { rewrite !inject_Z_mult.
        transitivity (inject_Z m * Float64.pow2 k * inject_Z D)%Q; [ring |].
        rewrite Hs. ring. }
      apply Qmult_cancel_r in E; [| exact Hk].
      unfold Qeq in E. cbn [Qnum Qden inject_Z] in E. lia. }
    assert (Hp : 2 <= 2 ^ (e - k)).
    { replace (e - k) with (Z.succ (e - k - 1)) by lia. rewrite Z.pow_succ_r by lia.
      assert (0 < 2 ^ (e - k - 1)) by (apply Z.pow_pos_nonneg; lia). lia. }
    nia.
Qed.

Lemma round_pos_double (n d : positive) :
  exists m k, 2 ^ 52 <= m <= 2 ^ 53 /\
              (Float64.round_pos n d == inject_Z m * Float64.pow2 k)%Q.
Proof.
  unfold Float64.round_pos. cbv zeta.
  set (e := Z.log2 (Zpos n) - Z.log2 (Zpos d) - 53).
  destruct (pow2_scaled e n d) as [Hs HD]. cbv zeta in Hs, HD.
  destruct (log2_window n d) as [Hlo Hhi]. cbv zeta in Hlo, Hhi. fold e in Hlo, Hhi.
  set (N := Zpos n * 2 ^ Z.max 0 (- e)) in *.
  set (D := Zpos d * 2 ^ Z.max 0 e) in *.
  change (2 ^ 52) with 4503599627370496 in *. change (2 ^ 53) with 9007199254740992 in *.
  change (2 ^ 54) with 18014398509481984 in *.
  destruct (Z.ltb_spec N (9007199254740992 * D)) as [H53|H53].
  - exists (Float64.nearest_even N D), e. split; [| reflexivity].
    pose proof (nearest_even_close N D HD). nia.
  - exists (Float64.nearest_even N (2 * D)), (e + 1). split.
    + pose proof (nearest_even_close N (2 * D) ltac:(lia)). nia.
    + rewrite (pow2_shift e 1) by lia. reflexivity.
Qed.

Lemma round_exact (x : Q) (m k : Z) :
  2 ^ 52 <= m <= 2 ^ 53 ->
  (x == inject_Z m * Float64.pow2 k)%Q \/ (x == - (inject_Z m * Float64.pow2 k))%Q ->
  (Float64.round x == x)%Q.
Proof.
  intros Hm Hx.
  assert (Hpos : (0 < inject_Z m * Float64.pow2 k)%Q).
  { apply Qmult_lt_0_compat; [| apply pow2_pos].
    change 0%Q with (inject_Z 0). rewrite <- Zlt_Qlt.
    change (2 ^ 52) with 4503599627370496 in Hm. lia. }
  destruct x as [xn xd]. destruct Hx as [Hx|Hx].
  - rewrite <- Hx in Hpos.
    destruct xn as [|xn|xn]; try (exfalso; revert Hpos; unfold Qlt; cbn; lia).
    change (Float64.round (Zpos xn # xd)) with (Qred (Float64.round_pos xn xd)).
    rewrite Qred_correct. exact (round_pos_exact xn xd m k Hm Hx).
  - assert (Hx' : (- (xn # xd) == inject_Z m * Float64.pow2 k)%Q) by (rewrite Hx; ring).
    rewrite <- Hx' in Hpos.
    destruct xn as [|xn|xn]; try (exfalso; revert Hpos; unfold Qlt; cbn; lia).
    change (- (Z.neg xn # xd))%Q with (Zpos xn # xd) in Hx'.
    change (Float64.round (Z.neg xn # xd)) with (Qred (- Float64.round_pos xn xd)).
    rewrite Qred_correct, (round_pos_exact xn xd m k Hm Hx'). reflexivity.
Qed.

Lemma Qred_eq (a b : Q) : (Qred a == Qred b)%Q -> Qred a = Qred b.
Proof. intros E. apply Qred_complete. now rewrite !Qred_correct in E. Qed.

(** Rounding a double gives the double back. *)
Lemma round_idempotent (q : Q) : Float64.round (Float64.round q) = Float64.round q.
Proof.
  assert (G : (Float64.round (Float64.round q) == Float64.round q)%Q).
  { unfold Float64.round at 2 3.
    destruct (Qnum q) as [|n|n]; [reflexivity | |];
      destruct (round_pos_double n (Qden q)) as (m & k & Hm & Hr);
      apply (round_exact _ m k Hm); rewrite Qred_correct, Hr; [now left | now right]. }
  unfold Float64.round at 1 3. unfold Float64.round at 1 in G.
  unfold Float64.round at 2 in G. now apply Qred_eq.
Qed.

Lemma round_idempotent_eq (q : Q) : (Float64.round (Float64.round q) == Float64.round q)%Q.
Proof. now rewrite round_idempotent. Qed.

(** One rounding moves a value by at most the relative [unit_roundoff], and
    keeps its sign. *)
Lemma round_error (q : Q) :
  ((0 <= q -> q * (1 - Float64.unit_roundoff) <= Float64.round q
              <= q * (1 + Float64.unit_roundoff)) /\
   (q <= 0 -> q * (1 + Float64.unit_roundoff) <= Float64.round q
              <= q * (1 - Float64.unit_roundoff)))%Q.
Proof.
  unfold Float64.round, Float64.unit_roundoff. rewrite Qred_correct.
  destruct q as [n d]. cbn [Qnum Qden].
  destruct n as [|n|n].
  - assert (E : (0 # d == 0)%Q) by reflexivity. rewrite E. split; intros _; split; lra.
  - pose proof (round_pos_error n d) as [H1 H2].
    split; [intros _; split; assumption |].
    intros H. exfalso. revert H. unfold Qle. cbn. lia.
  - pose proof (round_pos_error n d) as [H1 H2].
    assert (E : (Z.neg n # d == - (Z.pos n # d))%Q) by reflexivity.
    rewrite E. split; [| intros _; split; lra].
    intros H. exfalso. revert H. unfold Qle. cbn. lia.
Qed.

(** The difference test [a - b >= t] of binary64 agrees with the decimal
    reading outside a band of [2^-50] around the threshold, for rates in
    [0, 1] and a threshold in (0, 1]. *)
Lemma float_drop_band (a b t : Q) :
  (0 <= a <= 1)%Q -> (0 <= b <= 1)%Q -> (0 < t <= 1)%Q ->
  ((t + (1 # 2 ^ 50) <= a - b)%Q -> Float64.geb (Float64.sub a b) t = true) /\
  (Float64.geb (Float64.sub a b) t = true -> (t - (1 # 2 ^ 50) <= a - b)%Q).
Proof.
  intros Ha Hb Ht.
  unfold Float64.geb, Float64.sub. rewrite Qle_bool_iff.
  destruct (round_error a) as [Ea _]. specialize (Ea ltac:(lra)).
  destruct (round_error b) as [Eb _]. specialize (Eb ltac:(lra)).
  destruct (round_error t) as [Et _]. specialize (Et ltac:(lra)).
  set (a' := Float64.round a) in *. set (b' := Float64.round b) in *.
  set (t' := Float64.round t) in *.
  destruct (round_error (a' - b')) as [Ez Ez'].
  rewrite round_idempotent_eq.
  set (r := Float64.round (a' - b')) in *.
  unfold Float64.unit_roundoff in *.
  change (1 # 2 ^ 53)%Q with (1 # 9007199254740992)%Q in *.
  change (1 # 2 ^ 50)%Q with (1 # 1125899906842624)%Q.
  split.
  - intros H. assert (Hz : (0 <= a' - b')%Q) by lra. specialize (Ez Hz). lra.
  - intros H. destruct (Qlt_le_dec (a' - b') 0) as [Hneg|Hz].
    + specialize (Ez' ltac:(lra)). lra.
    + specialize (Ez Hz). lra.
Qed.

Lemma float_gtb_0 (b : Q) : (0 < b)%Q -> Float64.gtb b 0 = true.
Proof.
  intros Hb. unfold Float64.gtb. rewrite negb_true_iff, <- not_true_iff_false, Qle_bool_iff.
  destruct (round_error b) as [Eb _]. specialize (Eb ltac:(lra)).
  unfold Float64.unit_roundoff in Eb. change (1 # 2 ^ 53)%Q with (1 # 9007199254740992)%Q in Eb.
  change (Float64.round 0) with 0%Q. lra.
Qed.

(** The quotient test [(x - y) / d >= t'] of binary64, for a denominator
    [d > 0] and a threshold [t'] that is a double: what it says about the
    rounded operands. *)
Lemma float_quotient_test (x y d t : Q) :
  (0 < d)%Q ->
  let s := Float64.round (Float64.round x - Float64.round y) in
  let d' := Float64.round d in
  let t' := Float64.round t in
  ((0 <= s)%Q -> (t' * d' <= s * (1 - Float64.unit_roundoff))%Q ->
   Float64.geb (Float64.div (Float64.sub x y) d) t = true) /\
  (Float64.geb (Float64.div (Float64.sub x y) d) t = true -> (0 < t')%Q ->
   (0 <= s)%Q /\ (t' * d' <= s * (1 + Float64.unit_roundoff))%Q).
Proof.
  intros Hd s d' t'.
  unfold Float64.geb, Float64.div, Float64.sub. rewrite Qle_bool_iff.
  rewrite !round_idempotent. fold s d' t'.
  destruct (round_error d) as [Ed _]. specialize (Ed ltac:(lra)). fold d' in Ed.
  unfold Float64.unit_roundoff in *.
  change (1 # 2 ^ 53)%Q with (1 # 9007199254740992)%Q in *.
  assert (Hd' : (0 < d')%Q) by lra.
  destruct (round_error (s / d')) as [Eq Eq'].
  unfold Float64.unit_roundoff in *.
  change (1 # 2 ^ 53)%Q with (1 # 9007199254740992)%Q in *.
  set (r := Float64.round (s / d')) in *.
  split.
  - intros Hs Ht.
    assert (Hq : (0 <= s / d')%Q).
    { apply Qle_shift_div_l; [exact Hd' | lra]. }
    specialize (Eq Hq).
    assert (Hk : (t' / (1 - (1 # 9007199254740992)) <= s / d')%Q).
    { apply Qle_shift_div_l; [exact Hd' |]. 
      assert (E : (t' / (1 - (1 # 9007199254740992)) * d'
                   == t' * d' / (1 - (1 # 9007199254740992)))%Q) by (field; lra).
      rewrite E. apply Qle_shift_div_r; lra. }
    assert (Hk2 : (t' <= s / d' * (1 - (1 # 9007199254740992)))%Q).
    { assert (E : (t' == t' / (1 - (1 # 9007199254740992)) * (1 - (1 # 9007199254740992)))%Q)
        by (field; lra).
      rewrite E. apply Qmult_le_compat_r; lra. }
    lra.
  - intros Hr Ht.
    assert (Hs : (0 <= s)%Q).
    { destruct (Qlt_le_dec s 0) as [Hneg|]; [| assumption].
      exfalso. assert (Hq : (s / d' <= 0)%Q).
      { apply Qle_shift_div_r; [exact Hd' | lra]. }
      specialize (Eq' Hq). 
      assert (Hq2 : (s / d' * (1 - (1 # 9007199254740992)) <= 0)%Q).
      { setoid_replace 0%Q with (0 * (1 - (1 # 9007199254740992)))%Q using relation Qeq by ring.
        apply Qmult_le_compat_r; lra. }
      lra. }
    split; [exact Hs |].
    assert (Hq : (0 <= s / d')%Q).
    { apply Qle_shift_div_l; [exact Hd' | lra]. }
    specialize (Eq Hq).
    assert (H1 : (t' * d' <= s / d' * (1 + (1 # 9007199254740992)) * d')%Q)
      by (apply Qmult_le_compat_r; lra).
    assert (E : (s / d' * (1 + (1 # 9007199254740992)) * d'
                 == s * (1 + (1 # 9007199254740992)))%Q) by (field; lra).
    now rewrite E in H1.
Qed.

Lemma Qle_div_mult (a b c : Q) : (0 < c)%Q -> (a <= b / c)%Q -> (a * c <= b)%Q.
Proof.
  intros Hc H. assert (E : (b == b / c * c)%Q) by (field; lra).
  rewrite E. apply Qmult_le_compat_r; lra.
Qed.

(** The relative-rise test [(c - b) / b >= 0.25] of binary64 agrees with the
    decimal reading outside a band of [2^-49] around the threshold. *)
Lemma float_rise_band (c b : Q) :
  (0 <= c)%Q -> (0 < b)%Q ->
  (((25 # 100) + (1 # 2 ^ 49) <= (c - b) / b)%Q ->
   Float64.gtb b 0 && Float64.geb (Float64.div (Float64.sub c b) b) (25 # 100) = true) /\
  (Float64.gtb b 0 && Float64.geb (Float64.div (Float64.sub c b) b) (25 # 100) = true ->
   ((25 # 100) - (1 # 2 ^ 49) <= (c - b) / b)%Q).
Proof.
  intros Hc Hb. rewrite (float_gtb_0 b Hb). cbn [andb].
  destruct (float_quotient_test c b b (25 # 100) Hb) as [Hyes Hno]. cbv zeta in Hyes, Hno.
  destruct (round_error c) as [Ec _]. specialize (Ec Hc).
  destruct (round_error b) as [Eb _]. specialize (Eb ltac:(lra)).
  destruct (round_error (Float64.round c - Float64.round b)) as [Ez Ez'].
  assert (Et : Float64.round (25 # 100) = (1 # 4)%Q) by (vm_compute; reflexivity).
  rewrite Et in Hyes, Hno.
  set (c' := Float64.round c) in *. set (b' := Float64.round b) in *.
  set (s := Float64.round (c' - b')) in *.
  unfold Float64.unit_roundoff in *.
  change (1 # 2 ^ 53)%Q with (1 # 9007199254740992)%Q in *.
  change (1 # 2 ^ 49)%Q with (1 # 562949953421312)%Q.
  split.
  - intros H. apply Qle_div_mult in H; [| exact Hb].
    assert (Hz : (0 <= c' - b')%Q) by lra. specialize (Ez Hz).
    apply Hyes; lra.
  - intros H. destruct (Hno H ltac:(reflexivity)) as [Hs Hle].
    apply Qle_shift_div_l; [exact Hb |].
    destruct (Qlt_le_dec (c' - b') 0) as [Hneg|Hz].
    + specialize (Ez' ltac:(lra)). lra.
    + specialize (Ez Hz). lra.
Qed.

(** The relative-fall test [(x - y) / x >= 0.15] of binary64, likewise. *)
Lemma float_fall_band (x y : Q) :
  (0 < x)%Q -> (0 <= y)%Q ->
  (((15 # 100) + (1 # 2 ^ 49) <= (x - y) / x)%Q ->
   Float64.gtb x 0 && Float64.geb (Float64.div (Float64.sub x y) x) (15 # 100) = true) /\
  (Float64.gtb x 0 && Float64.geb (Float64.div (Float64.sub x y) x) (15 # 100) = true ->
   ((15 # 100) - (1 # 2 ^ 49) <= (x - y) / x)%Q).
Proof.
  intros Hx Hy. rewrite (float_gtb_0 x Hx). cbn [andb].
  destruct (float_quotient_test x y x (15 # 100) Hx) as [Hyes Hno]. cbv zeta in Hyes, Hno.
  destruct (round_error x) as [Ex _]. specialize (Ex ltac:(lra)).
  destruct (round_error y) as [Ey _]. specialize (Ey Hy).
  destruct (round_error (Float64.round x - Float64.round y)) as [Ez Ez'].
  assert (Et : Float64.round (15 # 100) = (5404319552844595 # 36028797018963968)%Q)
    by (vm_compute; reflexivity).
  rewrite Et in Hyes, Hno.
  set (x' := Float64.round x) in *. set (y' := Float64.round y) in *.
  set (s := Float64.round (x' - y')) in *.
  unfold Float64.unit_roundoff in *.
  change (1 # 2 ^ 53)%Q with (1 # 9007199254740992)%Q in *.
  change (1 # 2 ^ 49)%Q with (1 # 562949953421312)%Q.
  split.
  - intros H. apply Qle_div_mult in H; [| exact Hx].
    assert (Hz : (0 <= x' - y')%Q) by lra. specialize (Ez Hz).
    apply Hyes; lra.
  - intros H. destruct (Hno H ltac:(reflexivity)) as [Hs Hle].
    apply Qle_shift_div_l; [exact Hx |].
    destruct (Qlt_le_dec (x' - y') 0) as [Hneg|Hz].
    + specialize (Ez' ltac:(lra)). lra.
    + specialize (Ez Hz). lra.
Qed.

(** *** The regression test *)

Lemma float_geb_le a b : Float64.geb a b = true <-> Float64.le b a.
Proof. apply Qle_bool_iff. Qed.

Lemma float_gtb_lt a b : Float64.gtb a b = true <-> Float64.lt b a.
Proof.
  unfold Float64.gtb, Float64.lt.
  rewrite negb_true_iff, <- not_true_iff_false, Qle_bool_iff.
  split; [apply Qnot_le_lt | apply Qlt_not_le].
Qed.

Lemma regression_decided base cur :
  Executor.success_dropped base cur || Executor.latency_increased base cur = true
  <-> Amended.regression base cur.
Proof.
  unfold Amended.regression, Executor.success_dropped, Executor.latency_increased.
  rewrite orb_true_iff, andb_true_iff, !float_geb_le, float_gtb_lt. reflexivity.
Qed.

Lemma float_lt_0 (b : Q) : Float64.lt 0 b <-> (0 < b)%Q.
Proof.
  unfold Float64.lt. change (Float64.round 0) with 0%Q.
  destruct (round_error b) as [Ep En].
  unfold Float64.unit_roundoff in *. change (1 # 2 ^ 53)%Q with (1 # 9007199254740992)%Q in *.
  split; intros H.
  - destruct (Qlt_le_dec 0 b) as [|Hb]; [assumption |]. specialize (En Hb). lra.
  - specialize (Ep ltac:(lra)). lra.
Qed.

(** The regression test and the claim's decimal conditions: they agree
    outside a band of [2^-49] around the thresholds. *)
Lemma regression_near_decimal (base cur : WindowMetrics) :
  (0 <= success_rate base <= 1)%Q -> (0 <= success_rate cur <= 1)%Q ->
  (0 <= p95_latency_ms cur)%Q ->
  (Amended.decimal_regression (1 # 2 ^ 49) base cur -> Amended.regression base cur) /\
  (Amended.regression base cur -> Amended.decimal_regression (- (1 # 2 ^ 49)) base cur).
Proof.
  intros Hb Hc Hl. unfold Amended.decimal_regression, Amended.regression.
  rewrite <- !float_geb_le, float_lt_0.
  destruct (float_drop_band (success_rate base) (success_rate cur) (8 # 100) Hb Hc
              ltac:(split; [reflexivity | discriminate])) as [D1 D2].
  change (1 # 2 ^ 50)%Q with (1 # 1125899906842624)%Q in *.
  change (1 # 2 ^ 49)%Q with (1 # 562949953421312)%Q in *.
  split.
  - intros [H | [Hp H]].
    + left. apply D1. lra.
    + right. split; [exact Hp |].
      destruct (float_rise_band (p95_latency_ms cur) (p95_latency_ms base) Hl Hp) as [R1 _].
      change (1 # 2 ^ 49)%Q with (1 # 562949953421312)%Q in *.
      specialize (R1 H). rewrite (float_gtb_0 _ Hp) in R1. exact R1.
  - intros [H | [Hp H]].
    + left. specialize (D2 H). lra.
    + right. split; [exact Hp |].
      destruct (float_rise_band (p95_latency_ms cur) (p95_latency_ms base) Hl Hp) as [_ R2].
      change (1 # 2 ^ 49)%Q with (1 # 562949953421312)%Q in *.
      rewrite (float_gtb_0 _ Hp) in R2. specialize (R2 H). lra.
Qed.

(** C2.  With at least one active action and a stored baseline,
    [check_rollback] either detects a regression, as binary64 arithmetic
    evaluates the two tests (the rounded difference baseline success rate
    minus current success rate at least 0.08, or the rounded relative rise of
    the current p95 latency over a positive baseline p95 at least 0.25), and
    then sends one rollback command per active action, returns and logs one
    message per active action, and leaves both the active list empty and the
    baseline unset; or it detects none, returns the empty list and leaves the
    Executor and the world exactly as they were. *)
Theorem check_rollback_all_or_nothing (e : Executor.t) (cur base : WindowMetrics)
    (w : Executor.World) :
  Executor._active_actions e <> [] ->
  Executor._baseline_metrics e = Some base ->
  let sd := Executor.success_dropped base cur in
  let li := Executor.latency_increased base cur in
  let msgs := map (fun tm => Executor.rollback_msg (fst tm) sd li) (Executor._active_actions e) in
  let '(rollbacks, e', w') := Executor.check_rollback e cur w in
  (Amended.regression base cur /\
   rollbacks = msgs /\
   List.length rollbacks = List.length (Executor._active_actions e) /\
   Executor._active_actions e' = [] /\
   Executor._baseline_metrics e' = None /\
   Executor._rollback_log e' = Executor._rollback_log e ++ msgs /\
   Executor._pending_escalation e' = Executor._pending_escalation e /\
   Executor.pending_file w' = Executor.pending_file w /\
   Executor.sim_calls w' =
     Executor.sim_calls w ++
     (if Executor._simulator_control e
      then map (fun tm => Spec.rollback_cmd (fst tm)) (Executor._active_actions e)
      else []))
  \/
  (~ Amended.regression base cur /\ rollbacks = [] /\ e' = e /\ w' = w).
Proof.
  intros Hact Hbase sd li msgs.
  unfold Executor.check_rollback. rewrite Hbase.
  destruct (Executor._active_actions e) as [|a0 rest] eqn:Ea; [congruence |].
  fold sd li.
  destruct (sd || li) eqn:Hreg.
  - rewrite rollback_all_spec, rollback_fold. left.
    apply regression_decided in Hreg.
    cbn [app]. fold msgs.
    repeat split; try reflexivity; try exact Hreg.
    subst msgs. now rewrite length_map.
  - right. repeat split; try reflexivity.
    intros Hr. apply regression_decided in Hr. fold sd li in Hr. congruence.
Qed.

Lemma check_rollback_all_or_nothing_witness :
  let e := fst SampleExec.running in
  let w := snd SampleExec.running in
  let cur := SampleExec.metrics (8 # 10) 300 in
  let base := SampleExec.metrics (9 # 10) 300 in
  let sd := Executor.success_dropped base cur in
  let li := Executor.latency_increased base cur in
  let msgs := map (fun tm => Executor.rollback_msg (fst tm) sd li) (Executor._active_actions e) in
  let '(rollbacks, e', w') := Executor.check_rollback e cur w in
  (Amended.regression base cur /\
   rollbacks = msgs /\
   List.length rollbacks = List.length (Executor._active_actions e) /\
   Executor._active_actions e' = [] /\
   Executor._baseline_metrics e' = None /\
   Executor._rollback_log e' = Executor._rollback_log e ++ msgs /\
   Executor._pending_escalation e' = Executor._pending_escalation e /\
   Executor.pending_file w' = Executor.pending_file w /\
   Executor.sim_calls w' =
     Executor.sim_calls w ++
     (if Executor._simulator_control e
      then map (fun tm => Spec.rollback_cmd (fst tm)) (Executor._active_actions e)
      else []))
  \/
  (~ Amended.regression base cur /\ rollbacks = [] /\ e' = e /\ w' = w).
Proof.
  apply (check_rollback_all_or_nothing (fst SampleExec.running)
           (SampleExec.metrics (8 # 10) 300) (SampleExec.metrics (9 # 10) 300)
           (snd SampleExec.running)).
  - vm_compute. discriminate.
  - vm_compute. reflexivity.
Defined.

(** C2, counterexample.  One reroute is active, applied at a success rate of
    0.88, and the current rate is 0.80.  The rate dropped by 0.08, a
    regression in the claim's terms; but in binary64 0.88 - 0.80 is
    0.07999999999999996, below the double nearest to 0.08, so
    [check_rollback] returns the empty list and keeps the action and the
    baseline. *)
Lemma check_rollback_misses_decimal_drop :
  let e := fst Cases.running_at_0_88 in
  let w := snd Cases.running_at_0_88 in
  let base := SampleExec.metrics (88 # 100) 300 in
  let cur := SampleExec.metrics (80 # 100) 300 in
  Executor._active_actions e <> [] /\
  Executor._baseline_metrics e = Some base /\
  Spec.regression base cur /\
  Float64.sub (88 # 100) (80 # 100) = 720575940379279 # 9007199254740992 /\
  Float64.round (8 # 100) = 5764607523034235 # 72057594037927936 /\
  (720575940379279 # 9007199254740992 < 5764607523034235 # 72057594037927936)%Q /\
  Executor.check_rollback e cur w = ([], e, w).
Proof.
  cbv zeta. split; [vm_compute; discriminate |].
  split; [vm_compute; reflexivity |].
  split; [left; vm_compute; discriminate |].
  split; [vm_compute; reflexivity |].
  split; [vm_compute; reflexivity |].
  split; [reflexivity | vm_compute; reflexivity].
Qed.

(** The same at the latency test: a p95 of 150.5 ms over a baseline of
    120.4 ms is a rise of exactly 25%, which binary64 evaluates to
    0.24999999999999994. *)
Lemma check_rollback_misses_decimal_rise :
  let base := SampleExec.metrics (9 # 10) (1204 # 10) in
  let cur := SampleExec.metrics (9 # 10) (1505 # 10) in
  Spec.regression base cur /\
  Executor.success_dropped base cur || Executor.latency_increased base cur = false.
Proof.
  cbv zeta. split; [right; split; vm_compute; [reflexivity | discriminate] |].
  vm_compute. reflexivity.
Qed.

Lemma execute_blocks (e : Executor.t) (trace : DecisionTrace)
    (m : WindowMetrics) (now : Q) (w : Executor.World) :
  action_type (action trace) <> ActionType.NO_OP ->
  Executor.requires_human_approval (action trace) = true \/
  (risk_score (action trace) >= 45 # 100)%Q ->
  exists msg e' w', Executor.execute e trace m now w = ((false, msg), e', w').
Proof.
  intros Hop Hrisk. unfold Executor.execute.
  destruct (String.eqb_spec (action_type (action trace)) ActionType.NO_OP) as [E|_];
    [contradiction |].
  destruct (Executor.requires_human_approval (action trace)) eqn:Hreq.
  - cbn. eauto.
  - destruct Hrisk as [Hr|Hr]; [discriminate |].
    apply Qgeb_le in Hr. unfold Executor.AUTO_EXECUTE_RISK_THRESHOLD. rewrite Hr.
    cbn. eauto.
Qed.

(** C1 (as amended).  The Executor keeps a single pending slot, so at most
    one PendingEscalation exists at a time; a call to [execute] with an action
    that requires human approval, or whose risk is at or above 0.45, returns
    executed = false, applies nothing, and stores the new proposal in the
    slot and in the pending file, whatever was stored there before. *)
Theorem execute_escalates_into_slot (e : Executor.t) (trace : DecisionTrace)
    (m : WindowMetrics) (now : Q) (w : Executor.World) :
  action_type (action trace) <> ActionType.NO_OP ->
  Executor.requires_human_approval (action trace) = true \/
  (risk_score (action trace) >= 45 # 100)%Q ->
  let '((executed, msg), e', w') := Executor.execute e trace m now w in
  executed = false /\
  (exists why,
     Executor._pending_escalation e' = Some (Executor.pending_of (action trace) why now) /\
     Executor.pending_file w' = Some (Executor.pending_of (action trace) why now)) /\
  Executor._execution_log e' = Executor._execution_log e ++ [msg] /\
  Executor._active_actions e' = Executor._active_actions e /\
  Executor._baseline_metrics e' = Executor._baseline_metrics e /\
  Executor.sim_calls w' = Executor.sim_calls w.
Proof.
  intros Hop Hrisk. unfold Executor.execute.
  destruct (String.eqb_spec (action_type (action trace)) ActionType.NO_OP) as [E|_];
    [contradiction |].
  destruct (Executor.requires_human_approval (action trace)) eqn:Hreq.
  - cbn. repeat split. eexists. split; reflexivity.
  - destruct Hrisk as [Hr|Hr]; [discriminate |].
    apply Qgeb_le in Hr. unfold Executor.AUTO_EXECUTE_RISK_THRESHOLD. rewrite Hr.
    cbn. repeat split. eexists. split; reflexivity.
Qed.

Lemma execute_escalates_into_slot_witness :
  let '((executed, msg), e', w') :=
    Executor.execute (fst SampleExec.escalated)
      (SampleExec.trace_of (SampleExec.reroute "ICICI" (5 # 10) false))
      (SampleExec.metrics (9 # 10) 300) 200 (snd SampleExec.escalated) in
  executed = false /\
  (exists why,
     Executor._pending_escalation e' =
       Some (Executor.pending_of (SampleExec.reroute "ICICI" (5 # 10) false) why 200) /\
     Executor.pending_file w' =
       Some (Executor.pending_of (SampleExec.reroute "ICICI" (5 # 10) false) why 200)) /\
  Executor._execution_log e' = Executor._execution_log (fst SampleExec.escalated) ++ [msg] /\
  Executor._active_actions e' = Executor._active_actions (fst SampleExec.escalated) /\
  Executor._baseline_metrics e' = Executor._baseline_metrics (fst SampleExec.escalated) /\
  Executor.sim_calls w' = Executor.sim_calls (snd SampleExec.escalated).
Proof.
  apply (execute_escalates_into_slot (fst SampleExec.escalated)
           (SampleExec.trace_of (SampleExec.reroute "ICICI" (5 # 10) false))
           (SampleExec.metrics (9 # 10) 300) 200 (snd SampleExec.escalated)).
  - vm_compute. discriminate.
  - right. vm_compute. discriminate.
Defined.

(** C1, counterexample.  An escalation of a reroute away from HDFC is
    pending; [execute] is called with a reroute away from ICICI that requires
    approval.  The call returns executed = false, and the pending escalation
    is now the ICICI proposal: the first one was replaced. *)
Lemma execute_replaces_pending :
  let '(e0, w0) := SampleExec.escalated in
  let '((executed, _), e1, w1) :=
    Executor.execute e0 (SampleExec.trace_of (SampleExec.reroute "ICICI" (363 # 1000) true))
                     (SampleExec.metrics (9 # 10) 300) 200 w0 in
  (pr_target <$> Executor._pending_escalation e0) = Some (Some "HDFC") /\
  (status <$> Executor._pending_escalation e0) = Some "pending" /\
  executed = false /\
  (pr_target <$> Executor._pending_escalation e1) = Some (Some "ICICI") /\
  (pr_target <$> Executor.pending_file w1) = Some (Some "ICICI") /\
  Executor._pending_escalation e1 <> Executor._pending_escalation e0.
Proof.
  vm_compute. repeat split. intros E. discriminate E.
Qed.

Lemma apply_action_spec (e : Executor.t) (trace : DecisionTrace) (w : Executor.World) :
  Executor._apply_action e trace w =
  (true,
   {| Executor.pending_file := Executor.pending_file w;
      Executor.sim_calls :=
        Executor.sim_calls w ++
        Spec.applied_cmds (Executor._simulator_control e) (action trace) |}).
Proof.
  unfold Executor._apply_action, Spec.applied_cmds. cbv zeta.
  unfold ActionType.REROUTE, ActionType.RETRY_POLICY, ActionType.SUPPRESS.
  destruct w as [pf calls]. cbn [Executor.pending_file Executor.sim_calls].
  destruct (Executor._simulator_control e); cbn [negb]; [| now rewrite app_nil_r].
  destruct (String.eqb_spec (action_type (action trace)) "reroute") as [Er|Nr].
  - rewrite Er. cbn [andb].
    destruct (target (action trace)) as [tgt|]; cbn [truthy_opt_str].
    + destruct tgt as [|c tgt]; cbn [truthy_str String.eqb];
        [now rewrite app_nil_r | reflexivity].
    + now rewrite app_nil_r.
  - cbn [andb].
    destruct (String.eqb (action_type (action trace)) "retry_policy"); [reflexivity |].
    destruct (String.eqb (action_type (action trace)) "suppress"); [reflexivity |].
    now rewrite app_nil_r.
Qed.

(** C8.  With an escalation pending in memory and a persisted record on
    disk: if the record's status is "approved" the action is applied (the
    command of the approved action, a reroute of its target, a retry policy
    or a suppression with its parameters, reaches the controlled system, and
    the action joins the active actions), the current metrics become the
    baseline, the slot and the file are cleared, and the executed Action is
    returned; if it is "rejected" the slot and the file are cleared, nothing
    is applied and no Action is returned; if it is still "pending" the call
    returns (False, None, None) and changes nothing. *)
Theorem approval_round_trip (e : Executor.t) (metrics : WindowMetrics) (now : Q)
    (w : Executor.World) (p d : PendingRecord) :
  Executor._pending_escalation e = Some p ->
  Executor.pending_file w = Some d ->
  let '((processed, msg, approved_action), e', w') :=
    Executor.check_and_apply_approval e metrics now w in
  (status d = "approved" ->
   let trace := {| hypothesis := None; action := pr_action d;
                   trace_risk_score := risk_score (pr_action d);
                   reasoning := "Human approved via dashboard";
                   trace_timestamp := now |} in
   processed = true /\
   approved_action = Some (pr_action d) /\
   (exists text, msg = Some text /\
                 Executor._execution_log e' = Executor._execution_log e ++ [text]) /\
   Executor._baseline_metrics e' = Some metrics /\
   Executor._active_actions e' =
     Executor._active_actions e ++
       [(trace, {| Executor.applied_at := now; Executor.meta_status := "executed" |})] /\
   Executor._pending_escalation e' = None /\
   Executor.pending_file w' = None /\
   Executor.sim_calls w' =
     Executor.sim_calls w ++
     Spec.applied_cmds (Executor._simulator_control e) (pr_action d) /\
   (Executor._simulator_control e = true ->
    action_type (pr_action d) = "reroute" ->
    forall tgt, target (pr_action d) = Some tgt -> tgt <> "" ->
    Executor.sim_calls w' =
      Executor.sim_calls w ++
      [{| Executor.cmd := "reroute";
          Executor.cmd_params :=
            Executor.reroute_params tgt (params (pr_action d)) |}])) /\
  (status d = "rejected" ->
   processed = true /\
   approved_action = None /\
   msg = Some "Human REJECTED the proposed action." /\
   Executor._pending_escalation e' = None /\
   Executor.pending_file w' = None /\
   Executor._active_actions e' = Executor._active_actions e /\
   Executor._baseline_metrics e' = Executor._baseline_metrics e /\
   Executor.sim_calls w' = Executor.sim_calls w) /\
  (status d = "pending" ->
   processed = false /\ msg = None /\ approved_action = None /\ e' = e /\ w' = w).
Proof.
  intros Hp Hd. unfold Executor.check_and_apply_approval, Executor.read_pending_approval.
  rewrite Hp, Hd.
  destruct (String.eqb_spec (status d) "approved") as [Ea|Na].
  - set (trace := Build_DecisionTrace _ _ _ _ _).
    rewrite (apply_action_spec (Executor.set_baseline (Some metrics) e) trace w).
    cbn. split; [intros _ | split; intros E; rewrite Ea in E; discriminate E].
    split; [reflexivity |]. split; [reflexivity |].
    split; [eexists; split; reflexivity |].
    split; [reflexivity |]. split; [reflexivity |].
    split; [reflexivity |]. split; [reflexivity |].
    split; [reflexivity |].
    intros Hcb Hty tgt Htgt Hne. unfold Spec.applied_cmds.
    rewrite Hcb, Hty, Htgt. cbn [negb String.eqb Ascii.eqb Bool.eqb].
    destruct tgt as [|c tgt]; [contradiction | reflexivity].
  - destruct (String.eqb_spec (status d) "rejected") as [Er|Nr].
    + cbn. split; [intros E; contradiction |].
      split; [intros _; repeat split | intros E; rewrite Er in E; discriminate E].
    + cbn. split; [intros E; contradiction |].
      split; [intros E; contradiction | intros _; repeat split].
Qed.

Lemma approval_round_trip_witness :
  let e := fst SampleExec.escalated in
  let w := SampleExec.answered "approved" (snd SampleExec.escalated) in
  exists p d,
    Executor._pending_escalation e = Some p /\
    Executor.pending_file w = Some d /\
    status d = "approved" /\
    let '((processed, msg, approved_action), e', w') :=
      Executor.check_and_apply_approval e (SampleExec.metrics (8 # 10) 400) 300 w in
    processed = true /\
    approved_action = Some (pr_action d) /\
    Executor._baseline_metrics e' = Some (SampleExec.metrics (8 # 10) 400) /\
    Executor._pending_escalation e' = None /\
    Executor.pending_file w' = None /\
    Executor.sim_calls w' =
      [{| Executor.cmd := "reroute";
          Executor.cmd_params :=
            [("issuer", VStr "HDFC"); ("weight_reduce", VFloat (5 # 10));
             ("requires_human_approval", VBool true)] |}].
Proof.
  eexists. eexists.
  split; [vm_compute; reflexivity |].
  split; [vm_compute; reflexivity |].
  split; [reflexivity |].
  pose proof (approval_round_trip (fst SampleExec.escalated)
                (SampleExec.metrics (8 # 10) 400) 300
                (SampleExec.answered "approved" (snd SampleExec.escalated))
                _ _ eq_refl eq_refl) as H.
  destruct (Executor.check_and_apply_approval _ _ _ _) as [[[[processed msg] act] e'] w'].
  destruct H as (Happroved & _ & _).
  destruct (Happroved eq_refl) as (H1 & H2 & _ & H4 & _ & H6 & H7 & H8 & _).
  split; [exact H1 |]. split; [exact H2 |]. split; [exact H4 |].
  split; [exact H6 |]. split; [exact H7 |].
  rewrite H8. vm_compute. reflexivity.
Defined.

(** ** Learner *)

Lemma evaluate_helped_classify before m rb :
  Learner._evaluate_helped before (Learner._metrics_snapshot m) rb =
  (Spec.is_helped (Amended.classify before m rb),
   match Amended.classify before m rb with
   | Spec.Helped => 1
   | Spec.Hurt => -1
   | Spec.Neutral => 0
   end).
Proof.
  unfold Learner._evaluate_helped, Amended.classify, Amended.harmful, Amended.helpful,
    Amended.at_least, Learner.cost_harmful, Learner.attempts_harmful, Learner.sr_improved,
    Learner.lat_reduced, Learner._metrics_snapshot,
    Learner.HARMFUL_COST_INCREASE, Learner.HARMFUL_ATTEMPT_AMPLIFICATION,
    Learner.HELPED_SUCCESS_IMPROVEMENT, Learner.HELPED_LATENCY_REDUCTION.
  cbn [Learner.s_success_rate Learner.s_p95_latency_ms Learner.s_average_estimated_cost
       Learner.s_attempt_amplification].
  destruct rb; [reflexivity |].
  destruct (average_estimated_cost m) as [c|];
    destruct (attempt_amplification m) as [x|]; cbn [orb];
    repeat match goal with
           | |- context [if ?b then _ else _] => destruct b eqn:?; cbn [orb andb]
           end; try reflexivity; try discriminate.
Qed.

Lemma bump_counted before m rb s :
  Learner.bump (snd (Learner._evaluate_helped before (Learner._metrics_snapshot m) rb)) s =
  Spec.counted (Amended.classify before m rb) s.
Proof.
  rewrite evaluate_helped_classify. cbn [snd].
  now destruct (Amended.classify before m rb).
Qed.

(** The help test of the Learner and the claim's decimal conditions,
    likewise. *)
Lemma helpful_near_decimal (before : Learner.Snapshot) (after : WindowMetrics) :
  (0 <= Learner.s_success_rate before <= 1)%Q -> (0 <= success_rate after <= 1)%Q ->
  (0 <= p95_latency_ms after)%Q ->
  (Amended.decimal_help (1 # 2 ^ 49) before after -> Amended.helpful before after = true) /\
  (Amended.helpful before after = true -> Amended.decimal_help (- (1 # 2 ^ 49)) before after).
Proof.
  intros Hb Ha Hl. unfold Amended.decimal_help, Amended.helpful.
  rewrite orb_true_iff.
  destruct (float_drop_band (success_rate after) (Learner.s_success_rate before) (3 # 100)
              Ha Hb ltac:(split; [reflexivity | discriminate])) as [D1 D2].
  change (1 # 2 ^ 50)%Q with (1 # 1125899906842624)%Q in *.
  change (1 # 2 ^ 49)%Q with (1 # 562949953421312)%Q in *.
  split.
  - intros [H | [Hp H]].
    + left. apply D1. lra.
    + right.
      destruct (float_fall_band (Learner.s_p95_latency_ms before) (p95_latency_ms after)
                  Hp Hl) as [R1 _].
      change (1 # 2 ^ 49)%Q with (1 # 562949953421312)%Q in *.
      exact (R1 H).
  - intros [H | H].
    + left. specialize (D2 H). lra.
    + right. pose proof H as H0. apply andb_true_iff in H0 as [Hp _].
      apply (proj1 (float_gtb_lt _ _)) in Hp. apply (proj1 (float_lt_0 _)) in Hp.
      split; [exact Hp |].
      destruct (float_fall_band (Learner.s_p95_latency_ms before) (p95_latency_ms after)
                  Hp Hl) as [_ R2].
      change (1 # 2 ^ 49)%Q with (1 # 562949953421312)%Q in *.
      specialize (R2 H). lra.
Qed.

(** The harm test reads a level: a value of at least the threshold, up to
    one rounding. *)
Lemma at_least_near_decimal (v level : Q) :
  (0 < level)%Q ->
  ((level * (1 + (1 # 2 ^ 51)) <= v)%Q -> Amended.at_least (Some v) level = true) /\
  (Amended.at_least (Some v) level = true -> (level * (1 - (1 # 2 ^ 51)) <= v)%Q).
Proof.
  intros Hl. unfold Amended.at_least, Float64.geb. rewrite Qle_bool_iff.
  destruct (round_error level) as [El _]. specialize (El ltac:(lra)).
  destruct (round_error v) as [Ev Ev'].
  unfold Float64.unit_roundoff in *.
  change (1 # 2 ^ 53)%Q with (1 # 9007199254740992)%Q in *.
  change (1 # 2 ^ 51)%Q with (1 # 2251799813685248)%Q.
  split; intros H.
  - specialize (Ev ltac:(lra)). lra.
  - destruct (Qlt_le_dec v 0) as [Hneg|Hv].
    + specialize (Ev' ltac:(lra)). lra.
    + specialize (Ev Hv). lra.
Qed.

(** C6.  With a decision context pending, [record_outcome] appends exactly
    one record, holding the stored context, the pending action and the six
    fields read from the metrics of the outcome, and counts it under exactly
    one of helped, hurt and neutral, decided in this order: rollback, then
    hurt; otherwise an average estimated cost of at least 0.04 or an attempt
    amplification of at least 1.6 in the metrics of the outcome (the level
    after the action, not its increase), then hurt; otherwise success rate up
    by at least 0.03 or p95 latency down by at least 15% against the stored
    context, as binary64 evaluates the difference and the quotient, then
    helped; otherwise neutral.  The record's [helped] flag is set exactly
    when the verdict is helped, so helped and hurt exclude each other, and a
    rollback always gives hurt with [helped = False].  The stored context is
    the six fields read from the metrics passed to
    [record_decision_context]. *)
Theorem record_outcome_classifies (l : Learner.t) (before : Learner.Snapshot)
    (a : Action) (m : WindowMetrics) (rb : bool) :
  Learner._context_before_action l = Some before ->
  Learner._action_pending l = Some a ->
  let after := {| Learner.s_success_rate := success_rate m;
                  Learner.s_p95_latency_ms := p95_latency_ms m;
                  Learner.s_retry_amplification := retry_amplification m;
                  Learner.s_sample_count := sample_count m;
                  Learner.s_average_estimated_cost := average_estimated_cost m;
                  Learner.s_attempt_amplification := attempt_amplification m |} in
  let v := Amended.classify before m rb in
  let l' := Learner.record_outcome l m rb in
  let rec := {| Learner.context_snapshot := before;
                Learner.or_action := a;
                Learner.outcome_metrics := after;
                Learner.helped := Spec.is_helped v;
                Learner.rollback_applied := rb |} in
  Learner._outcomes l' =
    (let all := Learner._outcomes l ++ [rec] in
     if Learner.MAX_OUTCOME_RECORDS <? len all
     then slice_last Learner.MAX_OUTCOME_RECORDS all else all) /\
  Learner._action_stats l' !! action_type a =
    Some (Spec.counted v (default Learner.zero_stats
                                  (Learner._action_stats l !! action_type a))) /\
  (forall k, k <> action_type a ->
             Learner._action_stats l' !! k = Learner._action_stats l !! k) /\
  Learner._context_before_action l' = None /\
  Learner._action_pending l' = None /\
  (rb = true -> v = Spec.Hurt /\ Learner.helped rec = false) /\
  (Learner.helped rec = true <-> v = Spec.Helped) /\
  (v = Spec.Hurt -> Learner.helped rec = false) /\
  (forall (l0 : Learner.t) (m0 : WindowMetrics),
     action_type a <> "no_op" ->
     let l1 := Learner.record_decision_context l0 m0 a in
     Learner._context_before_action l1 =
       Some {| Learner.s_success_rate := success_rate m0;
               Learner.s_p95_latency_ms := p95_latency_ms m0;
               Learner.s_retry_amplification := retry_amplification m0;
               Learner.s_sample_count := sample_count m0;
               Learner.s_average_estimated_cost := average_estimated_cost m0;
               Learner.s_attempt_amplification := attempt_amplification m0 |} /\
     Learner._action_pending l1 = Some a /\
     Learner._outcomes l1 = Learner._outcomes l0 /\
     Learner._action_stats l1 = Learner._action_stats l0).
Proof.
  intros Hc Ha after v l' rec.
  subst l'. unfold Learner.record_outcome. rewrite Hc, Ha.
  change after with (Learner._metrics_snapshot m) in rec |- *.
  pose proof (evaluate_helped_classify before m rb) as Hev.
  pose proof (bump_counted before m rb) as Hb.
  destruct (Learner._evaluate_helped before (Learner._metrics_snapshot m) rb) as [h score].
  injection Hev as -> _. cbn [snd] in Hb. fold v in Hb |- *.
  cbn [Learner._outcomes Learner._action_stats Learner._context_before_action
       Learner._action_pending].
  split; [reflexivity |].
  split.
  { rewrite lookup_alter_eq.
    destruct (Learner._action_stats l !! action_type a) as [s|] eqn:Es.
    - rewrite Es. cbn. now rewrite Hb.
    - rewrite lookup_insert_eq. cbn. now rewrite Hb. }
  split.
  { intros k Hk. rewrite lookup_alter_ne by congruence.
    destruct (Learner._action_stats l !! action_type a) eqn:Es; [reflexivity |].
    now rewrite lookup_insert_ne by congruence. }
  split; [reflexivity |]. split; [reflexivity |].
  subst rec. cbn [Learner.helped].
  split; [intros ->; subst v; now cbn |].
  split; [destruct v; cbn; split; congruence |].
  split; [intros ->; reflexivity |].
  intros l0 m0 Hno. cbv zeta. unfold Learner.record_decision_context.
  apply String.eqb_neq in Hno. rewrite Hno. repeat split.
Qed.

Lemma record_outcome_classifies_witness :
  let m := SampleExec.metrics (8 # 10) 300 in
  let l' := Learner.record_outcome SampleExec.learning m false in
  exists rec,
    Learner._outcomes l' = [rec] /\
    Learner.helped rec = true /\
    Learner.s_success_rate (Learner.outcome_metrics rec) = 8 # 10 /\
    Learner._action_stats l' !! "reroute" =
      Some {| Learner.n_helped := 1; Learner.n_hurt := 0; Learner.n_neutral := 0 |}.
Proof.
  destruct (record_outcome_classifies SampleExec.learning
              (Learner._metrics_snapshot (SampleExec.metrics (7 # 10) 300))
              (SampleExec.reroute "HDFC" (363 # 1000) false)
              (SampleExec.metrics (8 # 10) 300) false eq_refl eq_refl)
    as (Hout & Hstats & _).
  eexists. split; [exact Hout |]. split; [reflexivity |]. split; [reflexivity | exact Hstats].
Defined.

(** C6, counterexample.  A reroute is accepted at a success rate of 0.70 and
    an average estimated cost of 0.05; afterwards the success rate is 0.90
    and the cost is still 0.05, with no rollback.  Neither the cost nor the
    attempt amplification increased and the success rate improved by 0.20,
    so the claim's order gives helped; [record_outcome] records
    [helped = False] and counts the outcome as hurt, because the cost after
    the action is at or above 0.04. *)
Lemma unchanged_cost_is_counted_hurt :
  let m := Cases.priced (9 # 10) (5 # 100) in
  let l' := Learner.record_outcome Cases.learning_priced m false in
  exists before rec,
    Learner._context_before_action Cases.learning_priced = Some before /\
    Learner.s_average_estimated_cost before = Some (5 # 100) /\
    Learner.s_attempt_amplification before = Some 1%Q /\
    average_estimated_cost m = Some (5 # 100) /\
    attempt_amplification m = Some 1%Q /\
    Spec.classify before (Learner._metrics_snapshot m) false = Spec.Helped /\
    Learner._outcomes l' = [rec] /\
    Learner.helped rec = false /\
    Learner.n_hurt <$> (Learner._action_stats l' !! "reroute") = Some 1 /\
    Learner.n_helped <$> (Learner._action_stats l' !! "reroute") = Some 0.
Proof.
  cbv zeta. eexists. eexists.
  split; [reflexivity |].
  split; [reflexivity |]. split; [reflexivity |].
  split; [reflexivity |]. split; [reflexivity |].
  split; [vm_compute; reflexivity |].
  split; [vm_compute; reflexivity |].
  split; [reflexivity |].
  split; vm_compute; reflexivity.
Qed.

(** The help thresholds are met in binary64, not in decimals: from a
    success rate of 0.80 to 0.83 the improvement is 0.03, helped in the
    claim's terms, but 0.83 - 0.80 evaluates to 0.029999999999999916 and the
    outcome is neutral. *)
Lemma rounded_improvement_is_neutral :
  let before := Learner._metrics_snapshot (SampleExec.metrics (80 # 100) 300) in
  let m := SampleExec.metrics (83 # 100) 300 in
  Spec.classify before (Learner._metrics_snapshot m) false = Spec.Helped /\
  Amended.classify before m false = Spec.Neutral /\
  Learner._evaluate_helped before (Learner._metrics_snapshot m) false = (false, 0).
Proof. cbv zeta. repeat split; vm_compute; reflexivity. Qed.

(** C10.  Without a pending decision context (nothing recorded yet, only a
    no-op offered, or the context cancelled), [record_outcome] returns the
    Learner unchanged: no record is appended and no counter moves. *)
Theorem record_outcome_without_context (l : Learner.t) (m : WindowMetrics) (rb : bool) :
  (Learner._context_before_action l = None \/ Learner._action_pending l = None ->
   Learner.record_outcome l m rb = l) /\
  Learner.record_outcome (Learner.cancel_pending l) m rb = Learner.cancel_pending l /\
  Learner._outcomes (Learner.cancel_pending l) = Learner._outcomes l /\
  Learner._action_stats (Learner.cancel_pending l) = Learner._action_stats l /\
  Learner.record_outcome Learner.init m rb = Learner.init /\
  (forall m0 a, action_type a = "no_op" ->
     Learner.record_outcome (Learner.record_decision_context Learner.init m0 a) m rb
     = Learner.init).
Proof.
  repeat split.
  - intros [H|H]; unfold Learner.record_outcome; rewrite H; [reflexivity |].
    now destruct (Learner._context_before_action l).
  - intros m0 a Ha. unfold Learner.record_decision_context. now rewrite Ha.
Qed.

Lemma record_outcome_without_context_witness :
  Learner.record_outcome (Learner.cancel_pending SampleExec.learning)
                         (SampleExec.metrics (8 # 10) 300) true
  = Learner.cancel_pending SampleExec.learning /\
  Learner.record_outcome
    (Learner.record_decision_context Learner.init (SampleExec.metrics (8 # 10) 300)
                                     (Decision.no_op "No intervention needed"))
    (SampleExec.metrics (8 # 10) 300) false
  = Learner.init.
Proof.
  split.
  - apply (proj1 (record_outcome_without_context
                    (Learner.cancel_pending SampleExec.learning)
                    (SampleExec.metrics (8 # 10) 300) true)).
    left. reflexivity.
  - apply (record_outcome_without_context Learner.init
             (SampleExec.metrics (8 # 10) 300) false).
    reflexivity.
Defined.

(** ** Reasoner and Decision engine *)

Lemma propose_ok metrics h context force reasons action0 reasoning0 :
  exists a r,
    Decision.propose metrics h context force reasons action0 reasoning0 = Ok (a, r).
Proof.
  unfold Decision.propose.
  destruct (contains "ISSUER_" (upper (cause h)) && contains "_DEGRADATION" (upper (cause h))).
  - set (ti := match split "_" _ with [] => None | _ => Some _ end).
    destruct (success_rate_by_issuer metrics) as [|x rest].
    + rewrite andb_false_r. cbn [mbind result_bind mret result_ret].
      destruct (truthy_opt_str ti); eauto.
    + destruct (negb (truthy_opt_str ti)) eqn:Et; cbn [andb].
      * cbn [py_min_item mbind result_bind mret result_ret truthy_opt_str].
        destruct (truthy_str _); eauto.
      * cbn [mbind result_bind mret result_ret].
        destruct (truthy_opt_str ti); eauto.
  - repeat match goal with
           | |- context [if ?b then _ else _] => destruct b
           end; eauto.
Qed.

Lemma propose_unrecognized metrics h context force reasons action0 reasoning0 :
  Spec.unrecognized (cause h) ->
  Decision.propose metrics h context force reasons action0 reasoning0
  = Ok (action0, reasoning0).
Proof.
  intros (_ & H1 & H2 & H3 & H4 & H5). unfold Decision.propose.
  cbv zeta. rewrite H1, H2, H3, H4, H5. reflexivity.
Qed.

Lemma finish_no_op h context force why reasoning1 now :
  Decision.finish h context force (Decision.no_op why) reasoning1 now =
  {| hypothesis := Some h;
     action := Decision.no_op why;
     trace_risk_score := 0;
     reasoning := reasoning1;
     trace_timestamp := now |}.
Proof.
  unfold Decision.finish. cbn.
  rewrite andb_false_r.
  destruct context as [ctx|]; [destruct (Decision.pending_approval ctx) |]; reflexivity.
Qed.

(** C9.  [decide] never raises: for every metrics, hypothesis and context it
    returns a DecisionTrace.  When the cause matches none of the recognised
    patterns the trace carries the default no-op with risk 0 and the
    reasoning accumulated so far: the hypothesis prefix, followed by the
    low-confidence note if the confidence is below 0.6. *)
Theorem decide_never_raises (metrics : WindowMetrics) (h : Hyp)
    (context : option Decision.Context) (now : Q) :
  exists t,
    Decision.decide metrics h context now = Ok t /\
    (Spec.unrecognized (cause h) ->
     action t = Decision.no_op "No intervention needed" /\
     trace_risk_score t = 0%Q /\
     reasoning t =
       Decision.reasoning_prefix h +:+
       (if Qltb (confidence h) Decision.MIN_CONFIDENCE_TO_ACT
        then "Confidence below threshold; no action taken." else "")).
Proof.
  unfold Decision.decide.
  destruct (truthy_str (cause h) && contains "INSUFFICIENT_SIGNAL" (upper (cause h))) eqn:Hg.
  - eexists. split; [reflexivity |].
    intros (H0 & _). rewrite H0, andb_false_r in Hg. discriminate.
  - destruct (Qltb (confidence h) Decision.MIN_CONFIDENCE_TO_ACT) eqn:Hc.
    + eexists. split; [reflexivity |]. intros _. repeat split.
    + destruct (Decision._should_force_human_handover metrics h context) as [force reasons].
      destruct (propose_ok metrics h context force reasons
                  (Decision.no_op "No intervention needed") (Decision.reasoning_prefix h))
        as (a & r & Hp).
      eexists. split.
      * rewrite Hp. reflexivity.
      * intros Hu.
        rewrite (propose_unrecognized _ _ _ _ _ _ _ Hu) in Hp.
        injection Hp as <- <-.
        rewrite finish_no_op. cbn.
        repeat split. unfold Decision.reasoning_prefix.
        now rewrite append_nil_r.
Qed.

Lemma decide_never_raises_witness :
  exists t,
    Decision.decide (SampleExec.metrics (9 # 10) 300)
                    (SampleExec.hyp "Gateway_Misconfigured" (9 # 10) 0) None 7 = Ok t /\
    action t = Decision.no_op "No intervention needed" /\
    trace_risk_score t = 0%Q /\
    reasoning t =
      "Hypothesis: Gateway_Misconfigured (confidence=0.90, source=heuristic). ".
Proof.
  destruct (decide_never_raises (SampleExec.metrics (9 # 10) 300)
              (SampleExec.hyp "Gateway_Misconfigured" (9 # 10) 0) None 7)
    as (t & Ht & Hu).
  exists t. split; [exact Ht |].
  apply Hu. vm_compute. repeat split.
Defined.

Lemma insufficient_guard :
  truthy_str "INSUFFICIENT_SIGNAL"
  && contains "INSUFFICIENT_SIGNAL" (upper "INSUFFICIENT_SIGNAL") = true.
Proof. reflexivity. Qed.

(** C4.  Below 30 samples the deterministic reasoner returns
    INSUFFICIENT_SIGNAL with confidence 0.0 and uncertainty 1.0, and [decide]
    maps every hypothesis with that cause to a no-op of risk 0.0 that asks
    for no approval; the Executor treats it as done and touches nothing, so
    there is neither an action nor an escalation. *)
Theorem insufficient_signal_is_no_op (m : WindowMetrics) :
  sample_count m < 30 ->
  (exists h,
     Reasoner._heuristic_hypothesis m = Ok h /\
     Reasoner.reason None m = Ok h /\
     cause h = "INSUFFICIENT_SIGNAL" /\
     confidence h = 0%Q /\
     uncertainty h = 1%Q) /\
  (forall h metrics context now,
     cause h = "INSUFFICIENT_SIGNAL" ->
     exists t,
       Decision.decide metrics h context now = Ok t /\
       action_type (action t) = ActionType.NO_OP /\
       target (action t) = None /\
       risk_score (action t) = 0%Q /\
       trace_risk_score t = 0%Q /\
       Executor.requires_human_approval (action t) = false /\
       forall e cur clock w,
         Executor.execute e t cur clock w = ((true, "NO_OP"), e, w)).
Proof.
  intros Hn. split.
  - eexists. unfold Reasoner.reason, Reasoner._heuristic_hypothesis.
    apply Z.ltb_lt in Hn. unfold Reasoner.MIN_SAMPLE_FOR_ACT. rewrite Hn.
    repeat split.
  - intros h metrics context now Hc.
    unfold Decision.decide. rewrite Hc.
    rewrite insufficient_guard.
    eexists. repeat split.
Qed.

Lemma insufficient_signal_is_no_op_witness :
  (exists h,
     Reasoner._heuristic_hypothesis SampleExec.thin_metrics = Ok h /\
     Reasoner.reason None SampleExec.thin_metrics = Ok h /\
     cause h = "INSUFFICIENT_SIGNAL" /\
     confidence h = 0%Q /\
     uncertainty h = 1%Q) /\
  exists t,
    Decision.decide SampleExec.thin_metrics
                    (SampleExec.hyp "INSUFFICIENT_SIGNAL" 0 1) None 7 = Ok t /\
    action_type (action t) = ActionType.NO_OP /\
    risk_score (action t) = 0%Q.
Proof.
  destruct (insufficient_signal_is_no_op SampleExec.thin_metrics) as [Hr Hd].
  - vm_compute. reflexivity.
  - split; [exact Hr |].
    destruct (Hd (SampleExec.hyp "INSUFFICIENT_SIGNAL" 0 1) SampleExec.thin_metrics None
                 7%Q eq_refl) as (t & Ht & Hty & _ & Hrisk & _).
    exists t. repeat split; assumption.
Defined.

(** ** Orchestrator *)

Lemma in_time_cooldown_needs_flag (a : Agent.t) (k : Agent.ActionKey) (now : Q) :
  Agent._last_action_executed a = false -> Agent.in_time_cooldown a k now = false.
Proof.
  intros H. unfold Agent.in_time_cooldown. rewrite H. apply andb_false_r.
Qed.

(** A proposal inside the cycle-count window of the last execution of the
    same (action, target) is not executed: the Executor is not called, the
    published outcome is [skipped_cooldown], and the debounce keys stay. *)
Lemma act_skips_in_cycle_window (a : Agent.t) (metrics : WindowMetrics) (h : Hyp)
    (trace : DecisionTrace) (ts now : Q) (w : Agent.World) :
  action_type (action trace) <> ActionType.NO_OP ->
  Agent.in_cycle_cooldown a (action_type (action trace), target (action trace)) = true ->
  let '(a', w') := Agent.act a metrics h trace ts now w in
  Agent.executor a' = Agent.executor a /\
  Agent.exw w' = Agent.exw w /\
  Spec.debounce_keys a' = Spec.debounce_keys a /\
  exists aw cw,
    Agent.published w' = Agent.published w ++ [Agent.PubAction aw; Agent.PubControl cw] /\
    Agent.aw_outcome aw = Agent.OUTCOME_SKIPPED_COOLDOWN /\
    Agent.aw_executed aw = false.
Proof.
  intros Hop Hcool. unfold Agent.act.
  destruct (String.eqb_spec (action_type (action trace)) ActionType.NO_OP) as [E|_];
    [contradiction |].
  match goal with
  | |- context [Agent.in_cycle_cooldown ?a0 ?k] =>
      change (Agent.in_cycle_cooldown a0 k) with
        (Agent.in_cycle_cooldown a (action_type (action trace), target (action trace)))
  end.
  rewrite Hcool. cbn [orb].
  unfold Agent.write_action_dedup, Agent._write_control_state, Agent.publish.
  match goal with
  | |- context [if ?b then _ else _] => destruct b
  end; cbn -[format_fixed format_percent str_int LearnerState.get_learning_state Agent.system_mode];
    (repeat split; eexists; eexists; rewrite <- app_assoc; repeat split).
Qed.

(** A proposal that the Executor blocks (escalates) leaves the debounce keys
    as they were: it starts neither window. *)
Lemma act_blocked_keeps_keys (a : Agent.t) (metrics : WindowMetrics) (h : Hyp)
    (trace : DecisionTrace) (ts now : Q) (w : Agent.World) :
  action_type (action trace) <> ActionType.NO_OP ->
  Agent.in_cycle_cooldown a (action_type (action trace), target (action trace)) = false ->
  Agent._last_action_executed a = false ->
  Executor.requires_human_approval (action trace) = true \/
  (risk_score (action trace) >= 45 # 100)%Q ->
  let '(a', w') := Agent.act a metrics h trace ts now w in
  Spec.debounce_keys a' = Spec.debounce_keys a /\
  Agent._last_action_executed a' = false /\
  exists aw cw,
    Agent.published w' = Agent.published w ++ [Agent.PubAction aw; Agent.PubControl cw] /\
    Agent.aw_outcome aw = Agent.OUTCOME_BLOCKED /\
    Agent.aw_executed aw = false.
Proof.
  intros Hop Hcool Hflag Hrisk. unfold Agent.act.
  destruct (String.eqb_spec (action_type (action trace)) ActionType.NO_OP) as [E|_];
    [contradiction |].
  match goal with
  | |- context [Agent.in_cycle_cooldown ?a0 ?k] =>
      change (Agent.in_cycle_cooldown a0 k) with
        (Agent.in_cycle_cooldown a (action_type (action trace), target (action trace)))
  end.
  rewrite Hcool.
  match goal with
  | |- context [Agent.in_time_cooldown ?a0 ?k ?n] =>
      rewrite (in_time_cooldown_needs_flag a0 k n Hflag)
  end.
  cbn [orb].
  pose proof (execute_blocks (Agent.executor a) trace metrics now (Agent.exw w) Hop Hrisk)
    as (msg & ex & xw & Hex).
  cbn [Agent.executor Agent.set_recent_causes]. rewrite Hex.
  unfold Agent.write_action_dedup, Agent._write_control_state, Agent.publish.
  match goal with
  | |- context [if ?b then _ else _] => destruct b
  end; cbn -[format_fixed format_percent str_int LearnerState.get_learning_state
             Agent.system_mode Agent._explain_what_changed Agent._explain_why_action_now];
    (repeat split; eexists; eexists; rewrite <- app_assoc; repeat split).
Qed.

Lemma decide_total metrics h context now :
  exists t, Decision.decide metrics h context now = Ok t.
Proof.
  unfold Decision.decide.
  destruct (truthy_str (cause h) && contains "INSUFFICIENT_SIGNAL" (upper (cause h)));
    [eauto |].
  destruct (Qltb (confidence h) Decision.MIN_CONFIDENCE_TO_ACT); [eauto |].
  destruct (Decision._should_force_human_handover metrics h context) as [force reasons].
  destruct (propose_ok metrics h context force reasons
              (Decision.no_op "No intervention needed") (Decision.reasoning_prefix h))
    as (a & r & Hp).
  rewrite Hp. cbn. eauto.
Qed.

(** With no escalation pending, [run_cycle] reaches the debounce test with
    [_last_action_executed] reset, whatever the previous cycle did: the
    wall-clock test can never hold there, and only the cycle window
    debounces. *)
Lemma run_cycle_resets_flag_before_debounce (a : Agent.t) (metrics : WindowMetrics)
    (h : Hyp) (llm_h : option Reasoner.LlmAnswer) (ts now : Q) (w : Agent.World) :
  Executor._pending_escalation (Agent.executor a) = None ->
  Executor.pending_file (Agent.exw w) = None ->
  exists a1 w1 trace,
    Agent.run_cycle a metrics (Some h) llm_h ts now w
      = Ok (Agent.act a1 metrics h trace ts now w1) /\
    Agent._last_action_executed a1 = false /\
    Spec.debounce_keys a1 = Spec.debounce_keys a /\
    Agent._cycle_count a1 = Agent._cycle_count a + 1 /\
    forall k clock, Agent.in_time_cooldown a1 k clock = false.
Proof.
  intros Hp Hf. unfold Agent.run_cycle.
  cbn [mbind result_bind mret result_ret].
  set (a0 := Agent.set_last_action_executed false (Agent.set_cycle_count _ a)).
  set (a1 := match Agent._cooldown_until_cycle a0 with
             | Some c => if c <? Agent._cycle_count a0
                         then Agent.set_cooldown_until_cycle None a0 else a0
             | None => a0
             end).
  assert (Hex : Agent.executor a1 = Agent.executor a).
  { subst a1 a0. cbn. destruct (Agent._cooldown_until_cycle a) as [c|]; [|reflexivity].
    now destruct (c <? _). }
  assert (Hflag : Agent._last_action_executed a1 = false).
  { subst a1 a0. cbn. destruct (Agent._cooldown_until_cycle a) as [c|]; [|reflexivity].
    now destruct (c <? _). }
  assert (Hkeys : Spec.debounce_keys a1 = Spec.debounce_keys a).
  { subst a1 a0. cbn. destruct (Agent._cooldown_until_cycle a) as [c|]; [|reflexivity].
    now destruct (c <? _). }
  assert (Hcyc : Agent._cycle_count a1 = Agent._cycle_count a + 1).
  { subst a1 a0. cbn. destruct (Agent._cooldown_until_cycle a) as [c|]; [|reflexivity].
    now destruct (c <? _). }
  unfold Executor.get_escalation_state. rewrite Hex, Hp.
  unfold Executor.check_and_apply_approval, Executor.read_pending_approval.
  rewrite Hp. cbn [Agent.publish Agent.exw]. rewrite Hf.
  match goal with
  | |- context [Decision.decide ?m ?hh ?c ?n] =>
      destruct (decide_total m hh c n) as (trace & Ht); rewrite Ht
  end.
  cbn [mbind result_bind mret result_ret].
  eexists. eexists. exists trace. split; [reflexivity |].
  cbn [Agent._last_action_executed Agent.set_executor Agent._cycle_count].
  unfold Spec.debounce_keys in *. cbn [Agent.set_executor Agent._last_executed_action_key
    Agent._last_executed_cycle Agent._last_decision_ts Agent._last_decision_action_key].
  repeat split; try assumption.
  intros k clock. apply in_time_cooldown_needs_flag. exact Hflag.
Qed.

(** While an escalation is pending and unanswered, [run_cycle] calls neither
    [decide] nor [execute]: the Executor, the pending file and the debounce
    keys stay as they were, and the published mode is
    HUMAN_APPROVAL_REQUIRED.  This is what keeps a second proposal from
    reaching the Executor's single slot. *)
Lemma run_cycle_frozen_while_pending (a : Agent.t) (metrics : WindowMetrics)
    (h : Hyp) (llm_h : option Reasoner.LlmAnswer) (ts now : Q) (w : Agent.World)
    (p d : PendingRecord) :
  Executor._pending_escalation (Agent.executor a) = Some p ->
  active p = true ->
  Executor.pending_file (Agent.exw w) = Some d ->
  status d <> "approved" -> status d <> "rejected" ->
  exists a' cw,
    Agent.run_cycle a metrics (Some h) llm_h ts now w =
      Ok (a', {| Agent.exw := Agent.exw w;
                 Agent.published :=
                   Agent.published w ++
                   [Agent.PubHypothesis h ts; Agent.PubMetrics metrics ts;
                    Agent.PubControl cw] |}) /\
    Agent.executor a' = Agent.executor a /\
    Spec.debounce_keys a' = Spec.debounce_keys a /\
    Agent.cw_system_mode cw = Agent.SYSTEM_MODE_HUMAN_APPROVAL_REQUIRED.
Proof.
  intros Hp Hact Hf Ha Hr. unfold Agent.run_cycle.
  cbn [mbind result_bind mret result_ret].
  set (a0 := Agent.set_last_action_executed false (Agent.set_cycle_count _ a)).
  set (a1 := match Agent._cooldown_until_cycle a0 with
             | Some c => if c <? Agent._cycle_count a0
                         then Agent.set_cooldown_until_cycle None a0 else a0
             | None => a0
             end).
  assert (Hex : Agent.executor a1 = Agent.executor a).
  { subst a1 a0. cbn. destruct (Agent._cooldown_until_cycle a) as [c|]; [|reflexivity].
    now destruct (c <? _). }
  assert (Hkeys : Spec.debounce_keys a1 = Spec.debounce_keys a).
  { subst a1 a0. cbn. destruct (Agent._cooldown_until_cycle a) as [c|]; [|reflexivity].
    now destruct (c <? _). }
  unfold Executor.get_escalation_state. rewrite Hex, Hp, Hact.
  unfold Executor.check_and_apply_approval, Executor.read_pending_approval.
  rewrite Hp. cbn [Agent.publish Agent.exw]. rewrite Hf.
  rewrite (proj2 (String.eqb_neq _ _) Ha), (proj2 (String.eqb_neq _ _) Hr).
  unfold Agent._write_control_state, Agent.publish, Agent.with_exw.
  cbn [Agent.exw Agent.published].
  eexists. eexists. split.
  - rewrite <- !app_assoc. cbn [app]. destruct w; reflexivity.
  - cbn [Agent.executor Agent.set_executor Agent.cw_system_mode].
    unfold Spec.debounce_keys in *.
    cbn [Agent.set_executor Agent._last_executed_action_key
         Agent._last_executed_cycle Agent._last_decision_ts Agent._last_decision_action_key].
    repeat split; try assumption.
    unfold Agent.system_mode, Executor.get_escalation_state.
    cbn [Agent.executor Agent.set_executor]. now rewrite Hp, Hact.
Qed.

(** C7, evaluated at the failing input.  A reroute away from HDFC is executed
    in cycle 1 at t = 100 s.  After two quiet cycles the same proposal comes
    back in cycle 4 at t = 101.5 s: the last-decision key is the same and
    1.5 s < DEBOUNCE_SEC, so it is inside the wall-clock window (and three
    cycles after the execution, outside the cycle window).  The Orchestrator
    executes it again and publishes the outcome [executed], not
    [skipped_cooldown]: [run_cycle] resets [_last_action_executed] on entry,
    and the wall-clock test requires that flag.  The same proposal in cycle 2
    is skipped by the cycle window. *)
Theorem repeat_inside_time_window_is_executed :
  match SampleRun.before_fourth with
  | Ok (a3, w3) =>
      Agent._last_decision_action_key a3 = Some ("reroute", Some "HDFC") /\
      Agent._last_executed_action_key a3 = Some ("reroute", Some "HDFC") /\
      ((1015 # 10) - Agent._last_decision_ts a3 < Agent.DEBOUNCE_SEC)%Q /\
      Agent._cycle_count a3 + 1 - Agent._last_executed_cycle a3 = 3 /\
      SampleRun.outcome_of
        (Agent.run_cycle a3 SampleRun.degraded (Some SampleRun.hdfc_down) None
                         (1015 # 10) (1015 # 10) w3)
      = Some ("executed", true)
  | Raise _ => False
  end /\
  SampleRun.outcome_of SampleRun.fourth_cycle = Some ("executed", true) /\
  SampleRun.outcome_of SampleRun.next_cycle = Some ("skipped_cooldown", false).
Proof.
  vm_compute. repeat split.
Qed.

(** ** More of the Observer *)

Lemma slice_last_pos {A} (k : Z) (l : list A) :
  0 < k -> slice_last k l = drop (Z.to_nat (len l - k)) l.
Proof.
  intros Hk. unfold slice_last, slice_from, drop_z.
  rewrite (proj2 (Z.ltb_lt (- k) 0)) by lia.
  reflexivity.
Qed.

Lemma slice_last_zero {A} (l : list A) : slice_last 0 l = l.
Proof. reflexivity. Qed.

Lemma slice_last_len {A} (k : Z) (l : list A) :
  0 < k -> len (slice_last k l) = Z.min k (len l).
Proof.
  intros Hk. rewrite slice_last_pos by exact Hk.
  unfold len. rewrite length_drop. lia.
Qed.

Lemma slice_last_suffix {A} (k : Z) (l : list A) : slice_last k l `suffix_of` l.
Proof.
  unfold slice_last, slice_from, drop_z. destruct (- k <? 0); apply suffix_drop.
Qed.

(** X1.  [ingest] with a non-negative window size appends the event as the
    newest element and keeps a suffix of the old buffer followed by it.  With
    a window size of at least 1 the buffer afterwards holds
    [min(window_size, len + 1)] events: the oldest are dropped, without an
    error.  With window size 0 nothing is ever dropped, since [buf[-0:]] is
    the whole list. *)
Theorem ingest_keeps_newest (o : Observer.t) (event : PaymentEvent) :
  0 <= Observer.window_size o ->
  let o' := Observer.ingest o event in
  last (Observer._buffer o') = Some event /\
  Observer._buffer o' `suffix_of` (Observer._buffer o ++ [event]) /\
  (1 <= Observer.window_size o ->
   len (Observer._buffer o') =
     Z.min (Observer.window_size o) (len (Observer._buffer o) + 1)) /\
  (Observer.window_size o = 0 ->
   Observer._buffer o' = Observer._buffer o ++ [event]) /\
  Observer.window_size o' = Observer.window_size o /\
  Observer._window_counter o' = Observer._window_counter o.
Proof.
  intros Hws o'. subst o'. unfold Observer.ingest.
  cbn [Observer._buffer Observer.window_size Observer._window_counter].
  set (buf := Observer._buffer o ++ [event]).
  assert (Hlen : len buf = len (Observer._buffer o) + 1).
  { unfold buf, len. rewrite length_app. cbn. lia. }
  destruct (Observer.window_size o <? len buf) eqn:Hlt.
  - apply Z.ltb_lt in Hlt.
    destruct (Z.eq_dec (Observer.window_size o) 0) as [E0|N0].
    + rewrite E0, slice_last_zero. unfold buf.
      refine (conj _ (conj _ (conj _ (conj _ (conj _ _))))); try reflexivity.
      * apply last_snoc.
      * lia.
    + assert (Hpos : 0 < Observer.window_size o) by lia.
      refine (conj _ (conj _ (conj _ (conj _ (conj _ _))))); try reflexivity.
      * rewrite slice_last_pos by exact Hpos.
        rewrite last_lookup, lookup_drop, length_drop.
        unfold buf at 1. unfold buf, len in *. rewrite length_app in *. cbn in *.
        rewrite lookup_app_r by lia.
        match goal with
        | |- [event] !! ?i = _ => replace i with 0%nat by lia
        end.
        reflexivity.
      * apply slice_last_suffix.
      * intros _. rewrite slice_last_len by exact Hpos. lia.
      * lia.
  - apply Z.ltb_ge in Hlt.
    refine (conj _ (conj _ (conj _ (conj _ (conj _ _))))); try reflexivity.
    + apply last_snoc.
    + intros _. lia.
Qed.

Lemma ingest_keeps_newest_witness :
  last (Observer._buffer (Observer.ingest Sample.observer2 (Sample.event "SBI" 30 true 3)))
  = Some (Sample.event "SBI" 30 true 3) /\
  len (Observer._buffer (Observer.ingest Sample.observer2 (Sample.event "SBI" 30 true 3))) = 3.
Proof.
  destruct (ingest_keeps_newest Sample.observer2 (Sample.event "SBI" 30 true 3))
    as (Hlast & _ & Hlen & _); [vm_compute; discriminate |].
  split; [exact Hlast |]. rewrite Hlen by (vm_compute; discriminate). reflexivity.
Defined.
Lemma inject_Z_pos n : 0 < n -> (0 < inject_Z n)%Q.
Proof. intros H. unfold Qlt. cbn. lia. Qed.

Lemma ratio_unit (c n : Z) :
  0 <= c <= n -> 0 < n -> (0 <= inject_Z c / inject_Z n <= 1)%Q.
Proof.
  intros Hc Hn. pose proof (inject_Z_pos n Hn) as Hp. split.
  - apply Qle_shift_div_l; [exact Hp |]. rewrite Qmult_0_l.
    change 0%Q with (inject_Z 0). rewrite <- Zle_Qle. lia.
  - apply Qle_shift_div_r; [exact Hp |]. rewrite Qmult_1_l.
    rewrite <- Zle_Qle. lia.
Qed.

Lemma count_true_bounds (v : list bool) : 0 <= Observer.count_true v <= len v.
Proof.
  unfold Observer.count_true, len. split; [lia |].
  apply inj_le. induction v as [|b v IH]; cbn; [lia |].
  destruct b; cbn; lia.
Qed.

Lemma mean_bool_unit (v : list bool) : (0 <= Observer.mean_or Observer.mean_bool 0 v <= 1)%Q.
Proof.
  destruct v as [|b v]; [cbn; split; discriminate |].
  unfold Observer.mean_or, Observer.mean_bool.
  apply ratio_unit; [apply count_true_bounds |]. unfold len. cbn. lia.
Qed.

Lemma map_values_unit {A} (g : dict (list A)) (f : list A -> Q) :
  (forall v, (0 <= f v <= 1)%Q) ->
  Forall (fun kv : string * Q => (0 <= snd kv <= 1)%Q) (Observer.map_values f g).
Proof.
  intros Hf. unfold Observer.map_values. apply Forall_map.
  apply Forall_forall. intros kv _. apply Hf.
Qed.

(** X2.  Every success rate the Observer computes lies in [0, 1]: the overall
    rate (0.0 on an empty window), each per-issuer rate and each per-merchant
    rate. *)
Theorem success_rates_in_unit_interval (events : list PaymentEvent) :
  (0 <= Observer._success_rate events <= 1)%Q /\
  Forall (fun kv : string * Q => (0 <= snd kv <= 1)%Q) (Observer._success_rate_by_issuer events) /\
  Forall (fun kv : string * Q => (0 <= snd kv <= 1)%Q) (Observer._success_rate_by_merchant events).
Proof.
  split; [| split].
  - unfold Observer._success_rate. destruct events as [|e t]; [split; discriminate |].
    unfold Observer.mean_bool. apply ratio_unit; [apply count_true_bounds |].
    unfold len. cbn. lia.
  - apply map_values_unit, mean_bool_unit.
  - apply map_values_unit, mean_bool_unit.
Qed.

Lemma Zsum_from (l : list Z) : forall a, fold_left Z.add l a = a + Zsum l.
Proof.
  unfold Zsum. induction l as [|x l IH]; intros a; cbn [fold_left]; [lia |].
  rewrite (IH (a + x)), (IH (0 + x)). lia.
Qed.

Lemma Zsum_cons x l : Zsum (x :: l) = x + Zsum l.
Proof. unfold Zsum at 1. cbn [fold_left]. rewrite Zsum_from. lia. Qed.

Lemma Qsum_from (l : list Q) : forall a, (fold_left Qplus l a == a + Qsum l)%Q.
Proof.
  unfold Qsum. induction l as [|x l IH]; intros a; cbn [fold_left].
  - now rewrite Qplus_0_r.
  - rewrite (IH (a + x)%Q), (IH (0 + x)%Q). ring.
Qed.

Lemma Qsum_cons x l : (Qsum (x :: l) == x + Qsum l)%Q.
Proof. unfold Qsum at 1. cbn [fold_left]. rewrite Qsum_from. ring. Qed.

Lemma count_incr_total k d :
  Zsum (map snd (Observer.count_incr k d)) = Zsum (map snd d) + 1.
Proof.
  induction d as [|[k' n] d IH]; [reflexivity |].
  cbn [Observer.count_incr].
  destruct (String.eqb k k'); cbn [map snd]; rewrite !Zsum_cons; [lia |].
  rewrite IH. lia.
Qed.

Lemma count_incr_positive k d :
  Forall (fun kv : string * Z => 1 <= snd kv) d ->
  Forall (fun kv : string * Z => 1 <= snd kv) (Observer.count_incr k d).
Proof.
  induction 1 as [|[k' n] d Hn Hd IH]; cbn [Observer.count_incr].
  - constructor; [cbn; lia | constructor].
  - cbn [snd] in Hn.
    destruct (String.eqb k k'); constructor; cbn [snd]; try assumption; lia.
Qed.

Lemma counts_total {A} (key : A -> string) (l : list A) : forall d,
  let counts := fold_left (fun d e => Observer.count_incr (key e) d) l d in
  Zsum (map snd counts) = Zsum (map snd d) + len l /\
  (Forall (fun kv : string * Z => 1 <= snd kv) d ->
   Forall (fun kv : string * Z => 1 <= snd kv) counts).
Proof.
  induction l as [|e l IH]; intros d; cbn [fold_left].
  - split; [unfold len; cbn [List.length]; lia | auto].
  - destruct (IH (Observer.count_incr (key e) d)) as [Ht Hp].
    rewrite count_incr_total in Ht. split.
    + rewrite Ht. unfold len. cbn [List.length]. lia.
    + intros Hd. apply Hp, count_incr_positive, Hd.
Qed.

Lemma dict_get_count_incr k d k' :
  dict_get (Observer.count_incr k d) k' =
  if String.eqb k' k then Some (default 0 (dict_get d k') + 1) else dict_get d k'.
Proof.
  induction d as [|[k0 n] d IH]; cbn [Observer.count_incr dict_get].
  - destruct (String.eqb k' k); reflexivity.
  - destruct (String.eqb_spec k k0) as [->|Hk]; cbn [dict_get].
    + destruct (String.eqb k' k0); reflexivity.
    + rewrite IH.
      destruct (String.eqb_spec k' k0) as [E0|Hk0], (String.eqb_spec k' k) as [E1|Hk'];
        try reflexivity; congruence.
Qed.

Lemma count_incr_keys k d k' :
  k' ∈ map fst (Observer.count_incr k d) -> k' = k \/ k' ∈ map fst d.
Proof.
  induction d as [|[k0 n] d IH]; cbn [Observer.count_incr].
  - cbn. intros H. apply list_elem_of_singleton in H. now left.
  - destruct (String.eqb k k0); cbn [map fst]; intros H; [now right |].
    apply elem_of_cons in H as [-> | H]; [right; left |].
    destruct (IH H) as [-> | H']; [now left | right; now right].
Qed.

Lemma count_incr_nodup k d :
  NoDup (map fst d) -> NoDup (map fst (Observer.count_incr k d)).
Proof.
  induction d as [|[k0 n] d IH]; cbn [Observer.count_incr map fst]; intros Hd.
  - apply NoDup_singleton.
  - apply NoDup_cons in Hd as [Hk0 Hd].
    destruct (String.eqb_spec k k0) as [->|Hk]; cbn [map fst].
    + apply NoDup_cons. now split.
    + apply NoDup_cons. split; [| now apply IH].
      intros Hin. apply count_incr_keys in Hin as [-> | Hin]; [congruence | contradiction].
Qed.

Lemma occurrences_cons k e events :
  Notions.occurrences k (e :: events) =
  (if String.eqb k (error_code_value (error_code e)) then 1 else 0)
  + Notions.occurrences k events.
Proof.
  unfold Notions.occurrences, len. cbn [List.filter].
  destruct (String.eqb k (error_code_value (error_code e))); cbn [List.length]; lia.
Qed.

Lemma occurrences_nonneg k events : 0 <= Notions.occurrences k events.
Proof. unfold Notions.occurrences, len. lia. Qed.

Lemma counts_lookup (events : list PaymentEvent) : forall (d : dict Z) (k : string),
  let counts :=
    fold_left (fun d e => Observer.count_incr (error_code_value (error_code e)) d) events d in
  default 0 (dict_get counts k) = default 0 (dict_get d k) + Notions.occurrences k events /\
  (NoDup (map fst d) -> NoDup (map fst counts)).
Proof.
  induction events as [|e events IH]; intros d k; cbn [fold_left].
  - split; [unfold Notions.occurrences, len; cbn; lia | auto].
  - destruct (IH (Observer.count_incr (error_code_value (error_code e)) d) k) as [Hc Hn].
    cbv zeta in Hc, Hn. split.
    + rewrite Hc, dict_get_count_incr, occurrences_cons.
      destruct (String.eqb k (error_code_value (error_code e))), (dict_get d k); cbn; lia.
    + intros Hd. apply Hn, count_incr_nodup, Hd.
Qed.

Lemma dict_get_elem {V} (d : dict V) k v : dict_get d k = Some v -> (k, v) ∈ d.
Proof.
  induction d as [|[k0 v0] d IH]; cbn [dict_get]; [discriminate |].
  destruct (String.eqb_spec k k0) as [->|Hk].
  - intros [= ->]. left.
  - intros H. right. now apply IH.
Qed.

Lemma dict_get_map_values {A B} (f : A -> B) (d : dict A) k :
  dict_get (map (fun kv : string * A => (fst kv, f (snd kv))) d) k = f <$> dict_get d k.
Proof.
  induction d as [|[k0 v0] d IH]; cbn [map dict_get fst snd]; [reflexivity |].
  destruct (String.eqb k k0); [reflexivity | exact IH].
Qed.

Lemma entry_at_most_total (d : dict Z) :
  Forall (fun kv : string * Z => 1 <= snd kv) d ->
  Forall (fun kv : string * Z => 1 <= snd kv <= Zsum (map snd d)) d.
Proof.
  induction 1 as [|[k c] d Hc Hd IH]; [constructor |].
  cbn [map snd] in *. rewrite Zsum_cons.
  assert (Hs : 0 <= Zsum (map snd d)).
  { clear -Hd. induction Hd as [|[k1 c1] d H1 _ IH]; [unfold Zsum; cbn; lia |].
    cbn [map snd] in *. rewrite Zsum_cons. lia. }
  constructor; [cbn [snd]; lia |].
  eapply Forall_impl; [exact IH |]. intros [k1 c1]. cbn [snd]. lia.
Qed.

Lemma ratio_sum (a b n : Z) :
  (inject_Z (a + b) / inject_Z n == inject_Z a / inject_Z n + inject_Z b / inject_Z n)%Q.
Proof. rewrite inject_Z_plus. unfold Qdiv. ring. Qed.

(** The exact sum of the rounded shares is within one rounding of the sum of
    the exact shares. *)
Lemma shares_sum_bounds (n : Z) (counts : dict Z) :
  0 < n ->
  Forall (fun kv : string * Z => 1 <= snd kv <= n) counts ->
  let shares := map snd (map (fun kv : string * Z => (fst kv, Float64.div_int (snd kv) n)) counts) in
  let total := (inject_Z (Zsum (map snd counts)) / inject_Z n)%Q in
  (total * (1 - Float64.unit_roundoff) <= Qsum shares
   <= total * (1 + Float64.unit_roundoff))%Q.
Proof.
  intros Hn. induction 1 as [|[k c] counts Hc Hd IH]; cbv zeta in *.
  - cbn [map]. unfold Qsum, Zsum. cbn [fold_left]. unfold Qdiv.
    rewrite !Qmult_0_l. split; apply Qle_refl.
  - cbn [map fst snd] in *. rewrite Qsum_cons, Zsum_cons, ratio_sum.
    destruct (div_int_share c n ltac:(lia)) as [_ [Hlo Hhi]].
    destruct IH as [Ilo Ihi].
    set (u := Float64.unit_roundoff) in *.
    set (a := (inject_Z c / inject_Z n)%Q) in *.
    set (t := (inject_Z (Zsum (map snd counts)) / inject_Z n)%Q) in *.
    set (x := Float64.div_int c n) in *.
    set (s := Qsum _) in *.
    split.
    + setoid_replace ((a + t) * (1 - u))%Q with (a * (1 - u) + t * (1 - u))%Q
        using relation Qeq by ring.
      now apply Qplus_le_compat.
    + setoid_replace ((a + t) * (1 + u))%Q with (a * (1 + u) + t * (1 + u))%Q
        using relation Qeq by ring.
      now apply Qplus_le_compat.
Qed.

(** X3.  The error distribution has one entry per error code that occurs in
    the window, and no other: the entry of a code is the binary64 quotient
    of its number of occurrences by the number of events.  Every share lies
    in (0, 1] and is within a relative 2^-53 of the exact ratio, so that the
    exact sum of the shares of a non-empty window differs from 1 by at most
    2^-53.  On an empty window the distribution is the empty dictionary. *)
Theorem error_distribution_shares (events : list PaymentEvent) :
  let d := Observer._error_distribution events in
  let n := len events in
  NoDup (map fst d) /\
  (forall k, dict_get d k =
             if Notions.occurrences k events =? 0 then None
             else Some (Float64.div_int (Notions.occurrences k events) n)) /\
  Forall (fun kv : string * Q => (0 < snd kv <= 1)%Q) d /\
  (forall k x, dict_get d k = Some x ->
     let exact := (inject_Z (Notions.occurrences k events) / inject_Z n)%Q in
     (exact * (1 - Float64.unit_roundoff) <= x <= exact * (1 + Float64.unit_roundoff))%Q) /\
  (events <> [] -> (Qabs (Qsum (map snd d) - 1) <= Float64.unit_roundoff)%Q) /\
  Observer._error_distribution [] = [].
Proof.
  cbv zeta.
  destruct (counts_total (fun e => error_code_value (error_code e)) events []) as [Ht Hp].
  cbv zeta in Ht, Hp. change (Zsum (map snd [])) with 0 in Ht.
  specialize (Hp ltac:(constructor)). rewrite Z.add_0_l in Ht.
  assert (Hlook : forall k,
             dict_get (fold_left (fun d e => Observer.count_incr
                                               (error_code_value (error_code e)) d) events [])
                      k =
             if Notions.occurrences k events =? 0 then None
             else Some (Notions.occurrences k events)).
  { intros k. destruct (counts_lookup events [] k) as [Hc _]. cbv zeta in Hc.
    cbn [dict_get from_option] in Hc. unfold id in Hc. rewrite Z.add_0_l in Hc.
    destruct (dict_get _ k) as [c|] eqn:Ec; cbn [from_option] in Hc.
    - apply dict_get_elem in Ec. rewrite Forall_forall in Hp.
      specialize (Hp _ Ec). cbn [snd] in Hp.
      rewrite (proj2 (Z.eqb_neq _ 0)) by lia. now rewrite Hc.
    - rewrite <- Hc. reflexivity. }
  assert (Hkeys : NoDup (map fst (fold_left (fun d e => Observer.count_incr
                                               (error_code_value (error_code e)) d) events [])))
    by (apply (counts_lookup events [] ""); constructor).
  unfold Observer._error_distribution.
  set (counts := fold_left (fun d e => Observer.count_incr
                                        (error_code_value (error_code e)) d) events []) in *.
  destruct (Z.eqb_spec (len events) 0) as [E0|Hn].
  - assert (events = []) as -> by (destruct events; [reflexivity | unfold len in E0; cbn in E0; lia]).
    split; [constructor |].
    split; [intros k; reflexivity |].
    split; [constructor |].
    split; [intros k x H; discriminate H |].
    split; [congruence | reflexivity].
  - assert (Hpos : 0 < len events) by (unfold len in *; lia).
    pose proof (entry_at_most_total counts Hp) as Hall. rewrite Ht in Hall.
    split.
    { rewrite map_map. cbn [fst]. exact Hkeys. }
    split.
    { intros k. rewrite (dict_get_map_values (fun c => Float64.div_int c (len events))), Hlook.
      destruct (Notions.occurrences k events =? 0); reflexivity. }
    split.
    { apply Forall_map. eapply Forall_impl; [exact Hall |].
      intros [k c] Hc. cbn [snd] in *. apply (div_int_share c (len events)). lia. }
    split.
    { intros k x. rewrite (dict_get_map_values (fun c => Float64.div_int c (len events))), Hlook.
      destruct (Z.eqb_spec (Notions.occurrences k events) 0) as [|Ho]; [discriminate |].
      intros [= <-]. cbv zeta.
      apply (div_int_share (Notions.occurrences k events) (len events)).
      pose proof (Hlook k) as Hk. rewrite (proj2 (Z.eqb_neq _ 0) Ho) in Hk.
      apply dict_get_elem in Hk. rewrite Forall_forall in Hall.
      specialize (Hall _ Hk). cbn [snd] in Hall. lia. }
    split; [| reflexivity].
    intros _.
    destruct (shares_sum_bounds (len events) counts Hpos Hall) as [Hlo Hhi].
    cbv zeta in Hlo, Hhi. rewrite Ht in Hlo, Hhi.
    assert (E1 : (inject_Z (len events) / inject_Z (len events) == 1)%Q).
    { apply Qmult_inv_r. intros E. pose proof (inject_Z_pos _ Hpos) as H0.
      rewrite E in H0. discriminate. }
    rewrite E1, !Qmult_1_l in Hlo, Hhi.
    apply Qabs_Qle_condition. unfold Float64.unit_roundoff in *. split; lra.
Qed.

Lemma error_distribution_shares_witness :
  (Qabs (Qsum (map snd (Observer._error_distribution Cases.mixed_errors)) - 1)
   <= Float64.unit_roundoff)%Q /\
  dict_get (Observer._error_distribution Cases.mixed_errors) "none"
    = Some (3602879701896397 # 4503599627370496) /\
  dict_get (Observer._error_distribution Cases.mixed_errors) "unknown"
    = Some (5764607523034235 # 576460752303423488).
Proof.
  destruct (error_distribution_shares Cases.mixed_errors) as (_ & Hget & _ & _ & Hsum & _).
  split; [apply Hsum; discriminate |].
  split; rewrite Hget; vm_compute; reflexivity.
Defined.

Lemma fold_left_filter {A B} (f : B -> A -> B) (p : A -> bool) (l : list A) :
  (forall b a, p a = false -> f b a = b) ->
  forall b, fold_left f l b = fold_left f (List.filter p l) b.
Proof.
  intros Hskip. induction l as [|a l IH]; intros b; cbn [fold_left List.filter]; [reflexivity |].
  destruct (p a) eqn:E; cbn [fold_left]; [apply IH |].
  rewrite (Hskip b a E). apply IH.
Qed.

Lemma group_append_keys {A} k (v : A) (d : dict (list A)) :
  forall k', k' ∈ map fst (Observer.group_append k v d) -> k' = k \/ k' ∈ map fst d.
Proof.
  induction d as [|[k0 vs] d IH]; intros k' Hin; cbn [Observer.group_append] in Hin.
  - cbn in Hin. apply list_elem_of_singleton in Hin. now left.
  - destruct (String.eqb k k0); cbn [map fst] in *.
    + now right.
    + apply elem_of_cons in Hin as [-> | Hin]; [right; left |].
      destruct (IH _ Hin) as [-> | H]; [now left | right; now right].
Qed.

Lemma map_values_keys {A B} (f : A -> B) (d : dict A) :
  map fst (Observer.map_values f d) = map fst d.
Proof. unfold Observer.map_values. rewrite map_map. reflexivity. Qed.

Lemma group_append_keys_iff {A} k (v : A) (d : dict (list A)) k' :
  k' ∈ map fst (Observer.group_append k v d) <-> k' = k \/ k' ∈ map fst d.
Proof.
  split; [apply group_append_keys |].
  induction d as [|[k0 vs] d IH]; cbn [Observer.group_append].
  - intros [-> | H]; [cbn; left | cbn in H; now apply elem_of_nil in H].
  - destruct (String.eqb_spec k k0) as [->|Hk]; cbn [map fst].
    + intros [-> | H]; [left | exact H].
    + intros [-> | H].
      * right. apply IH. now left.
      * apply elem_of_cons in H as [-> | H]; [left | right; apply IH; now right].
Qed.

Lemma fold_left_ext {A B} (f g : B -> A -> B) (l : list A) :
  (forall b a, f b a = g b a) -> forall b, fold_left f l b = fold_left g l b.
Proof.
  intros E. induction l as [|a l IH]; intros b; cbn [fold_left]; [reflexivity |].
  rewrite E. apply IH.
Qed.

(** The keys of a grouping: the keys picked from the events. *)
Lemma grouped_keys {A} (pick : PaymentEvent -> option (string * A))
    (events : list PaymentEvent) : forall (d : dict (list A)) (k : string),
  k ∈ map fst (fold_left (fun d e => match pick e with
                                     | Some (m, v) => Observer.group_append m v d
                                     | None => d
                                     end) events d)
  <-> k ∈ map fst d \/ exists e v, e ∈ events /\ pick e = Some (k, v).
Proof.
  induction events as [|e events IH]; intros d k; cbn [fold_left].
  - split; [now left |]. intros [H | (e & v & He & _)]; [exact H |].
    now apply elem_of_nil in He.
  - rewrite IH. split.
    + intros [H | (e' & v & He' & Hp)].
      * destruct (pick e) as [[m v]|] eqn:Ep; [| now left].
        apply group_append_keys_iff in H as [-> | H]; [| now left].
        right. exists e, v. split; [left | exact Ep].
      * right. exists e', v. split; [now right | exact Hp].
    + intros [H | (e' & v & He' & Hp)].
      * left. destruct (pick e) as [[m v]|]; [| exact H].
        apply group_append_keys_iff. now right.
      * apply elem_of_cons in He' as [-> | He'].
        -- left. rewrite Hp. apply group_append_keys_iff. now left.
        -- right. exists e', v. split; assumption.
Qed.

Lemma truthy_str_nonempty (m : string) : truthy_str m = true <-> m <> "".
Proof. destruct m; cbn; split; congruence. Qed.

(** X4.  The per-merchant breakdowns are computed over the events that name a
    merchant only: events without a merchant id (None or the empty string)
    change none of them, so a window without any merchant id gives empty
    breakdowns rather than zero entries.  The keys of each breakdown are
    exactly the non-empty merchant ids of the events it is computed from:
    all events for the success rates, the events that record their attempts
    for the attempt amplification, and the events that record a cost for the
    average cost. *)
Theorem merchant_breakdowns_skip_unattributed (events : list PaymentEvent) :
  Observer._success_rate_by_merchant events =
    Observer._success_rate_by_merchant (List.filter Notions.has_merchant events) /\
  Observer._attempt_amplification_by_merchant events =
    Observer._attempt_amplification_by_merchant (List.filter Notions.has_merchant events) /\
  Observer._avg_cost_by_merchant events =
    Observer._avg_cost_by_merchant (List.filter Notions.has_merchant events) /\
  (List.filter Notions.has_merchant events = [] ->
   Observer._success_rate_by_merchant events = [] /\
   Observer._attempt_amplification_by_merchant events = [] /\
   Observer._avg_cost_by_merchant events = []) /\
  (forall k, k ∈ map fst (Observer._success_rate_by_merchant events) <->
             exists e, e ∈ events /\ merchant_id e = Some k /\ k <> "") /\
  (forall k, k ∈ map fst (Observer._attempt_amplification_by_merchant events) <->
             exists e, e ∈ events /\ merchant_id e = Some k /\ k <> "" /\
                       total_attempts e <> None) /\
  (forall k, k ∈ map fst (Observer._avg_cost_by_merchant events) <->
             exists e, e ∈ events /\ merchant_id e = Some k /\ k <> "" /\
                       estimated_cost e <> None).
Proof.
  assert (H1 : Observer._success_rate_by_merchant events =
               Observer._success_rate_by_merchant (List.filter Notions.has_merchant events)).
  { unfold Observer._success_rate_by_merchant. f_equal.
    apply fold_left_filter. intros d e He. unfold Notions.has_merchant in He.
    destruct (merchant_id e) as [m|]; [| reflexivity]. cbn in He. now rewrite He. }
  assert (H2 : Observer._attempt_amplification_by_merchant events =
               Observer._attempt_amplification_by_merchant
                 (List.filter Notions.has_merchant events)).
  { unfold Observer._attempt_amplification_by_merchant. f_equal.
    apply fold_left_filter. intros d e He. unfold Notions.has_merchant in He.
    destruct (merchant_id e) as [m|]; [| reflexivity]. cbn in He. rewrite He.
    now destruct (total_attempts e). }
  assert (H3 : Observer._avg_cost_by_merchant events =
               Observer._avg_cost_by_merchant (List.filter Notions.has_merchant events)).
  { unfold Observer._avg_cost_by_merchant. f_equal.
    apply fold_left_filter. intros d e He. unfold Notions.has_merchant in He.
    destruct (merchant_id e) as [m|]; [| reflexivity]. cbn in He. rewrite He.
    now destruct (estimated_cost e). }
  split; [exact H1 |]. split; [exact H2 |]. split; [exact H3 |].
  split.
  { intros H. rewrite H1, H2, H3, H. repeat split. }
  split; [| split].
  - intros k. unfold Observer._success_rate_by_merchant. rewrite map_values_keys.
    rewrite (fold_left_ext _
               (fun d e => match (match merchant_id e with
                                  | Some m => if truthy_str m
                                              then Some (m, is_success (outcome e)) else None
                                  | None => None
                                  end) with
                           | Some (m, v) => Observer.group_append m v d
                           | None => d
                           end))
      by (intros d e; destruct (merchant_id e) as [m|]; [destruct (truthy_str m) |];
          reflexivity).
    rewrite grouped_keys. split.
    + intros [H | (e & v & He & Hp)]; [cbn in H; now apply elem_of_nil in H |].
      exists e. split; [exact He |].
      destruct (merchant_id e) as [m|]; [| discriminate].
      destruct (truthy_str m) eqn:Em; [| discriminate].
      injection Hp as -> _. split; [reflexivity | now apply truthy_str_nonempty].
    + intros (e & He & Hm & Hk). right. exists e, (is_success (outcome e)).
      split; [exact He |]. rewrite Hm, (proj2 (truthy_str_nonempty k) Hk). reflexivity.
  - intros k. unfold Observer._attempt_amplification_by_merchant. rewrite map_values_keys.
    rewrite (fold_left_ext _
               (fun d e => match (match merchant_id e, total_attempts e with
                                  | Some m, Some a => if truthy_str m then Some (m, a) else None
                                  | _, _ => None
                                  end) with
                           | Some (m, v) => Observer.group_append m v d
                           | None => d
                           end))
      by (intros d e; destruct (merchant_id e) as [m|], (total_attempts e) as [a|];
          try destruct (truthy_str m); reflexivity).
    rewrite grouped_keys. split.
    + intros [H | (e & v & He & Hp)]; [cbn in H; now apply elem_of_nil in H |].
      exists e. split; [exact He |].
      destruct (merchant_id e) as [m|]; [| discriminate].
      destruct (total_attempts e) as [a|]; [| discriminate].
      destruct (truthy_str m) eqn:Em; [| discriminate].
      injection Hp as -> _.
      split; [reflexivity | split; [now apply truthy_str_nonempty | discriminate]].
    + intros (e & He & Hm & Hk & Ha). right.
      destruct (total_attempts e) as [a|] eqn:Ea; [| contradiction].
      exists e, a. split; [exact He |].
      rewrite Hm, Ea, (proj2 (truthy_str_nonempty k) Hk). reflexivity.
  - intros k. unfold Observer._avg_cost_by_merchant. rewrite map_values_keys.
    rewrite (fold_left_ext _
               (fun d e => match (match merchant_id e, estimated_cost e with
                                  | Some m, Some c => if truthy_str m then Some (m, c) else None
                                  | _, _ => None
                                  end) with
                           | Some (m, v) => Observer.group_append m v d
                           | None => d
                           end))
      by (intros d e; destruct (merchant_id e) as [m|], (estimated_cost e) as [c|];
          try destruct (truthy_str m); reflexivity).
    rewrite grouped_keys. split.
    + intros [H | (e & v & He & Hp)]; [cbn in H; now apply elem_of_nil in H |].
      exists e. split; [exact He |].
      destruct (merchant_id e) as [m|]; [| discriminate].
      destruct (estimated_cost e) as [c|]; [| discriminate].
      destruct (truthy_str m) eqn:Em; [| discriminate].
      injection Hp as -> _.
      split; [reflexivity | split; [now apply truthy_str_nonempty | discriminate]].
    + intros (e & He & Hm & Hk & Hc). right.
      destruct (estimated_cost e) as [c|] eqn:Ec; [| contradiction].
      exists e, c. split; [exact He |].
      rewrite Hm, Ec, (proj2 (truthy_str_nonempty k) Hk). reflexivity.
Qed.

Lemma merchant_breakdowns_skip_unattributed_witness :
  let anonymous := {| event_id := "e9"; issuer_bank := "SBI"; payment_method := "upi";
                      merchant_id := None; latency_ms := 5; retries := 0;
                      outcome := FAILED; error_code := UNKNOWN; timestamp := 3;
                      total_attempts := Some 4; estimated_cost := Some 1%Q |} in
  Observer._success_rate_by_merchant [anonymous] = [] /\
  Observer._attempt_amplification_by_merchant [anonymous] = [] /\
  Observer._avg_cost_by_merchant [anonymous] = [].
Proof.
  intros anonymous.
  apply (merchant_breakdowns_skip_unattributed [anonymous]). reflexivity.
Defined.

Lemma py_min_spec (l : list Q) (m : Q) :
  py_min l = Ok m -> In m l /\ Forall (fun x => (m <= x)%Q) l.
Proof.
  destruct l as [|x t]; [discriminate |]. cbn [py_min]. intros [= <-].
  assert (G : forall t a,
             let r := fold_left (fun m y => if Qltb y m then y else m) t a in
             (r = a \/ In r t) /\ (r <= a)%Q /\ Forall (fun x => (r <= x)%Q) t).
  { clear. induction t as [|y t IH]; intros a; cbn [fold_left].
    - repeat split; [now left | apply Qle_refl | constructor].
    - destruct (IH (if Qltb y a then y else a)) as (Hin & Hle & Hall).
      cbv zeta in *. set (r := fold_left _ t _) in *.
      destruct (Qltb y a) eqn:E.
      + apply Qltb_lt in E. repeat split.
        * destruct Hin as [-> | Hin]; right; [now left | now right].
        * apply Qle_trans with y; [exact Hle | now apply Qlt_le_weak].
        * constructor; assumption.
      + apply Qltb_ge in E. repeat split.
        * destruct Hin as [-> | Hin]; [now left | right; now right].
        * exact Hle.
        * constructor; [| exact Hall]. now apply Qle_trans with a. }
  destruct (G t x) as (Hin & Hle & Hall). cbv zeta in *. split.
  - destruct Hin as [-> | Hin]; [now left | now right].
  - constructor; assumption.
Qed.

Lemma py_max_spec (l : list Q) (m : Q) :
  py_max l = Ok m -> In m l /\ Forall (fun x => (x <= m)%Q) l.
Proof.
  destruct l as [|x t]; [discriminate |]. cbn [py_max]. intros [= <-].
  assert (G : forall t a,
             let r := fold_left (fun m y => if Qgtb y m then y else m) t a in
             (r = a \/ In r t) /\ (a <= r)%Q /\ Forall (fun x => (x <= r)%Q) t).
  { clear. induction t as [|y t IH]; intros a; cbn [fold_left].
    - repeat split; [now left | apply Qle_refl | constructor].
    - destruct (IH (if Qgtb y a then y else a)) as (Hin & Hle & Hall).
      cbv zeta in *. set (r := fold_left _ t _) in *.
      destruct (Qgtb y a) eqn:E.
      + apply Qgtb_lt in E. repeat split.
        * destruct Hin as [-> | Hin]; right; [now left | now right].
        * apply Qle_trans with y; [now apply Qlt_le_weak | exact Hle].
        * constructor; assumption.
      + assert (E' : (y <= a)%Q).
        { unfold Qgtb in E. apply negb_false_iff in E. now apply Qle_bool_iff. }
        repeat split.
        * destruct Hin as [-> | Hin]; [now left | right; now right].
        * exact Hle.
        * constructor; [| exact Hall]. now apply Qle_trans with a. }
  destruct (G t x) as (Hin & Hle & Hall). cbv zeta in *. split.
  - destruct Hin as [-> | Hin]; [now left | now right].
  - constructor; assumption.
Qed.

Lemma build_metrics_inv wid events m :
  Observer.build_metrics wid events = Ok m ->
  py_min (map timestamp events) = Ok (start_ts m) /\
  py_max (map timestamp events) = Ok (end_ts m) /\
  Observer._latency_p95 events = Ok (p95_latency_ms m) /\
  sample_count m = len events /\
  window_id m = wid.
Proof.
  unfold Observer.build_metrics.
  destruct (py_min (map timestamp events)) as [a|]; [| discriminate].
  destruct (py_max (map timestamp events)) as [b|]; [| discriminate].
  destruct (Observer._latency_p95 events) as [p|]; [| discriminate].
  cbn [mbind result_bind mret result_ret]. intros [= <-]. repeat split.
Qed.

(** X5.  On a window of at least one (and fewer than 2^48) events,
    [get_partial_metrics] returns metrics whose time bounds enclose the
    timestamp of every event of the window, whose p95 latency is one of the
    observed latencies (no interpolation), and whose sample count is the
    number of events in the window. *)
Theorem partial_metrics_enclose_window (o : Observer.t) :
  let window := slice_last (Observer.window_size o) (Observer._buffer o) in
  0 < len window < 2 ^ 48 ->
  exists m,
    Observer.get_partial_metrics o = Ok (Some m, o) /\
    Forall (fun e => (start_ts m <= timestamp e <= end_ts m)%Q) window /\
    In (p95_latency_ms m) (map latency_ms window) /\
    sample_count m = len window.
Proof.
  intros window Hn.
  destruct (build_metrics_ok window Hn) as (m0 & Hm).
  set (wid := "partial-" +:+ str_int (len window)).
  exists (with_window_id wid m0).
  assert (Hget : Observer.get_partial_metrics o = Ok (Some (with_window_id wid m0), o)).
  { unfold Observer.get_partial_metrics. fold window.
    destruct (Observer._buffer o) as [|e t] eqn:Eb.
    - exfalso. clear -Hn Eb. subst window. try rewrite Eb in Hn. unfold len in Hn.
      unfold slice_last, slice_from, drop_z in Hn. rewrite !skipn_nil in Hn.
      destruct (_ <? _) in Hn; cbn in Hn; lia.
    - fold wid. rewrite Hm. reflexivity. }
  split; [exact Hget |].
  destruct (build_metrics_inv _ _ _ (Hm wid)) as (Hmin & Hmax & Hp95 & Hcount & _).
  apply py_min_spec in Hmin as [_ Hlo]. apply py_max_spec in Hmax as [_ Hhi].
  repeat split.
  - pose proof (proj1 (Forall_forall _ _) Hlo) as Hlo'.
    pose proof (proj1 (Forall_forall _ _) Hhi) as Hhi'.
    apply Forall_forall. intros e He.
    assert (Hin : timestamp e ∈ map timestamp window)
      by (apply list_elem_of_In, in_map, list_elem_of_In, He).
    split; [apply Hlo', Hin | apply Hhi', Hin].
  - destruct (latency_p95_lookup window Hn) as (v & Hv & Hlook).
    rewrite Hv in Hp95. injection Hp95 as Ev.
    cbn [with_window_id p95_latency_ms] in Ev |- *. rewrite <- Ev.
    apply list_elem_of_In. rewrite (sorted_perm (map latency_ms window)).
    apply list_elem_of_lookup. eauto.
  - exact Hcount.
Qed.

Lemma partial_metrics_enclose_window_witness :
  exists m,
    Observer.get_partial_metrics Sample.observer2 = Ok (Some m, Sample.observer2) /\
    sample_count m = 2.
Proof.
  destruct (partial_metrics_enclose_window Sample.observer2) as (m & Hm & _ & _ & Hc).
  - vm_compute. split; reflexivity.
  - exists m. split; [exact Hm | exact Hc].
Defined.

(** X6.  [advance] with a non-negative step drops exactly the
    [window_advance_events] oldest events when the buffer holds at least that
    many, keeping the rest in order, and does nothing otherwise; it never
    touches the window counter. *)
Theorem advance_drops_oldest (o : Observer.t) :
  0 <= Observer.window_advance_events o ->
  let o' := Observer.advance o in
  (Observer.ready o = true ->
   Observer._buffer o =
     take (Z.to_nat (Observer.window_advance_events o)) (Observer._buffer o)
     ++ Observer._buffer o' /\
   len (Observer._buffer o') = len (Observer._buffer o) - Observer.window_advance_events o) /\
  (Observer.ready o = false -> o' = o) /\
  Observer._window_counter o' = Observer._window_counter o.
Proof.
  intros Hwa o'. subst o'. unfold Observer.advance, Observer.ready.
  destruct (Observer.window_advance_events o <=? len (Observer._buffer o)) eqn:E.
  - apply Z.leb_le in E.
    cbn [Observer._buffer Observer._window_counter].
    unfold slice_from, drop_z. rewrite (proj2 (Z.ltb_ge _ 0) Hwa).
    repeat split; try discriminate.
    + symmetry. apply take_drop.
    + unfold len in *. rewrite length_drop. lia.
  - repeat split; discriminate.
Qed.

Lemma advance_drops_oldest_witness :
  len (Observer._buffer (Observer.advance (Observer.ingest (Observer.init 200 1)
                                                            (Sample.event "HDFC" 20 true 1)))) = 0.
Proof.
  destruct (advance_drops_oldest (Observer.ingest (Observer.init 200 1)
                                                   (Sample.event "HDFC" 20 true 1)))
    as ((_ & Hlen) & _); [vm_compute; discriminate | reflexivity |].
  rewrite Hlen. reflexivity.
Defined.
(** ** More of the Reasoner *)

Lemma min2_unit (u : Q) : (0 <= u)%Q -> (0 <= min2 1 u <= 1)%Q.
Proof.
  intros Hu. unfold min2. destruct (Qltb u 1) eqn:E.
  - apply Qltb_lt in E. split; [exact Hu | now apply Qlt_le_weak].
  - split; [discriminate | apply Qle_refl].
Qed.

Lemma min2_keeps_lower (u c : Q) : (c <= 1)%Q -> (c <= u)%Q -> (c <= min2 1 u)%Q.
Proof. intros Hc Hu. unfold min2. now destruct (Qltb u 1). Qed.

Lemma max2_lower (u c : Q) : (c <= max2 u c)%Q.
Proof.
  unfold max2. destruct (Qgtb c u) eqn:E; [apply Qle_refl |].
  unfold Qgtb in E. apply negb_false_iff in E. now apply Qle_bool_iff.
Qed.

Lemma py_max_nonempty (l : list Q) : l <> [] -> exists m, py_max l = Ok m.
Proof. destruct l; [congruence | eauto]. Qed.

Lemma uncertainty_weak (c : string) (conf : Q) (parts : list string) (m : WindowMetrics) :
  parts = [] \/ c = "Unknown" \/ c = Reasoner.CAUSE_INSUFFICIENT_SIGNAL ->
  Reasoner._compute_uncertainty c conf parts m = Ok (min2 1 (max2 (1 - conf) (5 # 10))).
Proof.
  intros H. unfold Reasoner._compute_uncertainty.
  destruct parts as [|p ps]; [reflexivity |].
  destruct H as [H | [-> | ->]]; [discriminate | reflexivity | reflexivity].
Qed.

Lemma uncertainty_range (c : string) (conf : Q) (parts : list string)
    (m : WindowMetrics) :
  exists u,
    Reasoner._compute_uncertainty c conf parts m = Ok u /\ (0 <= u <= 1)%Q.
Proof.
  unfold Reasoner._compute_uncertainty.
  destruct (match parts with
            | [] => true
            | _ => String.eqb c "Unknown" || String.eqb c Reasoner.CAUSE_INSUFFICIENT_SIGNAL
            end).
  - eexists. split; [reflexivity |].
    apply min2_unit. apply Qle_trans with (5 # 10)%Q; [discriminate | apply max2_lower].
  - set (u2 := if sample_count m <? 100
               then ((if sample_count m <? 50 then 0 + (25 # 100) else 0) + (15 # 100))%Q
               else (if sample_count m <? 50 then (0 + (25 # 100))%Q else 0%Q)).
    set (u3 := if 1 <? len _ then (u2 + (3 # 10))%Q else u2).
    assert (H3 : (0 <= u3)%Q).
    { subst u3 u2.
      destruct (sample_count m <? 100), (sample_count m <? 50), (1 <? len _); discriminate. }
    destruct (3 <? len (error_distribution m)) eqn:Hlen.
    + destruct (py_max_nonempty (map snd (error_distribution m))) as (top & Htop).
      { apply Z.ltb_lt in Hlen.
        destruct (error_distribution m); [unfold len in Hlen; cbn in Hlen; lia | discriminate]. }
      rewrite Htop. cbn [mbind result_bind mret result_ret].
      eexists. split; [reflexivity |].
      apply min2_unit. destruct (Qltb top (5 # 10)); [| exact H3].
      apply Qle_trans with (u3 + 0)%Q; [now rewrite Qplus_0_r |].
      apply Qplus_le_compat; [apply Qle_refl | discriminate].
    + cbn [mbind result_bind mret result_ret].
      eexists. split; [reflexivity |]. apply min2_unit, H3.
Qed.

(** X7.  [_compute_uncertainty] never raises and always returns a value in
    [0, 1]; with no evidence, or for the causes Unknown and
    INSUFFICIENT_SIGNAL, the value is at least 0.5 whatever the confidence. *)
Theorem compute_uncertainty_bounded (c : string) (conf : Q) (parts : list string)
    (m : WindowMetrics) :
  exists u,
    Reasoner._compute_uncertainty c conf parts m = Ok u /\
    (0 <= u <= 1)%Q /\
    (parts = [] \/ c = "Unknown" \/ c = Reasoner.CAUSE_INSUFFICIENT_SIGNAL ->
     (5 # 10 <= u)%Q).
Proof.
  destruct (uncertainty_range c conf parts m) as (u & Hu & Hr).
  exists u. split; [exact Hu |]. split; [exact Hr |].
  intros Hweak. rewrite (uncertainty_weak c conf parts m Hweak) in Hu.
  injection Hu as <-.
  apply min2_keeps_lower; [discriminate | apply max2_lower].
Qed.
Lemma compute_uncertainty_bounded_witness :
  exists u,
    Reasoner._compute_uncertainty "Unknown" (9 # 10) ["late"] SampleExec.thin_metrics = Ok u /\
    (5 # 10 <= u)%Q.
Proof.
  destruct (compute_uncertainty_bounded "Unknown" (9 # 10) ["late"] SampleExec.thin_metrics)
    as (u & Hu & _ & Hlow).
  exists u. split; [exact Hu |]. apply Hlow. right. left. reflexivity.
Defined.

(** [_heuristic_hypothesis] is the composition of its rules. *)
Lemma heuristic_rules (m : WindowMetrics) :
  Reasoner._heuristic_hypothesis m =
  if sample_count m <? Reasoner.MIN_SAMPLE_FOR_ACT then
    Ok {| cause := Reasoner.CAUSE_INSUFFICIENT_SIGNAL;
          confidence := 0;
          evidence := "Sample count too low (" +:+ str_int (sample_count m)
                      +:+ ") for reliable hypothesis.";
          source := "heuristic";
          uncertainty := 1 |}
  else
    st ← Notions.issuer_rule m Notions.start;
    Notions.conclude m
      (Notions.attempt_rule m
         (Notions.general_rule m (Notions.latency_rule m (Notions.legacy_storm_rule m st)))).
Proof. reflexivity. Qed.

Lemma py_min_item_nonempty {K} (x : K * Q) (t : list (K * Q)) :
  exists w, py_min_item (x :: t) = Ok w /\ w ∈ x :: t.
Proof.
  eexists. split; [reflexivity |].
  revert x. induction t as [|y t IH]; intros x; cbn [fold_left].
  - apply list_elem_of_here.
  - destruct (Qltb (snd y) (snd x)).
    + apply list_elem_of_further. apply IH.
    + specialize (IH x). apply elem_of_cons in IH as [-> | IH].
      * apply list_elem_of_here.
      * do 2 apply list_elem_of_further. exact IH.
Qed.

Lemma snoc_not_nil {A} (l : list A) (x : A) : l ++ [x] <> [].
Proof. destruct l; discriminate. Qed.

Lemma settled_fresh (c : string) (q : Q) (parts : list string) :
  c <> "Unknown" -> c <> Reasoner.CAUSE_INSUFFICIENT_SIGNAL ->
  (7 # 10 <= q <= 9 # 10)%Q -> parts <> [] ->
  Notions.settled {| Reasoner.l_cause := c; Reasoner.l_confidence := q;
                     Reasoner.l_evidence_parts := parts |}.
Proof. intros. right. repeat split; cbn; tauto. Qed.

Lemma issuer_rule_settled (m : WindowMetrics) :
  exists st, Notions.issuer_rule m Notions.start = Ok st /\ Notions.settled st.
Proof.
  unfold Notions.issuer_rule.
  destruct (success_rate_by_issuer m) as [|x t].
  - exists Notions.start. split; [reflexivity | now left].
  - destruct (py_min_item_nonempty x t) as ([name rate] & -> & _).
    cbn [mbind result_bind mret result_ret].
    destruct (Qltb rate _).
    + eexists. split; [reflexivity |].
      apply settled_fresh; try discriminate.
      * split; discriminate.
    + exists Notions.start. split; [reflexivity | now left].
Qed.

Lemma settled_confident (st : Reasoner.locals) :
  Notions.settled st -> st <> Notions.start ->
  Qltb (Reasoner.l_confidence st) (5 # 10) = false /\ Reasoner.l_evidence_parts st <> [].
Proof.
  intros [-> | (_ & _ & [Hlo _] & Hp)] Hne; [congruence |].
  split; [| exact Hp]. apply Qltb_ge.
  apply Qle_trans with (7 # 10)%Q; [discriminate | exact Hlo].
Qed.

Lemma settled_cases (st : Reasoner.locals) :
  Notions.settled st ->
  st = Notions.start \/
  (Notions.settled st /\ Qltb (Reasoner.l_confidence st) (5 # 10) = false /\
   Reasoner.l_evidence_parts st <> [] /\ Reasoner.l_cause st <> "Unknown").
Proof.
  intros H. destruct H as [-> | H]; [now left | right].
  pose proof H as (Hu & _ & [Hlo _] & Hp).
  repeat split; try assumption; [now right |].
  apply Qltb_ge. apply Qle_trans with (7 # 10)%Q; [discriminate | exact Hlo].
Qed.

Lemma legacy_storm_settled (m : WindowMetrics) (st : Reasoner.locals) :
  Notions.settled st -> Notions.settled (Notions.legacy_storm_rule m st).
Proof.
  intros H. unfold Notions.legacy_storm_rule.
  destruct (settled_cases st H) as [-> | (Hs & Hc & _)].
  - destruct (_ && _); [| now left].
    apply settled_fresh; try discriminate. split; discriminate.
  - rewrite Hc, andb_false_r. exact Hs.
Qed.

Lemma latency_settled (m : WindowMetrics) (st : Reasoner.locals) :
  Notions.settled st -> Notions.settled (Notions.latency_rule m st).
Proof.
  intros H. unfold Notions.latency_rule.
  destruct (Qgeb _ _); [| exact H]. cbv zeta.
  destruct (settled_cases st H) as [-> | (Hs & Hc & _)].
  - apply settled_fresh; try discriminate. split; discriminate.
  - rewrite Hc. destruct Hs as [-> | (Hu & Hi & Hq & _)]; [discriminate |].
    apply settled_fresh; try assumption. apply snoc_not_nil.
Qed.

Lemma general_settled (m : WindowMetrics) (st : Reasoner.locals) :
  Notions.settled st -> Notions.settled (Notions.general_rule m st).
Proof.
  intros H. unfold Notions.general_rule.
  destruct (_ && _); [| exact H].
  apply settled_fresh; try discriminate; [split; discriminate | apply snoc_not_nil].
Qed.

Lemma attempt_settled (m : WindowMetrics) (st : Reasoner.locals) :
  Notions.settled st -> Notions.settled (Notions.attempt_rule m st).
Proof.
  intros H. unfold Notions.attempt_rule.
  destruct (attempt_amplification m) as [amp|]; [| exact H].
  destruct (_ && _); [| exact H]. cbv zeta.
  destruct (average_estimated_cost m) as [cost|].
  - destruct (Qgeb cost _); apply settled_fresh; try discriminate; split; discriminate.
  - apply settled_fresh; try discriminate; split; discriminate.
Qed.

Lemma rules_settled (m : WindowMetrics) (st : Reasoner.locals) :
  Notions.settled st ->
  Notions.settled
    (Notions.attempt_rule m
       (Notions.general_rule m (Notions.latency_rule m (Notions.legacy_storm_rule m st)))).
Proof.
  intros H. now apply attempt_settled, general_settled, latency_settled, legacy_storm_settled.
Qed.

Lemma conclude_settled (m : WindowMetrics) (st : Reasoner.locals) :
  Notions.settled st ->
  exists h,
    Notions.conclude m st = Ok h /\
    source h = "heuristic" /\
    confidence h = Reasoner.l_confidence st /\
    (0 <= uncertainty h <= 1)%Q /\
    (st = Notions.start ->
       cause h = Reasoner.CAUSE_INSUFFICIENT_SIGNAL /\ (uncertainty h == 1)%Q) /\
    (st <> Notions.start -> cause h = Reasoner.l_cause st).
Proof.
  intros H. destruct (settled_cases st H) as [-> | (Hs & Hc & Hp & Hu)].
  - eexists. split; [reflexivity |].
    repeat split; try discriminate; intros; congruence.
  - unfold Notions.conclude. cbv zeta.
    apply String.eqb_neq in Hu. rewrite Hu. cbn [andb].
    destruct (uncertainty_range (Reasoner.l_cause st) (Reasoner.l_confidence st)
                (Reasoner.l_evidence_parts st) m) as (u & -> & Hr).
    cbn [mbind result_bind mret result_ret].
    eexists. split; [reflexivity |]. cbn [source confidence uncertainty cause].
    split; [reflexivity |]. split; [reflexivity |]. split; [exact Hr |].
    apply String.eqb_neq in Hu.
    split; [| reflexivity]. intros E. rewrite E in Hu. now elim Hu.
Qed.

Lemma heuristic_via_rules (m : WindowMetrics) :
  Reasoner._heuristic_hypothesis m =
    Ok {| cause := Reasoner.CAUSE_INSUFFICIENT_SIGNAL;
          confidence := 0;
          evidence := "Sample count too low (" +:+ str_int (sample_count m)
                      +:+ ") for reliable hypothesis.";
          source := "heuristic";
          uncertainty := 1 |} \/
  exists st, Notions.settled st /\ Reasoner._heuristic_hypothesis m = Notions.conclude m st.
Proof.
  rewrite heuristic_rules.
  destruct (sample_count m <? _); [now left | right].
  destruct (issuer_rule_settled m) as (st0 & -> & H0).
  cbn [mbind result_bind]. eexists. split; [| reflexivity].
  now apply rules_settled.
Qed.

(** X8.  [_heuristic_hypothesis] never raises.  Its hypothesis is tagged
    heuristic, has a confidence that is either 0 or between 0.7 and 0.9 and
    an uncertainty in [0, 1]; the cause is INSUFFICIENT_SIGNAL exactly when
    the confidence is 0, and then the uncertainty is 1.  The cause is never
    the placeholder Unknown. *)
Theorem heuristic_hypothesis_well_formed (m : WindowMetrics) :
  exists h,
    Reasoner._heuristic_hypothesis m = Ok h /\
    source h = "heuristic" /\
    (0 <= confidence h <= 9 # 10)%Q /\
    (0 <= uncertainty h <= 1)%Q /\
    cause h <> "Unknown" /\
    (cause h = Reasoner.CAUSE_INSUFFICIENT_SIGNAL <-> (confidence h == 0)%Q) /\
    (cause h = Reasoner.CAUSE_INSUFFICIENT_SIGNAL -> (uncertainty h == 1)%Q) /\
    (cause h <> Reasoner.CAUSE_INSUFFICIENT_SIGNAL -> (7 # 10 <= confidence h)%Q).
Proof.
  destruct (heuristic_via_rules m) as [-> | (st & H & ->)].
  - eexists. split; [reflexivity |]. cbn [source confidence uncertainty cause].
    repeat split; try discriminate; try reflexivity. intros H. now elim H.
  - destruct (conclude_settled m st H) as (h & -> & Hsrc & Hconf & Hunc & Hstart & Hother).
    exists h. split; [reflexivity |]. split; [exact Hsrc |].
    rewrite Hconf.
    destruct (settled_cases st H) as [E | (Hs & Hc & Hp & Hu)].
    + destruct (Hstart E) as [Hcause Hone]. rewrite E, Hcause.
      repeat split; try discriminate; try reflexivity; try apply Hunc.
      * intros _. exact Hone.
      * intros Hne. now elim Hne.
    + assert (Hne : st <> Notions.start) by (intros E; rewrite E in Hu; now apply Hu).
      rewrite (Hother Hne).
      destruct Hs as [E | (_ & Hi & [Hlo Hhi] & _)]; [contradiction |].
      assert (H7 : (7 # 10 <= Reasoner.l_confidence st)%Q) by exact Hlo.
      assert (Hpos : ~ (Reasoner.l_confidence st == 0)%Q).
      { intros E. rewrite E in Hlo. now apply Hlo. }
      split; [split; [| exact Hhi] |].
      { apply Qle_trans with (7 # 10)%Q; [discriminate | exact Hlo]. }
      split; [exact Hunc |]. split; [exact Hu |].
      split; [split; intros E; contradiction |].
      split; [intros E; contradiction | intros _; exact H7].
Qed.

Lemma py_min_item_least {K} (l : list (K * Q)) (w : K * Q) :
  py_min_item l = Ok w ->
  w ∈ l /\ Forall (fun kv => (snd w <= snd kv)%Q) l.
Proof.
  destruct l as [|x t]; [discriminate |]. cbn [py_min_item]. intros [= <-].
  assert (G : forall (t : list (K * Q)) (x : K * Q),
             let w := fold_left (fun m y => if Qltb (snd y) (snd m) then y else m) t x in
             w ∈ x :: t /\ (snd w <= snd x)%Q /\ Forall (fun kv => (snd w <= snd kv)%Q) t).
  { clear. induction t as [|y t IH]; intros x; cbn [fold_left].
    - split; [apply list_elem_of_here | split; [apply Qle_refl | constructor]].
    - destruct (Qltb (snd y) (snd x)) eqn:E.
      + destruct (IH y) as (Hin & Hle & Hall).
        split; [now apply list_elem_of_further |].
        apply Qltb_lt in E.
        split; [| now constructor].
        apply Qle_trans with (snd y); [exact Hle | now apply Qlt_le_weak].
      + destruct (IH x) as (Hin & Hle & Hall).
        apply Qltb_ge in E.
        split.
        * apply elem_of_cons in Hin as [-> | Hin];
            [apply list_elem_of_here | now do 2 apply list_elem_of_further].
        * split; [exact Hle |]. constructor; [| exact Hall].
          now apply Qle_trans with (snd x). }
  destruct (G t x) as (Hin & Hle & Hall).
  split; [exact Hin | now constructor].
Qed.

Lemma attempt_rule_storm (m : WindowMetrics) (st : Reasoner.locals) :
  Notions.attempt_storm m = true ->
  let st' := Notions.attempt_rule m st in
  Reasoner.l_cause st' = "Retry_Storm_Detected" /\
  Reasoner.l_evidence_parts st' <> [] /\
  match average_estimated_cost m with
  | Some c => if Qgeb c Reasoner.COST_ESCALATION_THRESHOLD
              then (Reasoner.l_confidence st' == 9 # 10)%Q
              else Reasoner.l_confidence st' = 85 # 100
  | None => Reasoner.l_confidence st' = 85 # 100
  end.
Proof.
  unfold Notions.attempt_storm, Notions.attempt_rule.
  destruct (attempt_amplification m) as [amp|]; [| discriminate].
  intros ->. cbv zeta.
  destruct (average_estimated_cost m) as [c|]; [destruct (Qgeb c _) |];
    cbn [Reasoner.l_cause Reasoner.l_confidence Reasoner.l_evidence_parts];
    repeat split; discriminate.
Qed.

Lemma attempt_rule_quiet (m : WindowMetrics) (st : Reasoner.locals) :
  Notions.attempt_storm m = false -> Notions.attempt_rule m st = st.
Proof.
  unfold Notions.attempt_storm, Notions.attempt_rule.
  destruct (attempt_amplification m) as [amp|]; [| reflexivity].
  now intros ->.
Qed.

Lemma conclude_keeps (m : WindowMetrics) (st : Reasoner.locals) :
  Notions.settled st -> st <> Notions.start ->
  exists h,
    Notions.conclude m st = Ok h /\
    cause h = Reasoner.l_cause st /\
    confidence h = Reasoner.l_confidence st /\
    (0 <= uncertainty h <= 1)%Q.
Proof.
  intros Hs Hne.
  destruct (conclude_settled m st Hs) as (h & Hh & _ & Hc & Hu & _ & Hk).
  exists h. repeat split; try assumption; try apply Hu. now apply Hk.
Qed.

(** X9.  With at least 30 samples, an attempt-based storm (average attempts at
    or above the storm threshold while the success rate is under 0.8)
    overrides every earlier finding: the heuristic hypothesis is
    Retry_Storm_Detected with confidence 0.85, or 0.9 when the average cost
    is at or above the cost escalation threshold. *)
Theorem attempt_storm_overrides (m : WindowMetrics) :
  30 <= sample_count m ->
  Notions.attempt_storm m = true ->
  exists h,
    Reasoner._heuristic_hypothesis m = Ok h /\
    cause h = "Retry_Storm_Detected" /\
    (0 <= uncertainty h <= 1)%Q /\
    match average_estimated_cost m with
    | Some c => if Qgeb c Reasoner.COST_ESCALATION_THRESHOLD
                then (confidence h == 9 # 10)%Q
                else confidence h = 85 # 100
    | None => confidence h = 85 # 100
    end.
Proof.
  intros Hn Hstorm. rewrite heuristic_rules.
  destruct (Z.ltb_spec (sample_count m) Reasoner.MIN_SAMPLE_FOR_ACT) as [Hlt|_].
  { unfold Reasoner.MIN_SAMPLE_FOR_ACT in Hlt. lia. }
  destruct (issuer_rule_settled m) as (st0 & -> & H0).
  cbn [mbind result_bind].
  pose proof (rules_settled m st0 H0) as Hs.
  set (prev := Notions.general_rule m _) in *.
  destruct (attempt_rule_storm m prev Hstorm) as (Hcause & Hparts & Hconf).
  destruct (conclude_keeps m (Notions.attempt_rule m prev) Hs) as (h & Hh & Hc & Hq & Hu).
  { intros E. rewrite E in Hcause. discriminate. }
  exists h. split; [exact Hh |]. rewrite Hc, Hq. auto.
Qed.

Lemma attempt_storm_overrides_witness :
  exists h,
    Reasoner._heuristic_hypothesis Cases.storm = Ok h /\
    cause h = "Retry_Storm_Detected".
Proof.
  assert (Hn : 30 <= sample_count Cases.storm) by (vm_compute; discriminate).
  assert (Hs : Notions.attempt_storm Cases.storm = true) by (vm_compute; reflexivity).
  destruct (attempt_storm_overrides Cases.storm Hn Hs) as (h & Hh & Hc & _).
  exists h. split; [exact Hh | exact Hc].
Defined.

Lemma rules_keep_issuer (m : WindowMetrics) (st : Reasoner.locals) :
  Reasoner.l_confidence st = 85 # 100 ->
  Reasoner.l_evidence_parts st <> [] ->
  let st' := Notions.general_rule m (Notions.latency_rule m (Notions.legacy_storm_rule m st)) in
  Reasoner.l_cause st' = Reasoner.l_cause st /\
  Reasoner.l_confidence st' = 85 # 100.
Proof.
  intros Hc Hp. cbv zeta.
  assert (E1 : Notions.legacy_storm_rule m st = st).
  { unfold Notions.legacy_storm_rule. rewrite Hc.
    change (Qltb (85 # 100) (5 # 10)) with false. now rewrite andb_false_r. }
  rewrite E1.
  assert (E2 : Reasoner.l_cause (Notions.latency_rule m st) = Reasoner.l_cause st /\
               Reasoner.l_confidence (Notions.latency_rule m st) = 85 # 100 /\
               Reasoner.l_evidence_parts (Notions.latency_rule m st) <> []).
  { unfold Notions.latency_rule. destruct (Qgeb _ _); [| auto]. cbv zeta. rewrite Hc.
    change (Qltb (85 # 100) (5 # 10)) with false. cbn.
    repeat split. apply snoc_not_nil. }
  destruct E2 as (Ec & Eq & Ep).
  assert (E3 : Notions.general_rule m (Notions.latency_rule m st) = Notions.latency_rule m st).
  { unfold Notions.general_rule.
    destruct (Reasoner.l_evidence_parts (Notions.latency_rule m st)); [congruence |].
    now rewrite andb_false_r. }
  rewrite E3. auto.
Qed.

(** X10.  With at least 30 samples and no attempt storm, an issuer whose
    success rate is the lowest of all issuers and below the degradation
    threshold (0.75) is named in the cause, Issuer_<name>_Degradation, with
    confidence 0.85; neither the legacy retry-storm rule, nor the latency
    rule, nor the general-degradation rule replaces it. *)
Theorem worst_issuer_is_blamed (m : WindowMetrics) (name : string) (rate : Q) :
  30 <= sample_count m ->
  Notions.attempt_storm m = false ->
  py_min_item (success_rate_by_issuer m) = Ok (name, rate) ->
  (rate < 75 # 100)%Q ->
  (name, rate) ∈ success_rate_by_issuer m /\
  Forall (fun kv : string * Q => (rate <= snd kv)%Q) (success_rate_by_issuer m) /\
  exists h,
    Reasoner._heuristic_hypothesis m = Ok h /\
    cause h = "Issuer_" +:+ name +:+ "_Degradation" /\
    confidence h = 85 # 100 /\
    (0 <= uncertainty h <= 1)%Q.
Proof.
  intros Hn Hquiet Hmin Hrate.
  destruct (py_min_item_least _ _ Hmin) as (Hin & Hall).
  split; [exact Hin |]. split; [exact Hall |].
  rewrite heuristic_rules.
  destruct (Z.ltb_spec (sample_count m) Reasoner.MIN_SAMPLE_FOR_ACT) as [Hlt|_].
  { unfold Reasoner.MIN_SAMPLE_FOR_ACT in Hlt. lia. }
  pose proof (issuer_rule_settled m) as (st0 & Hst0 & H0).
  pose proof Hst0 as Hst. unfold Notions.issuer_rule in Hst.
  destruct (success_rate_by_issuer m) as [|x t] eqn:Ei; [discriminate |].
  rewrite Hmin in Hst. cbn [mbind result_bind mret result_ret] in Hst.
  apply Qltb_lt in Hrate.
  unfold Reasoner.SUCCESS_RATE_DEGRADATION_THRESHOLD in Hst. rewrite Hrate in Hst.
  injection Hst as Hst. rewrite Hst0. cbn [mbind result_bind].
  pose proof (rules_settled m st0 H0) as Hs.
  rewrite attempt_rule_quiet in Hs |- * by exact Hquiet.
  destruct (rules_keep_issuer m st0) as (Kc & Kq).
  { now rewrite <- Hst. }
  { rewrite <- Hst. discriminate. }
  set (st := Notions.general_rule m _) in *.
  destruct (conclude_keeps m st Hs) as (h & Hh & Hc & Hq & Hu).
  { intros E. rewrite E in Kq. discriminate. }
  exists h. split; [exact Hh |]. rewrite Hc, Hq, Kc, Kq, <- Hst. auto.
Qed.

Lemma worst_issuer_is_blamed_witness :
  exists h,
    Reasoner._heuristic_hypothesis Cases.issuer_down = Ok h /\
    cause h = "Issuer_HDFC_Degradation".
Proof.
  assert (Hn : 30 <= sample_count Cases.issuer_down) by (vm_compute; discriminate).
  assert (Hq : Notions.attempt_storm Cases.issuer_down = false) by (vm_compute; reflexivity).
  assert (Hm : py_min_item (success_rate_by_issuer Cases.issuer_down) = Ok ("HDFC", 6 # 10))
    by reflexivity.
  assert (Hr : (6 # 10 < 75 # 100)%Q) by reflexivity.
  destruct (worst_issuer_is_blamed Cases.issuer_down "HDFC" (6 # 10) Hn Hq Hm Hr)
    as (_ & _ & h & Hh & Hc & _).
  exists h. split; [exact Hh | exact Hc].
Defined.

(** X11.  [reason] never raises.  A backend answer with a positive confidence
    is returned with its cause, confidence, evidence and source; its
    uncertainty is kept when given, and otherwise completed with a value in
    [0, 1].  Without a backend answer, or when its confidence is not
    positive, the result is the heuristic hypothesis. *)
Theorem reason_prefers_backend (llm_h : option Reasoner.LlmAnswer) (m : WindowMetrics) :
  exists h,
    Reasoner.reason llm_h m = Ok h /\
    (forall a, llm_h = Some a -> (0 < Reasoner.llm_confidence a)%Q ->
       cause h = Reasoner.llm_cause a /\
       confidence h = Reasoner.llm_confidence a /\
       evidence h = Reasoner.llm_evidence a /\
       source h = Reasoner.llm_source a /\
       match Reasoner.llm_uncertainty a with
       | Some u => uncertainty h = u
       | None => (0 <= uncertainty h <= 1)%Q
       end) /\
    ((llm_h = None \/ exists a, llm_h = Some a /\ (Reasoner.llm_confidence a <= 0)%Q) ->
     Reasoner._heuristic_hypothesis m = Ok h).
Proof.
  assert (Hheur : exists h, Reasoner._heuristic_hypothesis m = Ok h).
  { rewrite heuristic_rules. destruct (sample_count m <? _); [eauto |].
    destruct (issuer_rule_settled m) as (st0 & -> & H0). cbn [mbind result_bind].
    destruct (conclude_settled m _ (rules_settled m st0 H0)) as (h & Hh & _). eauto. }
  destruct llm_h as [a|]; cbn [Reasoner.reason].
  - destruct (Qgtb (Reasoner.llm_confidence a) 0) eqn:Ec.
    + apply Qgtb_lt in Ec.
      assert (Hu : exists u,
                 match Reasoner.llm_uncertainty a with
                 | Some u => mret u
                 | None => Reasoner._compute_uncertainty (Reasoner.llm_cause a)
                             (Reasoner.llm_confidence a) [Reasoner.llm_evidence a] m
                 end = Ok u /\
                 match Reasoner.llm_uncertainty a with
                 | Some u0 => u = u0
                 | None => (0 <= u <= 1)%Q
                 end).
      { destruct (Reasoner.llm_uncertainty a) as [u|]; [exists u; split; reflexivity |].
        destruct (uncertainty_range (Reasoner.llm_cause a) (Reasoner.llm_confidence a)
                    [Reasoner.llm_evidence a] m) as (u & Hu & Hr).
        exists u. split; [exact Hu | exact Hr]. }
      destruct Hu as (u & Hu & Hur). rewrite Hu. cbn [mbind result_bind mret result_ret].
      eexists. split; [reflexivity |]. split.
      * intros a' [= <-] _. cbn. repeat split. exact Hur.
      * intros [H | (a' & [= <-] & Hle)]; [discriminate |].
        exfalso. apply (Qlt_not_le _ _ Ec Hle).
    + destruct Hheur as (h & Hh). exists h. split; [exact Hh |]. split; [| intros _; exact Hh].
      intros a' [= <-] Hpos. apply Qgtb_lt in Hpos. congruence.
  - destruct Hheur as (h & Hh). exists h. split; [exact Hh |]. split; [| intros _; exact Hh].
    intros a' H. discriminate.
Qed.
(** ** More of the decision engine *)

Lemma max2_upper (a b c : Q) : (a <= c)%Q -> (b <= c)%Q -> (max2 a b <= c)%Q.
Proof. intros Ha Hb. unfold max2. now destruct (Qgtb b a). Qed.

Lemma max2_left (a b : Q) : (a <= max2 a b)%Q.
Proof.
  unfold max2. destruct (Qgtb b a) eqn:E; [| apply Qle_refl].
  apply Qgtb_lt in E. now apply Qlt_le_weak.
Qed.

Lemma min2_left (a b : Q) : (min2 a b <= a)%Q.
Proof.
  unfold min2. destruct (Qltb b a) eqn:E; [| apply Qle_refl].
  apply Qltb_lt in E. now apply Qlt_le_weak.
Qed.

Lemma min2_right (a b : Q) : (min2 a b <= b)%Q.
Proof.
  unfold min2. destruct (Qltb b a) eqn:E; [apply Qle_refl |].
  now apply Qltb_ge in E.
Qed.

Lemma min2_glb (a b c : Q) : (c <= a)%Q -> (c <= b)%Q -> (c <= min2 a b)%Q.
Proof. intros Ha Hb. unfold min2. now destruct (Qltb b a). Qed.

Lemma min2_mono (a b b' : Q) : (b <= b')%Q -> (min2 a b <= min2 a b')%Q.
Proof.
  intros H. apply min2_glb; [apply min2_left |].
  apply Qle_trans with b; [apply min2_right | exact H].
Qed.

Lemma max2_mono (a b b' : Q) : (b <= b')%Q -> (max2 a b <= max2 a b')%Q.
Proof.
  intros H. apply max2_upper; [apply max2_left |].
  apply Qle_trans with b'; [exact H | apply max2_lower].
Qed.

Lemma clamp_unit (r : Q) : (0 <= max2 0 (min2 1 r) <= 1)%Q.
Proof.
  split; [apply max2_left |].
  apply max2_upper; [discriminate | apply min2_left].
Qed.

Lemma risk_score_range (h : Hyp) (a_type : string) (tgt : option string) (acc : Q) :
  (0 <= Decision._risk_score h a_type tgt acc <= 1)%Q.
Proof.
  unfold Decision._risk_score.
  destruct (String.eqb a_type ActionType.NO_OP); [split; discriminate |].
  apply clamp_unit.
Qed.

(** X12.  [_risk_score] is always in [0, 1] and is 0 for a no-op; it does not
    depend on the target, and a larger risk accumulation never lowers it. *)
Theorem risk_score_clamped (h : Hyp) (a_type : string) (tgt : option string) (acc : Q) :
  (0 <= Decision._risk_score h a_type tgt acc <= 1)%Q /\
  Decision._risk_score h ActionType.NO_OP tgt acc = 0%Q /\
  (forall tgt', Decision._risk_score h a_type tgt' acc = Decision._risk_score h a_type tgt acc) /\
  (forall acc', (acc <= acc')%Q ->
     (Decision._risk_score h a_type tgt acc <= Decision._risk_score h a_type tgt acc')%Q).
Proof.
  split; [apply risk_score_range |]. split; [reflexivity |]. split; [reflexivity |].
  intros acc' Hle. unfold Decision._risk_score.
  destruct (String.eqb a_type ActionType.NO_OP); [apply Qle_refl |]. cbv zeta.
  apply max2_mono, min2_mono.
  apply Qplus_le_compat; [apply Qle_refl | exact Hle].
Qed.

Lemma risk_accumulation_range (h : Hyp) (ti : option string)
    (context : option Decision.Context) :
  (0 <= Decision._compute_risk_accumulation h ti context <= 25 # 100)%Q.
Proof.
  unfold Decision._compute_risk_accumulation.
  destruct context as [ctx|]; [| split; discriminate].
  destruct ti as [ti|]; [| split; discriminate].
  destruct (truthy_str ti); [| split; discriminate]. cbv zeta.
  destruct (Z.leb_spec (len (List.filter (Decision.repeats ti)
              (slice_last Decision.REPEATED_ISSUER_WINDOW (Decision.recent_causes ctx)))) 1)
    as [Hle|Hgt]; [split; discriminate |].
  split; [| apply min2_left].
  apply min2_glb; [discriminate |].
  apply Qmult_le_0_compat; [| discriminate].
  unfold Qle. cbn. lia.
Qed.

(** X13.  The risk accumulation is between 0 and 0.25.  It is 0 without a
    context or without a non-empty target, and it is positive only when at
    least two of the last five recent causes mention the target. *)
Theorem risk_accumulation_bounded (h : Hyp) (ti : option string)
    (context : option Decision.Context) :
  (0 <= Decision._compute_risk_accumulation h ti context <= 25 # 100)%Q /\
  Decision._compute_risk_accumulation h ti None = 0%Q /\
  (truthy_opt_str ti = false -> Decision._compute_risk_accumulation h ti context = 0%Q) /\
  (forall ctx t, context = Some ctx -> ti = Some t ->
     (0 < Decision._compute_risk_accumulation h ti context)%Q ->
     2 <= len (List.filter (Decision.repeats t)
                 (slice_last 5 (Decision.recent_causes ctx)))).
Proof.
  split; [apply risk_accumulation_range |].
  split; [reflexivity |]. split.
  - unfold Decision._compute_risk_accumulation.
    destruct context; [| reflexivity]. destruct ti as [s|]; [| reflexivity].
    cbn [truthy_opt_str]. now intros ->.
  - intros ctx t -> ->. unfold Decision._compute_risk_accumulation.
    destruct (truthy_str t); [| discriminate]. cbv zeta.
    change Decision.REPEATED_ISSUER_WINDOW with 5.
    destruct (Z.leb_spec (len (List.filter (Decision.repeats t)
                (slice_last 5 (Decision.recent_causes ctx)))) 1) as [Hle|Hgt];
      [discriminate | lia].
Qed.

Lemma dict_get_set {V} (d : dict V) (k : string) (v : V) :
  dict_get (dict_set d k v) k = Some v.
Proof.
  induction d as [|[k' v'] d IH]; cbn [dict_set dict_get].
  - now rewrite String.eqb_refl.
  - destruct (String.eqb k k') eqn:E; cbn [dict_get]; rewrite E; [reflexivity | exact IH].
Qed.

Lemma with_param_requires (a : Action) :
  Executor.requires_human_approval
    (Decision.with_param a "requires_human_approval" (VBool true)) = true.
Proof.
  unfold Executor.requires_human_approval, Decision.with_param. cbn [params].
  now rewrite dict_get_set.
Qed.

(** The action types [propose] can return, starting from the default no-op. *)
Lemma propose_types metrics h context force reasons why reasoning0 a r :
  Decision.propose metrics h context force reasons (Decision.no_op why) reasoning0
    = Ok (a, r) ->
  action_type a = ActionType.NO_OP \/ action_type a = ActionType.REROUTE \/
  action_type a = ActionType.RETRY_POLICY \/ action_type a = ActionType.SUPPRESS.
Proof.
  unfold Decision.propose.
  destruct (contains "ISSUER_" (upper (cause h)) && contains "_DEGRADATION" (upper (cause h))).
  - set (ti := match split "_" _ with [] => None | _ => Some _ end).
    assert (G : forall ti', 
      (if truthy_opt_str ti' then
         let risk_accum := Decision._compute_risk_accumulation h ti' context in
         let a0 := {| action_type := ActionType.REROUTE;
                      target := ti';
                      params := [("weight_reduce", VFloat (5 # 10))];
                      risk_score := Decision._risk_score h ActionType.REROUTE ti' risk_accum;
                      reason := "Reroute traffic from degraded issuer " +:+ str_opt ti' |} in
         let a1 := if force
                   then Decision.with_param a0 "requires_human_approval" (VBool true) else a0 in
         let r1 := if force
                   then reasoning0 +:+ Decision.forced_note reasons else reasoning0 in
         mret (a1, r1 +:+ "Issuer-level degradation detected; proposing reroute from "
                      +:+ str_opt ti' +:+ ".")
       else mret (Decision.no_op why, reasoning0)) = Ok (a, r) ->
      action_type a = ActionType.NO_OP \/ action_type a = ActionType.REROUTE \/
      action_type a = ActionType.RETRY_POLICY \/ action_type a = ActionType.SUPPRESS).
    { intros ti'. destruct (truthy_opt_str ti'); [destruct force |];
        intros [= <- _]; cbn; auto. }
    destruct (success_rate_by_issuer metrics) as [|x rest].
    + rewrite andb_false_r. cbn [mbind result_bind mret result_ret]. apply G.
    + destruct (negb (truthy_opt_str ti)); cbn [andb].
      * cbn [py_min_item mbind result_bind mret result_ret]. apply G.
      * cbn [mbind result_bind mret result_ret]. apply G.
  - cbv zeta.
    repeat match goal with
           | |- context [if ?b then _ else _] => destruct b
           end; intros [= <- _]; cbn; auto.
Qed.
Lemma finish_shape (h : Hyp) (context : option Decision.Context) (force : bool)
    (a1 : Action) (r1 : string) (now : Q) :
  let t := Decision.finish h context force a1 r1 now in
  hypothesis t = Some h /\
  trace_timestamp t = now /\
  trace_risk_score t = risk_score (action t) /\
  (0 <= risk_score (action t) <= 1)%Q /\
  (action_type (action t) = ActionType.NO_OP -> risk_score (action t) = 0%Q) /\
  (action_type (action t) = ActionType.NO_OP \/
   (action_type (action t) = action_type a1 /\ target (action t) = target a1)) /\
  (force = true -> action_type (action t) <> ActionType.NO_OP ->
   Executor.requires_human_approval (action t) = true) /\
  (forall ctx p, context = Some ctx -> Decision.pending_approval ctx = Some p ->
     action_type (action t) = pr_action_type p ->
     target (action t) = pr_target p ->
     action t = Decision.no_op "Waiting for human approval" \/
     action_type (action t) = ActionType.NO_OP).
Proof.
  cbv zeta. unfold Decision.finish.
  set (risk := Decision._risk_score h (action_type a1) (target a1) _).
  assert (Hrisk : (0 <= risk <= 1)%Q) by apply risk_score_range.
  assert (Hzero : action_type a1 = ActionType.NO_OP -> risk = 0%Q).
  { intros E. unfold risk, Decision._risk_score. now rewrite E. }
  cbv zeta. cbn [Decision.with_risk action_type target].
  set (is_op := negb (String.eqb (action_type a1) ActionType.NO_OP)).
  set (a3 := if force && is_op then _ else _).
  assert (H3 : action_type a3 = action_type a1 /\ target a3 = target a1 /\
               risk_score a3 = risk).
  { subst a3. destruct (force && is_op); cbn; auto. }
  destruct H3 as (Hty & Htg & Hrs).
  assert (Hreq : force = true -> is_op = true -> Executor.requires_human_approval a3 = true).
  { intros -> Hop. subst a3. rewrite Hop. cbn [andb]. apply with_param_requires. }
  assert (Hop : action_type a3 <> ActionType.NO_OP -> is_op = true).
  { rewrite Hty. intros Hne. subst is_op. apply negb_true_iff.
    now apply String.eqb_neq. }
  set (dup := match match context with Some ctx => Decision.pending_approval ctx | None => None end
              with Some p => _ | None => false end).
  destruct dup eqn:Edup.
  - cbn [hypothesis trace_timestamp trace_risk_score action].
    repeat split; try discriminate; auto.
  - cbn [hypothesis trace_timestamp trace_risk_score action].
    rewrite Hrs, Hty, Htg.
    split; [reflexivity |]. split; [reflexivity |]. split; [reflexivity |].
    split; [exact Hrisk |]. split; [exact Hzero |]. split; [now right |].
    split; [rewrite <- Hty; auto |].
    intros ctx p -> Hp Et Eg. right. subst dup. cbn in Edup. rewrite Hp in Edup.
    rewrite Hty, Et, String.eqb_refl, andb_true_r in Edup.
    rewrite Htg, (bool_decide_eq_true_2 _ Eg), andb_true_r in Edup.
    subst is_op. apply negb_false_iff, String.eqb_eq in Edup. congruence.
Qed.
Lemma decide_cases (metrics : WindowMetrics) (h : Hyp)
    (context : option Decision.Context) (now : Q) (t : DecisionTrace) :
  Decision.decide metrics h context now = Ok t ->
  (exists why, hypothesis t = Some h /\ trace_timestamp t = now /\
               action t = Decision.no_op why /\ trace_risk_score t = 0%Q) \/
  (Qltb (confidence h) Decision.MIN_CONFIDENCE_TO_ACT = false /\
   exists a1 r1 why,
     Decision.propose metrics h context
       (fst (Decision._should_force_human_handover metrics h context))
       (snd (Decision._should_force_human_handover metrics h context))
       (Decision.no_op why) (Decision.reasoning_prefix h) = Ok (a1, r1) /\
     t = Decision.finish h context
           (fst (Decision._should_force_human_handover metrics h context)) a1 r1 now).
Proof.
  unfold Decision.decide.
  destruct (truthy_str (cause h) && contains "INSUFFICIENT_SIGNAL" (upper (cause h))).
  { intros [= <-]. left. eexists. cbn. eauto. }
  cbv zeta.
  destruct (Qltb (confidence h) Decision.MIN_CONFIDENCE_TO_ACT).
  { intros [= <-]. left. eexists. cbn. eauto. }
  destruct (Decision._should_force_human_handover metrics h context) as [force reasons].
  cbn [fst snd].
  destruct (Decision.propose metrics h context force reasons _ _) as [[a1 r1]|] eqn:Hp;
    [| discriminate].
  cbn [mbind result_bind mret result_ret]. intros [= <-].
  right. split; [reflexivity |]. exists a1, r1. eexists. split; [exact Hp | reflexivity].
Qed.

(** X14.  [decide] returns a trace that records the hypothesis and the clock
    reading, and whose risk score is the risk of its action: a value in
    [0, 1], and 0 for a no-op.  The action is one of REROUTE, RETRY_POLICY,
    SUPPRESS and NO_OP, and a confidence below 0.6 always gives a no-op. *)
Theorem decide_trace_consistent (metrics : WindowMetrics) (h : Hyp)
    (context : option Decision.Context) (now : Q) :
  exists t,
    Decision.decide metrics h context now = Ok t /\
    hypothesis t = Some h /\
    trace_timestamp t = now /\
    trace_risk_score t = risk_score (action t) /\
    (0 <= risk_score (action t) <= 1)%Q /\
    (action_type (action t) = ActionType.NO_OP -> risk_score (action t) = 0%Q) /\
    (action_type (action t) = ActionType.NO_OP \/
     action_type (action t) = ActionType.REROUTE \/
     action_type (action t) = ActionType.RETRY_POLICY \/
     action_type (action t) = ActionType.SUPPRESS) /\
    ((confidence h < 6 # 10)%Q -> action_type (action t) = ActionType.NO_OP).
Proof.
  destruct (decide_total metrics h context now) as (t & Ht).
  exists t. split; [exact Ht |].
  destruct (decide_cases _ _ _ _ _ Ht) as [(why & Hh & Hts & Ha & Hr) | (Hconf & a1 & r1 & why & Hp & ->)].
  - rewrite Hh, Hts, Hr, Ha. cbn.
    repeat split; try discriminate; auto.
  - pose proof (finish_shape h context
                  (fst (Decision._should_force_human_handover metrics h context)) a1 r1 now)
      as (F1 & F2 & F3 & F4 & F5 & F6 & _).
    pose proof (propose_types _ _ _ _ _ _ _ _ _ Hp) as Hty.
    split; [exact F1 |]. split; [exact F2 |]. split; [exact F3 |].
    split; [exact F4 |]. split; [exact F5 |]. split.
    + destruct F6 as [F6 | [F6 _]]; [now left | now rewrite F6].
    + intros Hlt. apply Qltb_lt in Hlt.
      unfold Decision.MIN_CONFIDENCE_TO_ACT in Hconf. congruence.
Qed.

(** X15.  While an escalation is pending, [decide] never proposes the same
    action again: the action it returns is a no-op, or differs from the
    pending one in its type or its target. *)
Theorem decide_waits_for_pending (metrics : WindowMetrics) (h : Hyp)
    (ctx : Decision.Context) (p : PendingRecord) (now : Q) :
  Decision.pending_approval ctx = Some p ->
  exists t,
    Decision.decide metrics h (Some ctx) now = Ok t /\
    (action_type (action t) = ActionType.NO_OP \/
     action_type (action t) <> pr_action_type p \/
     target (action t) <> pr_target p).
Proof.
  intros Hp.
  destruct (decide_total metrics h (Some ctx) now) as (t & Ht).
  exists t. split; [exact Ht |].
  destruct (decide_cases _ _ _ _ _ Ht) as [(why & _ & _ & Ha & _) | (_ & a1 & r1 & why & _ & ->)].
  - left. now rewrite Ha.
  - pose proof (finish_shape h (Some ctx)
                  (fst (Decision._should_force_human_handover metrics h (Some ctx))) a1 r1 now)
      as (_ & _ & _ & _ & _ & _ & _ & F8).
    cbv zeta in F8. specialize (F8 ctx p eq_refl Hp).
    set (t := Decision.finish _ _ _ _ _ _) in *.
    destruct (String.eqb_spec (action_type (action t)) (pr_action_type p)) as [Et|Et];
      [| now right; left].
    destruct (decide (target (action t) = pr_target p)) as [Eg|Eg]; [| now right; right].
    left. destruct (F8 Et Eg) as [E | E]; [now rewrite E | exact E].
Qed.

Lemma force_triggers (metrics : WindowMetrics) (h : Hyp) (context : option Decision.Context) :
  (success_rate metrics < 65 # 100)%Q \/
  (exists ctx, context = Some ctx /\ 2 <= Decision.rollback_count ctx) \/
  (exists c, average_estimated_cost metrics = Some c /\ (5 # 100 <= c)%Q) \/
  (5 # 10 <= uncertainty h)%Q ->
  fst (Decision._should_force_human_handover metrics h context) = true.
Proof.
  intros H. unfold Decision._should_force_human_handover. cbv zeta. cbn [fst].
  set (b1 := Qltb (success_rate metrics) Decision.SEVERE_DEGRADATION_SUCCESS_RATE).
  set (rb := match context with Some ctx => Decision.rollback_count ctx | None => 0 end).
  set (b2 := Decision.ROLLBACK_COUNT_FORCE_HUMAN <=? rb).
  set (b5 := Qgeb (uncertainty h) Decision.UNCERTAINTY_HANDOVER_THRESHOLD).
  set (b3 := match average_estimated_cost metrics with
             | Some c => Qgeb c Decision.HIGH_COST_ESCALATION_THRESHOLD
             | None => false
             end).
  assert (Hany : b1 || b2 || b3 || b5 = true).
  { destruct H as [H | [(ctx & -> & H) | [(c & Hc & H) | H]]].
    - apply Qltb_lt in H. subst b1. unfold Decision.SEVERE_DEGRADATION_SUCCESS_RATE.
      now rewrite H.
    - subst b2 rb. apply Z.leb_le in H. unfold Decision.ROLLBACK_COUNT_FORCE_HUMAN.
      rewrite H. now rewrite orb_true_r.
    - subst b3. rewrite Hc. apply Qgeb_le in H.
      unfold Decision.HIGH_COST_ESCALATION_THRESHOLD. rewrite H.
      now rewrite orb_true_r.
    - subst b5. apply Qgeb_le in H. unfold Decision.UNCERTAINTY_HANDOVER_THRESHOLD.
      rewrite H. now rewrite orb_true_r. }
  assert (E3 : forall l : list string,
            match average_estimated_cost metrics with
            | Some avg_cost =>
                if Qgeb avg_cost Decision.HIGH_COST_ESCALATION_THRESHOLD
                then l ++ ["Economic risk (cost above escalation threshold)"]
                else l
            | None => l
            end = if b3 then l ++ ["Economic risk (cost above escalation threshold)"] else l).
  { intros l. subst b3. now destruct (average_estimated_cost metrics). }
  rewrite E3. clear E3.
  apply Z.ltb_lt. unfold len.
  destruct b1, b2, b3, b5; try discriminate Hany;
    repeat match goal with
           | |- context [if ?b then _ else _] => destruct b
           end;
    rewrite ?length_app; cbn [List.length]; lia.
Qed.

(** X16.  When a handover guardrail holds (success rate under 0.65, two or
    more rollbacks so far, average cost at or above 0.05, or an uncertainty
    of at least 0.5), every action other than a no-op that [decide] returns
    carries the approval flag, and [execute] does not apply it: it reports
    executed = false, sends nothing to the controlled system, leaves the
    active actions alone and stores the action as the pending escalation. *)
Theorem forced_handover_blocks_execution (metrics : WindowMetrics) (h : Hyp)
    (context : option Decision.Context) (now : Q) (t : DecisionTrace)
    (e : Executor.t) (tnow : Q) (w : Executor.World) :
  (success_rate metrics < 65 # 100)%Q \/
  (exists ctx, context = Some ctx /\ 2 <= Decision.rollback_count ctx) \/
  (exists c, average_estimated_cost metrics = Some c /\ (5 # 100 <= c)%Q) \/
  (5 # 10 <= uncertainty h)%Q ->
  Decision.decide metrics h context now = Ok t ->
  action_type (action t) <> ActionType.NO_OP ->
  Executor.requires_human_approval (action t) = true /\
  exists msg e' w',
    Executor.execute e t metrics tnow w = ((false, msg), e', w') /\
    Executor.sim_calls w' = Executor.sim_calls w /\
    Executor._active_actions e' = Executor._active_actions e /\
    pr_action <$> Executor._pending_escalation e' = Some (action t) /\
    Executor.pending_file w' = Executor._pending_escalation e'.
Proof.
  intros Hguard Ht Hop.
  pose proof (force_triggers metrics h context Hguard) as Hforce.
  assert (Hreq : Executor.requires_human_approval (action t) = true).
  { destruct (decide_cases _ _ _ _ _ Ht) as [(why & _ & _ & Ha & _) | (_ & a1 & r1 & why & _ & E)].
    - rewrite Ha in Hop. now elim Hop.
    - pose proof (finish_shape h context
                    (fst (Decision._should_force_human_handover metrics h context)) a1 r1 now)
        as (_ & _ & _ & _ & _ & _ & F7 & _).
      cbv zeta in F7. rewrite <- E in F7. now apply F7. }
  split; [exact Hreq |].
  unfold Executor.execute. cbv zeta.
  apply String.eqb_neq in Hop. rewrite Hop, Hreq.
  cbn. do 3 eexists. split; [reflexivity |]. cbn. auto.
Qed.
Lemma decide_waits_for_pending_witness :
  exists t,
    Decision.decide Cases.issuer_down SampleRun.hdfc_down (Some Cases.waiting) 0 = Ok t /\
    (action_type (action t) = ActionType.NO_OP \/
     action_type (action t) <> pr_action_type
       (Executor.pending_of (SampleExec.reroute "HDFC" (363 # 1000) false)
                            "High risk; human approval required" 100) \/
     target (action t) <> pr_target
       (Executor.pending_of (SampleExec.reroute "HDFC" (363 # 1000) false)
                            "High risk; human approval required" 100)).
Proof.
  apply (decide_waits_for_pending Cases.issuer_down SampleRun.hdfc_down Cases.waiting).
  reflexivity.
Defined.

Lemma forced_handover_blocks_execution_witness :
  exists t,
    Decision.decide (SampleExec.metrics (6 # 10) 300) SampleRun.hdfc_down None 0 = Ok t /\
    Executor.requires_human_approval (action t) = true.
Proof.
  assert (H : exists t,
             Decision.decide (SampleExec.metrics (6 # 10) 300) SampleRun.hdfc_down None 0 = Ok t /\
             action_type (action t) <> ActionType.NO_OP).
  { eexists. split; [vm_compute; reflexivity | vm_compute; discriminate]. }
  destruct H as (t & Ht & Hop).
  assert (Hg : (success_rate (SampleExec.metrics (6 # 10) 300) < 65 # 100)%Q) by reflexivity.
  destruct (forced_handover_blocks_execution (SampleExec.metrics (6 # 10) 300)
              SampleRun.hdfc_down None 0 t SampleExec.executor0 0 SampleExec.world0
              (or_introl Hg) Ht Hop) as [Hreq _].
  exists t. split; [exact Ht | exact Hreq].
Defined.

(** ** More of the Executor *)

Lemma apply_action_sends (e : Executor.t) (trace : DecisionTrace) (w : Executor.World) :
  fst (Executor._apply_action e trace w) = true /\
  Executor.pending_file (snd (Executor._apply_action e trace w)) = Executor.pending_file w /\
  (Executor._simulator_control e = false -> snd (Executor._apply_action e trace w) = w) /\
  exists extra,
    Executor.sim_calls (snd (Executor._apply_action e trace w)) = Executor.sim_calls w ++ extra /\
    (List.length extra <= 1)%nat.
Proof.
  unfold Executor._apply_action. cbv zeta.
  destruct (Executor._simulator_control e).
  - assert (Hw : exists extra, Executor.sim_calls w = Executor.sim_calls w ++ extra /\
                               (List.length extra <= 1)%nat).
    { exists []. rewrite app_nil_r. split; [reflexivity |]. cbn. lia. }
    destruct (String.eqb _ ActionType.REROUTE && _).
    + destruct (target (action trace)); cbn; repeat split; try discriminate; eauto.
    + destruct (String.eqb _ ActionType.RETRY_POLICY);
        [| destruct (String.eqb _ ActionType.SUPPRESS)];
        cbn; repeat split; try discriminate; eauto.
  - cbn. repeat split. exists []. rewrite app_nil_r. split; [reflexivity |]. cbn. lia.
Qed.

(** X17.  An action that is no no-op, carries no approval flag and has a
    risk under 0.45 is executed: [execute] reports executed = true, appends
    the trace to the active actions, records the baseline only when no other
    action was active, sends at most one command (none without an installed
    callback), and leaves the pending escalation, the pending file and the
    rollback log as they were. *)
Theorem execute_low_risk_applies (e : Executor.t) (trace : DecisionTrace)
    (m : WindowMetrics) (now : Q) (w : Executor.World) :
  action_type (action trace) <> ActionType.NO_OP ->
  Executor.requires_human_approval (action trace) = false ->
  (risk_score (action trace) < 45 # 100)%Q ->
  exists msg e' w',
    Executor.execute e trace m now w = ((true, msg), e', w') /\
    Executor._active_actions e' =
      Executor._active_actions e ++
        [(trace, {| Executor.applied_at := now; Executor.meta_status := "executed" |})] /\
    Executor._baseline_metrics e' =
      match Executor._active_actions e with
      | [] => Some m
      | _ => Executor._baseline_metrics e
      end /\
    Executor._pending_escalation e' = Executor._pending_escalation e /\
    Executor.pending_file w' = Executor.pending_file w /\
    Executor._rollback_log e' = Executor._rollback_log e /\
    Executor._execution_log e' = Executor._execution_log e ++ [msg] /\
    (Executor._simulator_control e = false -> w' = w) /\
    exists extra,
      Executor.sim_calls w' = Executor.sim_calls w ++ extra /\ (List.length extra <= 1)%nat.
Proof.
  intros Hop Hreq Hrisk. unfold Executor.execute. cbv zeta.
  apply String.eqb_neq in Hop. rewrite Hop, Hreq.
  assert (Hlow : Qgeb (risk_score (action trace)) Executor.AUTO_EXECUTE_RISK_THRESHOLD = false).
  { apply not_true_iff_false. intros H. apply Qgeb_le in H.
    apply (Qlt_not_le _ _ Hrisk H). }
  rewrite Hlow.
  set (e1 := match Executor._active_actions e with
             | [] => Executor.set_baseline (Some m) e
             | _ => e
             end).
  assert (H1 : Executor._active_actions e1 = Executor._active_actions e /\
               Executor._pending_escalation e1 = Executor._pending_escalation e /\
               Executor._rollback_log e1 = Executor._rollback_log e /\
               Executor._execution_log e1 = Executor._execution_log e /\
               Executor._simulator_control e1 = Executor._simulator_control e /\
               Executor._baseline_metrics e1 =
                 match Executor._active_actions e with
                 | [] => Some m
                 | _ => Executor._baseline_metrics e
                 end).
  { subst e1. destruct (Executor._active_actions e) eqn:Ea; cbn; rewrite ?Ea; repeat split. }
  destruct H1 as (A1 & A2 & A3 & A4 & A5 & A6).
  pose proof (apply_action_sends e1 trace w) as (S1 & S2 & S3 & S4).
  destruct (Executor._apply_action e1 trace w) as [applied w1].
  cbn [fst snd] in S1, S2, S3, S4. subst applied.
  do 3 eexists. split; [reflexivity |]. cbn.
  rewrite A1, A2, A3, A4, A6, A5 in *. auto 10.
Qed.

Lemma execute_low_risk_applies_witness :
  exists msg e' w',
    Executor.execute SampleExec.executor0
      (SampleExec.trace_of (SampleExec.reroute "HDFC" (363 # 1000) false))
      (SampleExec.metrics (9 # 10) 300) 100 SampleExec.world0 = ((true, msg), e', w') /\
    Executor._baseline_metrics e' = Some (SampleExec.metrics (9 # 10) 300).
Proof.
  assert (Hop : action_type (action (SampleExec.trace_of
                  (SampleExec.reroute "HDFC" (363 # 1000) false))) <> ActionType.NO_OP)
    by (vm_compute; discriminate).
  assert (Hreq : Executor.requires_human_approval (action (SampleExec.trace_of
                   (SampleExec.reroute "HDFC" (363 # 1000) false))) = false) by reflexivity.
  assert (Hrisk : (risk_score (action (SampleExec.trace_of
                    (SampleExec.reroute "HDFC" (363 # 1000) false))) < 45 # 100)%Q)
    by reflexivity.
  destruct (execute_low_risk_applies SampleExec.executor0
              (SampleExec.trace_of (SampleExec.reroute "HDFC" (363 # 1000) false))
              (SampleExec.metrics (9 # 10) 300) 100 SampleExec.world0 Hop Hreq Hrisk)
    as (msg & e' & w' & He & _ & Hb & _).
  exists msg, e', w'. split; [exact He | exact Hb].
Defined.

Lemma check_rollback_settles_count (e : Executor.t) (cur : WindowMetrics) (w : Executor.World) :
  Executor.get_rollback_count (snd (fst (Executor.check_rollback e cur w))) =
  Executor.get_rollback_count e + len (fst (fst (Executor.check_rollback e cur w))).
Proof.
  unfold Executor.check_rollback, Executor.get_rollback_count.
  destruct (Executor._active_actions e) as [|a0 rest] eqn:Ea.
  { unfold len. cbn. lia. }
  destruct (Executor._baseline_metrics e) as [base|] eqn:Eb.
  2:{ unfold len. cbn. lia. }
  destruct (_ || _) eqn:Hreg.
  - rewrite rollback_all_spec. cbn.
    unfold len. rewrite !length_app. cbn [List.length app]. lia.
  - unfold len. cbn. lia.
Qed.

(** X18.  [check_rollback] does nothing when no action is active or no
    baseline is stored.  In every case the rollback count grows by the number
    of messages returned, the execution log and the pending escalation are
    untouched, and a second call with the same metrics finds nothing left to
    roll back and changes nothing. *)
Theorem check_rollback_settles (e : Executor.t) (cur : WindowMetrics) (w : Executor.World) :
  let '(rollbacks, e', w') := Executor.check_rollback e cur w in
  ((Executor._active_actions e = [] \/ Executor._baseline_metrics e = None) ->
   rollbacks = [] /\ e' = e /\ w' = w) /\
  Executor.get_rollback_count e' = Executor.get_rollback_count e + len rollbacks /\
  Executor._execution_log e' = Executor._execution_log e /\
  Executor._pending_escalation e' = Executor._pending_escalation e /\
  Executor.check_rollback e' cur w' = ([], e', w').
Proof.
  unfold Executor.check_rollback, Executor.get_rollback_count.
  destruct (Executor._active_actions e) as [|a0 rest] eqn:Ea.
  { rewrite Ea. unfold len. cbn. repeat split; lia. }
  destruct (Executor._baseline_metrics e) as [base|] eqn:Eb.
  2:{ rewrite Ea, Eb. unfold len. cbn. repeat split; lia. }
  destruct (_ || _) eqn:Hreg.
  - rewrite rollback_all_spec. cbn.
    split; [intros [H | H]; discriminate |].
    unfold len. rewrite !length_app. cbn [List.length app].
    repeat split. lia.
  - rewrite Ea, Eb, Hreg. unfold len. cbn.
    split; [intros [H | H]; discriminate |]. repeat split. lia.
Qed.
(** X19.  With no escalation in memory, [check_and_apply_approval] never
    applies anything and reports nothing processed, even when the file on
    disk says approved or rejected: the file and the controlled system are
    left alone, and the only change is that a record whose status is still
    pending is adopted as the pending escalation.  With an escalation in
    memory but no file, the escalation is dropped and nothing is applied. *)
Theorem approval_needs_pending_record (e : Executor.t) (metrics : WindowMetrics) (now : Q)
    (w : Executor.World) :
  let '(res, e', w') := Executor.check_and_apply_approval e metrics now w in
  (Executor._pending_escalation e = None ->
   res = (false, None, None) /\ w' = w /\
   Executor._active_actions e' = Executor._active_actions e /\
   Executor._baseline_metrics e' = Executor._baseline_metrics e /\
   Executor._execution_log e' = Executor._execution_log e /\
   Executor._pending_escalation e' =
     match Executor.pending_file w with
     | Some d => if String.eqb (status d) "pending" then Some d else None
     | None => None
     end) /\
  (Executor.pending_file w = None ->
   res = (false, None, None) /\ w' = w /\
   Executor._pending_escalation e' = None /\
   Executor._active_actions e' = Executor._active_actions e /\
   Executor._baseline_metrics e' = Executor._baseline_metrics e).
Proof.
  unfold Executor.check_and_apply_approval, Executor.read_pending_approval.
  destruct (Executor._pending_escalation e) as [p|] eqn:Ep.
  - destruct (Executor.pending_file w) as [d|] eqn:Ed.
    + cbv zeta.
      destruct (String.eqb (status d) "approved").
      * destruct (Executor._apply_action _ _ w) as [ok w1].
        split; [discriminate | discriminate].
      * destruct (String.eqb (status d) "rejected");
          (split; [discriminate | discriminate]).
    + cbn. split; [discriminate |]. intros _. repeat split.
  - destruct (Executor.pending_file w) as [d|] eqn:Ed.
    + destruct (String.eqb_spec (status d) "pending") as [Es|Es].
      * cbv zeta. rewrite Es. cbn.
        split; [| discriminate]. intros _. repeat split.
      * cbn.
        split; [| discriminate]. intros _. repeat split. exact Ep.
    + cbn. split; intros _; repeat split; exact Ep.
Qed.

Lemma answered_status (st : string) (p : PendingRecord) (w : Executor.World) :
  Executor.pending_file w = Some p ->
  exists d, Executor.pending_file (SampleExec.answered st w) = Some d /\
            status d = st /\ pr_action d = pr_action p /\
            Executor.sim_calls (SampleExec.answered st w) = Executor.sim_calls w.
Proof. intros H. unfold SampleExec.answered. rewrite H. cbn. eauto. Qed.

(** X20.  Escalation and answer compose.  After [execute] has escalated an
    action (approval flag set, or risk at or above 0.45), polling while the
    file still says pending changes nothing; once the human has set the
    status to approved, [check_and_apply_approval] returns exactly the
    escalated action, adds it to the active actions with the metrics of that
    moment as the baseline, and clears the slot and the file; once the
    status is rejected it returns no action, applies nothing and clears the
    slot and the file. *)
Theorem escalation_then_answer (e : Executor.t) (trace : DecisionTrace)
    (m m2 : WindowMetrics) (now now2 : Q) (w : Executor.World) :
  action_type (action trace) <> ActionType.NO_OP ->
  Executor.requires_human_approval (action trace) = true \/
  (45 # 100 <= risk_score (action trace))%Q ->
  let '(_, e1, w1) := Executor.execute e trace m now w in
  Executor.check_and_apply_approval e1 m2 now2 w1 = ((false, None, None), e1, w1) /\
  (let '((processed, _, approved), e2, w2) :=
     Executor.check_and_apply_approval e1 m2 now2 (SampleExec.answered "approved" w1) in
   processed = true /\ approved = Some (action trace) /\
   map (fun tm => action (fst tm)) (Executor._active_actions e2) =
     map (fun tm => action (fst tm)) (Executor._active_actions e) ++ [action trace] /\
   Executor._baseline_metrics e2 = Some m2 /\
   Executor._pending_escalation e2 = None /\
   Executor.pending_file w2 = None) /\
  (let '((processed, _, approved), e2, w2) :=
     Executor.check_and_apply_approval e1 m2 now2 (SampleExec.answered "rejected" w1) in
   processed = true /\ approved = None /\
   Executor._active_actions e2 = Executor._active_actions e /\
   Executor._baseline_metrics e2 = Executor._baseline_metrics e /\
   Executor.sim_calls w2 = Executor.sim_calls w /\
   Executor._pending_escalation e2 = None /\
   Executor.pending_file w2 = None).
Proof.
  intros Hop Hesc.
  assert (Hex : exists msg why,
            Executor.execute e trace m now w =
            ((false, msg),
             Executor.set_pending (Some (Executor.pending_of (action trace) why now))
               (Executor.log_execution msg e),
             Executor.write_pending_approval
               (Some (Executor.pending_of (action trace) why now)) w)).
  { unfold Executor.execute. cbv zeta.
    apply String.eqb_neq in Hop. rewrite Hop.
    destruct (Executor.requires_human_approval (action trace)) eqn:Hreq.
    - cbn. eauto.
    - destruct Hesc as [H | H]; [discriminate |].
      apply Qgeb_le in H. unfold Executor.AUTO_EXECUTE_RISK_THRESHOLD. rewrite H.
      cbn. eauto. }
  destruct Hex as (msg & why & ->).
  set (p := Executor.pending_of (action trace) why now).
  split; [reflexivity |]. split.
  - unfold Executor.check_and_apply_approval, Executor.read_pending_approval. cbn.
    match goal with
    | |- context [Executor._apply_action ?e0 ?t0 ?w0] =>
        pose proof (apply_action_sends e0 t0 w0) as (S1 & _);
        destruct (Executor._apply_action e0 t0 w0) as [ok w1]
    end.
    cbn [fst] in S1. subst ok. cbn.
    rewrite map_app. cbn. repeat split.
  - unfold Executor.check_and_apply_approval, Executor.read_pending_approval. cbn.
    repeat split.
Qed.

Lemma escalation_then_answer_witness :
  let '(_, e1, w1) :=
    Executor.execute SampleExec.executor0
      (SampleExec.trace_of (SampleExec.reroute "HDFC" (5 # 10) false))
      (SampleExec.metrics (9 # 10) 300) 100 SampleExec.world0 in
  Executor.check_and_apply_approval e1 (SampleExec.metrics (9 # 10) 300) 101 w1
  = ((false, None, None), e1, w1).
Proof.
  assert (Hop : action_type (action (SampleExec.trace_of
                  (SampleExec.reroute "HDFC" (5 # 10) false))) <> ActionType.NO_OP)
    by (vm_compute; discriminate).
  assert (Hrisk : (45 # 100 <= risk_score (action (SampleExec.trace_of
                     (SampleExec.reroute "HDFC" (5 # 10) false))))%Q)
    by (vm_compute; discriminate).
  pose proof (escalation_then_answer SampleExec.executor0
                (SampleExec.trace_of (SampleExec.reroute "HDFC" (5 # 10) false))
                (SampleExec.metrics (9 # 10) 300) (SampleExec.metrics (9 # 10) 300)
                100 101 SampleExec.world0 Hop (or_intror Hrisk)) as H.
  destruct (Executor.execute _ _ _ _ _) as [[r e1] w1].
  exact (proj1 H).
Defined.
(** ** More of the Learner *)

Lemma slice_last_last {A} (k : Z) (l : list A) (x : A) :
  0 < k -> last (slice_last k (l ++ [x])) = Some x.
Proof.
  intros Hk. rewrite slice_last_pos by exact Hk.
  rewrite last_lookup, length_drop, lookup_drop, length_app. cbn [List.length].
  unfold len. rewrite length_app. cbn [List.length].
  replace (Z.to_nat (Z.of_nat (List.length l + 1) - k) +
           Nat.pred (List.length l + 1 - Z.to_nat (Z.of_nat (List.length l + 1) - k)))%nat
    with (List.length l + 0)%nat by lia.
  rewrite lookup_app_r by lia. now replace (List.length l + 0 - List.length l)%nat with 0%nat by lia.
Qed.

(** X21.  The outcome memory is bounded: if it holds at most 500 records it
    still does after [record_outcome].  When a decision context is pending,
    the new record is the newest entry, the older entries that remain keep
    their order, and the memory never exceeds 500 whatever its size was. *)
Theorem outcome_memory_bounded (l : Learner.t) (m : WindowMetrics) (rb : bool) :
  len (Learner._outcomes l) <= 500 ->
  let l' := Learner.record_outcome l m rb in
  len (Learner._outcomes l') <= 500 /\
  (forall before a,
     Learner._context_before_action l = Some before ->
     Learner._action_pending l = Some a ->
     exists rec,
       last (Learner._outcomes l') = Some rec /\
       Learner.or_action rec = a /\
       Learner.rollback_applied rec = rb /\
       Learner._outcomes l' `suffix_of` (Learner._outcomes l ++ [rec]) /\
       len (Learner._outcomes l') = Z.min 500 (len (Learner._outcomes l) + 1)).
Proof.
  intros Hinv l'. subst l'. unfold Learner.record_outcome.
  destruct (Learner._context_before_action l) as [before|];
    [| split; [exact Hinv | discriminate]].
  destruct (Learner._action_pending l) as [a|];
    [| split; [exact Hinv | discriminate]].
  cbv zeta.
  destruct (Learner._evaluate_helped before (Learner._metrics_snapshot m) rb) as [h score].
  cbn [Learner._outcomes].
  set (rec := {| Learner.context_snapshot := before; Learner.or_action := a;
                 Learner.outcome_metrics := Learner._metrics_snapshot m;
                 Learner.helped := h; Learner.rollback_applied := rb |}).
  assert (Hlen : len (Learner._outcomes l ++ [rec]) = len (Learner._outcomes l) + 1).
  { unfold len. rewrite length_app. cbn. lia. }
  change Learner.MAX_OUTCOME_RECORDS with 500.
  destruct (Z.ltb_spec 500 (len (Learner._outcomes l ++ [rec]))) as [Hgt|Hle].
  - split; [rewrite slice_last_len by lia; lia |].
    intros before' a' [= <-] [= <-]. exists rec.
    split; [apply slice_last_last; lia |].
    split; [reflexivity |]. split; [reflexivity |].
    split; [apply slice_last_suffix |].
    rewrite slice_last_len by lia. lia.
  - split; [lia |].
    intros before' a' [= <-] [= <-]. exists rec.
    split; [apply last_snoc |].
    split; [reflexivity |]. split; [reflexivity |].
    split; [reflexivity |]. lia.
Qed.

Lemma outcome_memory_bounded_witness :
  len (Learner._outcomes
         (Learner.record_outcome SampleExec.learning (SampleExec.metrics (9 # 10) 300) false))
  <= 500.
Proof.
  assert (H : len (Learner._outcomes SampleExec.learning) <= 500) by (vm_compute; discriminate).
  exact (proj1 (outcome_memory_bounded SampleExec.learning
                  (SampleExec.metrics (9 # 10) 300) false H)).
Defined.

Lemma filter_split_len {A} (p q : A -> bool) (l : list A) :
  (forall x, p x = true -> q x = true -> False) ->
  (List.length (List.filter p l) + List.length (List.filter q l) <= List.length l)%nat.
Proof.
  intros Hpq. induction l as [|x l IH]; cbn; [lia |].
  destruct (p x) eqn:Ep, (q x) eqn:Eq; cbn; try lia.
  exfalso. eapply Hpq; eauto.
Qed.

(** X22.  The learning summary counts the last 20 outcomes: helped, hurt and
    neutral are non-negative and add up to the number of recent outcomes,
    which is at most 20; hurt counts exactly the rolled-back outcomes, and
    at most 5 of them are listed. *)
Theorem learning_state_counts (l : Learner.t) :
  let s := LearnerState.get_learning_state l in
  let recent := Learner.get_recent_outcomes l 20 in
  0 <= LearnerState.ls_helped s /\
  0 <= LearnerState.ls_hurt s /\
  0 <= LearnerState.ls_neutral s /\
  LearnerState.ls_helped s + LearnerState.ls_hurt s + LearnerState.ls_neutral s = len recent /\
  len recent = Z.min 20 (len (Learner._outcomes l)) /\
  LearnerState.ls_hurt s = len (List.filter Learner.rollback_applied recent) /\
  len (LearnerState.ls_recent_rollbacks s) = Z.min 5 (LearnerState.ls_hurt s).
Proof.
  cbv zeta. unfold LearnerState.get_learning_state. cbv zeta.
  cbn [LearnerState.ls_helped LearnerState.ls_hurt LearnerState.ls_neutral
       LearnerState.ls_recent_rollbacks].
  set (recent := Learner.get_recent_outcomes l 20).
  pose proof (filter_split_len
                (fun r => Learner.helped r && negb (Learner.rollback_applied r))
                Learner.rollback_applied recent) as Hsplit.
  assert (Hdis : (List.length (List.filter
                    (fun r => Learner.helped r && negb (Learner.rollback_applied r)) recent)
                  + List.length (List.filter Learner.rollback_applied recent)
                  <= List.length recent)%nat).
  { apply Hsplit. intros x Hp Hq. rewrite Hq, andb_false_r in Hp. discriminate. }
  assert (Hrecent : len recent = Z.min 20 (len (Learner._outcomes l))).
  { subst recent. unfold Learner.get_recent_outcomes. apply slice_last_len. lia. }
  rewrite slice_last_len by lia.
  unfold len in *. rewrite length_map.
  repeat split; lia.
Qed.
(** ** More of the Orchestrator *)

Lemma write_action_dedup_spec (a : Agent.t) (mk : bool -> Agent.ActionWrite) (w : Agent.World) :
  exists b : bool,
    Agent.write_action_dedup a mk w =
      (if b then Agent.set_last_written_action_key (Some (Agent.written_key (mk true))) a else a,
       Agent.publish (Agent.PubAction (mk b)) w) /\
    b = negb (bool_decide (Some (Agent.written_key (mk true)) = Agent._last_written_action_key a)).
Proof. eexists. split; reflexivity. Qed.

Lemma trim_causes_len (k : Z) (l : list Decision.CauseEntry) (c : Decision.CauseEntry) :
  1 <= k -> len l <= k ->
  len (if k <? len (l ++ [c]) then slice_last k (l ++ [c]) else l ++ [c]) <= k.
Proof.
  intros Hk Hl. destruct (Z.ltb_spec k (len (l ++ [c]))) as [H|H]; [| exact H].
  rewrite slice_last_len by lia. lia.
Qed.

Lemma published_control (a : Agent.t) (m : WindowMetrics) (ts : Q) (c : bool) (w : Agent.World) :
  exists cw,
    Agent.published (Agent._write_control_state a m ts c w) =
      Agent.published w ++ [Agent.PubControl cw] /\
    Agent.cw_ts cw = ts.
Proof. eexists. split; reflexivity. Qed.

Lemma published_shape {A} (L l rest : list A) (x c : A) :
  L = ((l ++ [x]) ++ rest) ++ [c] -> L = l ++ x :: rest ++ [c].
Proof. intros ->. now rewrite <- !app_assoc. Qed.

Lemma published_shape_nil {A} (L l : list A) (x c : A) :
  L = (l ++ [x]) ++ [c] -> L = l ++ x :: [] ++ [c].
Proof. intros ->. now rewrite <- !app_assoc. Qed.

Ltac agent_cbn :=
  cbn -[format_fixed format_percent str_int join slice_last len
        LearnerState.get_learning_state Agent.system_mode
        Agent._explain_what_changed Agent._explain_why_action_now
        Learner.record_decision_context Learner.cancel_pending Learner.record_outcome
        String.eqb truthy_opt_str Z.add Z.sub Z.ltb Z.leb Qplus Qmult inject_Z].

Ltac act_fields :=
  split; [reflexivity |]; split; [reflexivity |]; split; [reflexivity |];
  split; [reflexivity |].

Ltac act_control :=
  cbn [fst snd];
  match goal with
  | |- context [Agent._write_control_state ?a0 ?m0 ?t0 ?c0 ?w0] =>
      let cw := fresh "cw" in
      let Hts := fresh "Hts" in
      destruct (published_control a0 m0 t0 c0 w0) as (cw & -> & Hts);
      eexists; eexists; exists cw;
      split; [| split; [exact Hts | split]]
  end.

Ltac act_published :=
  act_control; [apply published_shape_nil; reflexivity | | now left].

Ltac act_published_clear :=
  act_control; [apply published_shape; reflexivity | | now right].

Lemma act_shape (a : Agent.t) (metrics : WindowMetrics) (h : Hyp) (trace : DecisionTrace)
    (ts now : Q) (w : Agent.World) :
  let r := Agent.act a metrics h trace ts now w in
  Agent._cycle_count (fst r) = Agent._cycle_count a /\
  Agent._max_recent_causes (fst r) = Agent._max_recent_causes a /\
  Agent._cooldown_cycles (fst r) = Agent._cooldown_cycles a /\
  Agent._recent_causes (fst r) =
    (let causes := Agent._recent_causes a
                   ++ [Decision.CauseDict (Some (cause h)) (target (action trace))] in
     if Agent._max_recent_causes a <? len causes
     then slice_last (Agent._max_recent_causes a) causes else causes) /\
  exists aw rest cw,
    Agent.published (snd r) =
      Agent.published w ++ Agent.PubAction aw :: rest ++ [Agent.PubControl cw] /\
    Agent.cw_ts cw = ts /\
    Agent.aw_action_type aw = action_type (action trace) /\
    (rest = [] \/ rest = [Agent.SimClearFailureMode]).
Proof.
  cbv zeta. unfold Agent.act. cbv zeta.
  destruct (String.eqb_spec (action_type (action trace)) ActionType.NO_OP) as [Eno|Eno].
  - match goal with
    | |- context [Agent.write_action_dedup ?a0 ?mk ?w0] =>
        destruct (write_action_dedup_spec a0 mk w0) as (b & -> & _)
    end.
    destruct b; act_fields; act_published; now rewrite Eno.
  - destruct (_ || _).
    + match goal with
      | |- context [Agent.write_action_dedup ?a0 ?mk ?w0] =>
          destruct (write_action_dedup_spec a0 mk w0) as (b & -> & _)
      end.
      destruct b; act_fields; act_published; reflexivity.
    + destruct (Executor.execute _ _ _ _ _) as [[[executed msg] ex] xw].
      match goal with
      | |- context [Agent.write_action_dedup ?a0 ?mk ?w0] =>
          destruct (write_action_dedup_spec a0 mk w0) as (b & -> & _)
      end.
      destruct executed.
      * destruct (String.eqb (action_type (action trace)) "reroute"
                  && truthy_opt_str (target (action trace)));
          destruct b; act_fields.
        1,2: act_published_clear; reflexivity.
        1,2: act_published; reflexivity.
      * destruct b; act_fields; act_published; reflexivity.
Qed.
Lemma heuristic_total (m : WindowMetrics) : exists h, Reasoner._heuristic_hypothesis m = Ok h.
Proof.
  rewrite heuristic_rules. destruct (sample_count m <? _); [eauto |].
  destruct (issuer_rule_settled m) as (st0 & -> & H0). cbn [mbind result_bind].
  destruct (conclude_settled m _ (rules_settled m st0 H0)) as (h & Hh & _). eauto.
Qed.

Lemma reason_total (llm_h : option Reasoner.LlmAnswer) (m : WindowMetrics) :
  exists h, Reasoner.reason llm_h m = Ok h.
Proof.
  unfold Reasoner.reason. destruct llm_h as [a|]; [| apply heuristic_total].
  destruct (Qgtb _ 0); [| apply heuristic_total].
  destruct (Reasoner.llm_uncertainty a) as [u|]; [cbn; eauto |].
  destruct (uncertainty_range (Reasoner.llm_cause a) (Reasoner.llm_confidence a)
              [Reasoner.llm_evidence a] m) as (u & -> & _).
  cbn. eauto.
Qed.

Ltac cycle_fields :=
  split; [reflexivity |]; split; [reflexivity |].

(** X23.  With state-file writes that succeed (a failing write is not
    modelled), [run_cycle] completes: no step of the cycle itself raises,
    the Reasoner's fallback included.  Every cycle advances the cycle
    counter by one, publishes the hypothesis first (the caller's, when one
    is given) and the control state last, both stamped with the cycle's
    timestamp, and keeps the list of recent causes within its bound. *)
Theorem run_cycle_progress (a : Agent.t) (metrics : WindowMetrics) (hypothesis : option Hyp)
    (llm_h : option Reasoner.LlmAnswer) (ts now : Q) (w : Agent.World) :
  exists a' w' h rest cw,
    Agent.run_cycle a metrics hypothesis llm_h ts now w = Ok (a', w') /\
    Agent._cycle_count a' = Agent._cycle_count a + 1 /\
    Agent._max_recent_causes a' = Agent._max_recent_causes a /\
    Agent.published w' =
      Agent.published w ++ Agent.PubHypothesis h ts :: rest ++ [Agent.PubControl cw] /\
    Agent.cw_ts cw = ts /\
    (forall h0, hypothesis = Some h0 -> h = h0) /\
    (1 <= Agent._max_recent_causes a ->
     len (Agent._recent_causes a) <= Agent._max_recent_causes a ->
     len (Agent._recent_causes a') <= Agent._max_recent_causes a).
Proof.
  assert (Hh : exists h,
             match hypothesis with
             | Some h => mret h
             | None => Reasoner.reason llm_h metrics
             end = Ok h /\ (forall h0, hypothesis = Some h0 -> h = h0)).
  { destruct hypothesis as [h|].
    - exists h. split; [reflexivity | now intros h0 [= <-]].
    - destruct (reason_total llm_h metrics) as (h & Hh). exists h. split; [exact Hh | discriminate]. }
  destruct Hh as (h & Hh & Hgiven).
  unfold Agent.run_cycle. cbv zeta. rewrite Hh. cbn [mbind result_bind].
  set (a0 := Agent.set_last_action_executed false (Agent.set_cycle_count _ a)).
  set (a1 := match Agent._cooldown_until_cycle a0 with
             | Some c => if c <? Agent._cycle_count a0
                         then Agent.set_cooldown_until_cycle None a0 else a0
             | None => a0
             end).
  assert (H1 : Agent._cycle_count a1 = Agent._cycle_count a + 1 /\
               Agent._max_recent_causes a1 = Agent._max_recent_causes a /\
               Agent._recent_causes a1 = Agent._recent_causes a).
  { subst a1 a0. cbn [Agent._cooldown_until_cycle Agent.set_last_action_executed
                      Agent.set_cycle_count].
    destruct (Agent._cooldown_until_cycle a) as [c|]; [destruct (c <? _) |];
      repeat split. }
  destruct H1 as (Hcc & Hmax & Hrc). clearbody a1. clear a0.
  destruct (Executor.check_and_apply_approval _ _ _ _) as [[[[approved amsg] aa] ex] xw].
  destruct approved.
  - match goal with
    | |- context [Agent._write_control_state ?a2 ?m0 ?t0 ?c0 ?w0] =>
        destruct (published_control a2 m0 t0 c0 w0) as (cw & Hpub & Hts);
        exists a2, (Agent._write_control_state a2 m0 t0 c0 w0), h, [], cw;
        assert (H2 : Agent._cycle_count a2 = Agent._cycle_count a1 /\
                     Agent._max_recent_causes a2 = Agent._max_recent_causes a1 /\
                     Agent._recent_causes a2 = Agent._recent_causes a1)
    end.
    { destruct amsg as [m0|], aa as [act0|]; try destruct (contains "APPROVED" m0);
        repeat split. }
    destruct H2 as (Ecc & Emax & Erc).
    split; [reflexivity |]. rewrite Ecc, Emax, Erc, Hcc, Hmax, Hrc.
    split; [reflexivity |]. split; [reflexivity |].
    split; [rewrite Hpub; apply published_shape_nil; reflexivity |].
    split; [exact Hts |]. split; [exact Hgiven | auto].
  - destruct (match Executor.get_escalation_state (Agent.executor a1) with
              | Some p => if active p then Some p else None
              | None => None
              end) as [p|].
    + match goal with
      | |- context [Agent._write_control_state ?a2 ?m0 ?t0 ?c0 ?w0] =>
          destruct (published_control a2 m0 t0 c0 w0) as (cw & Hpub & Hts);
          exists a2, (Agent._write_control_state a2 m0 t0 c0 w0), h,
                 [Agent.PubMetrics metrics ts], cw
      end.
      split; [reflexivity |].
      cbn [Agent._cycle_count Agent._max_recent_causes Agent._recent_causes Agent.set_executor].
      rewrite Hcc, Hmax, Hrc.
      split; [reflexivity |]. split; [reflexivity |].
      split; [rewrite Hpub; apply published_shape; reflexivity |].
      split; [exact Hts |]. split; [exact Hgiven | auto].
    + match goal with
      | |- context [Decision.decide ?m0 ?h0 ?c0 ?t0] =>
          destruct (decide_total m0 h0 c0 t0) as (trace & ->)
      end.
      cbn [mbind result_bind mret result_ret].
      match goal with
      | |- context [Agent.act ?a2 ?m0 ?h0 ?t0 ?ts0 ?n0 ?w0] =>
          pose proof (act_shape a2 m0 h0 t0 ts0 n0 w0) as HS; cbv zeta in HS;
          destruct (Agent.act a2 m0 h0 t0 ts0 n0 w0) as [a' w']
      end.
      cbn [fst snd Agent._cycle_count Agent._max_recent_causes Agent._recent_causes
           Agent.set_executor Agent.published Agent.publish Agent.with_exw] in HS.
      destruct HS as (Ecc & Emax & _ & Erc & aw & rest & cw & Hpub & Hts & _ & _).
      exists a', w', h, (Agent.PubMetrics metrics ts :: Agent.PubAction aw :: rest), cw.
      split; [reflexivity |]. rewrite Ecc, Emax, Erc, Hcc, Hmax, Hrc, Hpub.
      split; [reflexivity |]. split; [reflexivity |].
      split; [rewrite <- !app_assoc; reflexivity |].
      split; [exact Hts |]. split; [exact Hgiven |].
      intros Hk Hl. now apply trim_causes_len.
Qed.
Lemma check_rollback_regressed (e : Executor.t) (cur base : WindowMetrics) (w : Executor.World) :
  Executor._active_actions e <> [] ->
  Executor._baseline_metrics e = Some base ->
  Executor.success_dropped base cur || Executor.latency_increased base cur = true ->
  exists msg msgs ex xw,
    Executor.check_rollback e cur w = (msg :: msgs, ex, xw) /\
    Executor._active_actions ex = [] /\
    Executor._baseline_metrics ex = None /\
    len (msg :: msgs) = len (Executor._active_actions e).
Proof.
  intros Hact Hbase Hreg. unfold Executor.check_rollback. rewrite Hbase.
  destruct (Executor._active_actions e) as [|[t0 m0] rest] eqn:Ea; [congruence |].
  rewrite Hreg, rollback_all_spec. cbn [app map fst].
  do 4 eexists. split; [reflexivity |]. split; [reflexivity |]. split; [reflexivity |].
  unfold len. cbn [List.length]. now rewrite length_map.
Qed.

Lemma record_outcome_rollback (l : Learner.t) (m : WindowMetrics)
    (before : Learner.Snapshot) (a : Action) :
  Learner._context_before_action l = Some before ->
  Learner._action_pending l = Some a ->
  let l' := Learner.record_outcome l m true in
  let old := default Learner.zero_stats (Learner._action_stats l !! action_type a) in
  (exists rec,
     last (Learner._outcomes l') = Some rec /\
     Learner.or_action rec = a /\
     Learner.helped rec = false /\
     Learner.rollback_applied rec = true) /\
  Learner._action_stats l' !! action_type a =
    Some {| Learner.n_helped := Learner.n_helped old;
            Learner.n_hurt := Learner.n_hurt old + 1;
            Learner.n_neutral := Learner.n_neutral old |} /\
  Learner._action_pending l' = None.
Proof.
  intros Hc Hp. cbv zeta. unfold Learner.record_outcome. rewrite Hc, Hp.
  cbn [Learner._evaluate_helped]. cbv zeta.
  cbn [Learner._outcomes Learner._action_stats Learner._action_pending].
  split; [| split; [| reflexivity]].
  - eexists. split; [| split; [| split]].
    + change Learner.MAX_OUTCOME_RECORDS with 500.
      destruct (500 <? _); [apply slice_last_last; lia | apply last_snoc].
    + reflexivity.
    + reflexivity.
    + reflexivity.
  - rewrite lookup_alter_eq.
    destruct (Learner._action_stats l !! action_type a) as [s|] eqn:Es.
    + rewrite Es. reflexivity.
    + rewrite lookup_insert_eq. reflexivity.
Qed.

Ltac agent_fields :=
  cbn [fst snd
       Agent.executor Agent.learner Agent._last_action_executed Agent._pending_outcome
       Agent._cycle_count Agent._recent_causes Agent._max_recent_causes
       Agent._last_executed_action_key Agent._last_executed_cycle
       Agent._cooldown_until_cycle Agent._cooldown_cycles Agent._last_written_action_key
       Agent._last_executed_trace Agent._last_decision_ts Agent._last_decision_action_key
       Agent._last_decision_metrics_snapshot Agent._last_decision_hypothesis_cause
       Agent._baseline_metrics
       Agent.set_executor Agent.set_learner Agent.set_last_action_executed
       Agent.set_pending_outcome Agent.set_cycle_count Agent.set_recent_causes
       Agent.set_last_executed_action_key Agent.set_last_executed_cycle
       Agent.set_cooldown_until_cycle Agent.set_last_written_action_key
       Agent.set_last_executed_trace Agent.set_last_decision_ts
       Agent.set_last_decision_action_key Agent.set_last_decision_metrics_snapshot
       Agent.set_last_decision_hypothesis_cause Agent.set_baseline_metrics
       Agent.published Agent.exw Agent.publish Agent.with_exw].

(** X24.  A regression seen by [check_rollback_and_learn] right after an
    executed action is learned as harm: all active actions are rolled back,
    the Learner's newest outcome is the pending action with
    [rollback_applied = True] and [helped = False], the hurt counter of its
    action type grows by one, and one rolled_back entry is published when a
    last executed trace is known (none otherwise). *)
Theorem regression_is_learned_as_hurt (a : Agent.t) (metrics base : WindowMetrics) (now : Q)
    (w : Agent.World) (before : Learner.Snapshot) (act0 : Action) :
  Executor._active_actions (Agent.executor a) <> [] ->
  Executor._baseline_metrics (Agent.executor a) = Some base ->
  Executor.success_dropped base metrics || Executor.latency_increased base metrics = true ->
  Agent._last_action_executed a = true ->
  Learner._context_before_action (Agent.learner a) = Some before ->
  Learner._action_pending (Agent.learner a) = Some act0 ->
  let '(a', w') := Agent.check_rollback_and_learn a metrics now w in
  let old := default Learner.zero_stats
               (Learner._action_stats (Agent.learner a) !! action_type act0) in
  Executor._active_actions (Agent.executor a') = [] /\
  Executor.get_rollback_count (Agent.executor a') =
    Executor.get_rollback_count (Agent.executor a)
    + len (Executor._active_actions (Agent.executor a)) /\
  (exists rec,
     last (Learner._outcomes (Agent.learner a')) = Some rec /\
     Learner.or_action rec = act0 /\
     Learner.helped rec = false /\
     Learner.rollback_applied rec = true) /\
  (exists s, Learner._action_stats (Agent.learner a') !! action_type act0 = Some s /\
             Learner.n_hurt s = Learner.n_hurt old + 1 /\
             Learner.n_helped s = Learner.n_helped old) /\
  Agent._last_executed_trace a' = None /\
  match Agent._last_executed_trace a with
  | Some trace =>
      exists aw, Agent.published w' = Agent.published w ++ [Agent.PubAction aw] /\
                 Agent.aw_outcome aw = "rolled_back" /\
                 Agent.aw_action_type aw = action_type (action trace) /\
                 Agent.aw_executed aw = false
  | None => Agent.published w' = Agent.published w
  end.
Proof.
  intros Hact Hbase Hreg Hflag Hc Hp.
  pose proof (check_rollback_settles_count (Agent.executor a) metrics (Agent.exw w)) as Hcount.
  destruct (check_rollback_regressed (Agent.executor a) metrics base (Agent.exw w)
              Hact Hbase Hreg) as (msg & msgs & ex & xw & Hcr & Hnone & _ & Hlen).
  pose proof (record_outcome_rollback (Agent.learner a) metrics before act0 Hc Hp)
    as (Hrec & Hstats & _).
  cbv zeta in Hrec, Hstats.
  unfold Agent.check_rollback_and_learn. rewrite Hcr in Hcount |- *.
  cbn [fst snd] in Hcount.
  destruct (Agent._last_executed_trace a) as [trace|] eqn:Et.
  - agent_fields. rewrite Et. agent_fields. rewrite Hflag. agent_fields.
    split; [exact Hnone |]. split; [rewrite Hcount, Hlen; reflexivity |].
    split; [exact Hrec |]. split; [eexists; split; [exact Hstats | split; reflexivity] |].
    split; [reflexivity |]. eexists. split; [reflexivity |]. repeat split.
  - agent_fields. rewrite Et. agent_fields. rewrite Hflag. agent_fields.
    split; [exact Hnone |]. split; [rewrite Hcount, Hlen; reflexivity |].
    split; [exact Hrec |]. split; [eexists; split; [exact Hstats | split; reflexivity] |].
    split; [exact Et | reflexivity].
Qed.
(** X25.  Every hypothesis of the heuristic reasoner passes the decision
    trigger, whatever the Orchestrator's state: an INSUFFICIENT_SIGNAL
    hypothesis has uncertainty 1, and every other one has a confidence of at
    least 0.7.  With the heuristic reasoner the trigger filters nothing. *)
Theorem heuristic_always_triggers (a : Agent.t) (m : WindowMetrics) (h : Hyp) :
  Reasoner.reason None m = Ok h ->
  Agent._should_trigger_reason_decide a h = true.
Proof.
  intros Hh. change (Reasoner.reason None m) with (Reasoner._heuristic_hypothesis m) in Hh.
  unfold Agent._should_trigger_reason_decide.
  destruct (heuristic_via_rules m) as [E | (st & H & E)]; rewrite E in Hh.
  - injection Hh as <-. reflexivity.
  - destruct (conclude_settled m st H) as (h' & Hc & _ & Hconf & _ & Hstart & _).
    rewrite Hc in Hh. injection Hh as Eh. subst h'.
    destruct (settled_cases st H) as [Es | (Hs & _ & _ & Hu)].
    + destruct (Hstart Es) as [_ Hone].
      assert (Hq : Qgeb (uncertainty h) Agent.UNCERTAINTY_THRESHOLD = true).
      { apply Qgeb_le. rewrite Hone. discriminate. }
      now rewrite Hq.
    + destruct Hs as [Es | (_ & _ & [Hlo _] & _)]; [rewrite Es in Hu; now elim Hu |].
      assert (Hq : Qgeb (confidence h) Agent.MIN_CONFIDENCE_TO_ACT = true).
      { apply Qgeb_le. rewrite Hconf.
        apply Qle_trans with (7 # 10)%Q; [discriminate | exact Hlo]. }
      rewrite Hq. now destruct (Qgeb (uncertainty h) _).
Qed.

Lemma heuristic_always_triggers_witness :
  exists h,
    Reasoner.reason None Cases.issuer_down = Ok h /\
    Agent._should_trigger_reason_decide SampleRun.agent0 h = true.
Proof.
  eexists. split; [vm_compute; reflexivity |].
  apply (heuristic_always_triggers SampleRun.agent0 Cases.issuer_down).
  vm_compute. reflexivity.
Defined.

(** ** The dashboard state files *)

Lemma capped_append {A} (cap : Z) (l : list A) (x : A) :
  0 < cap ->
  let l' := if cap <? len (l ++ [x]) then slice_last cap (l ++ [x]) else l ++ [x] in
  1 <= len l' <= cap /\ last l' = Some x /\ l' `suffix_of` (l ++ [x]).
Proof.
  intros Hcap. cbv zeta.
  assert (Hlen : len (l ++ [x]) = len l + 1).
  { unfold len. rewrite length_app. cbn. lia. }
  assert (Hpos : 0 <= len l) by (unfold len; lia).
  destruct (Z.ltb_spec cap (len (l ++ [x]))) as [H|H].
  - rewrite slice_last_len by exact Hcap.
    split; [lia |]. split; [now apply slice_last_last | apply slice_last_suffix].
  - split; [lia |]. split; [apply last_snoc | reflexivity].
Qed.

(** X26.  The state files keep bounded histories.  [write_metrics] and
    [write_hypothesis] always leave between 1 and 100, respectively 50,
    entries, the newest being the one just written.  [write_action] always
    stores its entry as [latest]; with [append_to_history] it appends it and
    keeps at most 50 entries, and without it the history is left as it was. *)
Theorem histories_stay_bounded :
  (forall m ts existing,
     let f := StateWriter.write_metrics m ts existing in
     StateWriter.mf_current f = Some (m, ts) /\
     1 <= len (StateWriter.mf_latency_trend f) <= 100 /\
     (exists p, last (StateWriter.mf_latency_trend f) = Some p /\
                StateWriter.tp_window_id p = window_id m /\
                StateWriter.tp_p95_latency_ms p = p95_latency_ms m /\
                StateWriter.tp_ts p = ts)) /\
  (forall h ts existing,
     let f := StateWriter.write_hypothesis h ts existing in
     StateWriter.hf_latest f = Some (h, ts) /\
     1 <= len (StateWriter.hf_history f) <= 50 /\
     last (StateWriter.hf_history f) = Some (h, ts)) /\
  (forall aw existing,
     let old := match existing with
                | Some f => StateWriter.af_history f
                | None => []
                end in
     let f := StateWriter.write_action aw existing in
     StateWriter.af_latest f = Some aw /\
     (Agent.aw_append_to_history aw = false -> StateWriter.af_history f = old) /\
     (Agent.aw_append_to_history aw = true ->
      1 <= len (StateWriter.af_history f) <= 50 /\
      last (StateWriter.af_history f) = Some aw /\
      StateWriter.af_history f `suffix_of` (old ++ [aw])) /\
     (len old <= 50 -> len (StateWriter.af_history f) <= 50)).
Proof.
  split; [| split].
  - intros m ts existing. cbv zeta. unfold StateWriter.write_metrics. cbv zeta.
    cbn [StateWriter.mf_current StateWriter.mf_latency_trend].
    match goal with
    | |- context [if ?c <? len (?l ++ [?x]) then _ else _] =>
        destruct (capped_append c l x ltac:(reflexivity)) as (Hb & Hl & _)
    end.
    split; [reflexivity |]. split; [exact Hb |].
    eexists. split; [exact Hl |]. repeat split.
  - intros h ts existing. cbv zeta. unfold StateWriter.write_hypothesis. cbv zeta.
    cbn [StateWriter.hf_latest StateWriter.hf_history].
    match goal with
    | |- context [if ?c <? len (?l ++ [?x]) then _ else _] =>
        destruct (capped_append c l x ltac:(reflexivity)) as (Hb & Hl & _)
    end.
    split; [reflexivity |]. split; [exact Hb | exact Hl].
  - intros aw existing. cbv zeta. unfold StateWriter.write_action. cbv zeta.
    cbn [StateWriter.af_latest StateWriter.af_history].
    set (old := match existing with Some f => StateWriter.af_history f | None => [] end).
    destruct (capped_append StateWriter.MAX_ACTIONS_HISTORY old aw ltac:(reflexivity))
      as (Hb & Hl & Hs).
    cbv zeta in Hb, Hl, Hs.
    split; [reflexivity |].
    destruct (Agent.aw_append_to_history aw).
    + split; [discriminate |]. split; [intros _; auto |]. intros _. apply Hb.
    + split; [reflexivity |]. split; [discriminate | auto].
Qed.

Lemma no_repeat_drop {A} (n : nat) (l : list A) :
  Notions.no_repeat l -> Notions.no_repeat (drop n l).
Proof.
  revert l. induction n as [|n IH]; intros l H; [now rewrite drop_0 |].
  destruct l as [|x t]; [exact H |]. cbn [drop]. apply IH. apply H.
Qed.

Lemma no_repeat_snoc {A} (l : list A) (x : A) :
  Notions.no_repeat l ->
  (forall e, last l = Some e -> e <> x) ->
  Notions.no_repeat (l ++ [x]).
Proof.
  induction l as [|y t IH]; intros H Hlast; [cbn; auto |].
  destruct t as [|z t'].
  - cbn. split; [| auto]. apply Hlast. reflexivity.
  - destruct H as [Hyz Ht]. cbn [app Notions.no_repeat]. split; [exact Hyz |].
    apply IH; [exact Ht |]. intros e He. apply Hlast. exact He.
Qed.

Lemma last_map {A B} (f : A -> B) (l : list A) : last (map f l) = f <$> last l.
Proof.
  induction l as [|x t IH]; [reflexivity |].
  destruct t as [|y t']; [reflexivity |]. exact IH.
Qed.

Lemma slice_last_map {A B} (f : A -> B) (k : Z) (l : list A) :
  map f (slice_last k l) = slice_last k (map f l).
Proof.
  unfold slice_last, slice_from, drop_z, len. rewrite length_map.
  destruct (- k <? 0); symmetry; apply List.skipn_map.
Qed.

Lemma no_repeat_slice_last {A} (k : Z) (l : list A) :
  Notions.no_repeat l -> Notions.no_repeat (slice_last k l).
Proof.
  intros H. unfold slice_last, slice_from, drop_z.
  destruct (- k <? 0); now apply no_repeat_drop.
Qed.

(** X27.  De-duplication keeps the action timeline free of immediate
    repeats.  A write whose (type, target, outcome) key equals the key the
    Orchestrator remembers is published with [append_to_history = False]: it
    only replaces [latest], and the Orchestrator and the history stay as
    they were.  A write with any other key is published with
    [append_to_history = True]: [write_action] appends it to the history,
    capped at the 50 newest entries, and the Orchestrator remembers the new
    key.  Hence, if the newest history entry carries the remembered key and
    no two neighbouring entries share a key, the same holds after the
    write. *)
Theorem dedup_keeps_history_in_step (a : Agent.t) (mk : bool -> Agent.ActionWrite)
    (w : Agent.World) (f : StateWriter.ActionsFile) :
  (forall b, Agent.written_key (mk b) = Agent.written_key (mk true)) ->
  (forall b, Agent.aw_append_to_history (mk b) = b) ->
  Notions.history_in_step a f ->
  let '(a', w') := Agent.write_action_dedup a mk w in
  let key := Agent.written_key (mk true) in
  exists aw,
    Agent.published w' = Agent.published w ++ [Agent.PubAction aw] /\
    Agent.exw w' = Agent.exw w /\
    Agent.written_key aw = key /\
    StateWriter.af_latest (StateWriter.write_action aw (Some f)) = Some aw /\
    Notions.history_in_step a' (StateWriter.write_action aw (Some f)) /\
    (Agent._last_written_action_key a = Some key ->
     aw = mk false /\
     a' = a /\
     StateWriter.af_history (StateWriter.write_action aw (Some f)) =
       StateWriter.af_history f) /\
    (Agent._last_written_action_key a <> Some key ->
     aw = mk true /\
     a' = Agent.set_last_written_action_key (Some key) a /\
     Agent._last_written_action_key a' = Some key /\
     StateWriter.af_history (StateWriter.write_action aw (Some f)) =
       (let all := StateWriter.af_history f ++ [aw] in
        if StateWriter.MAX_ACTIONS_HISTORY <? len all
        then slice_last StateWriter.MAX_ACTIONS_HISTORY all else all)).
Proof.
  intros Hkey Hflag [Hlast Hnr].
  unfold Agent.write_action_dedup. cbv zeta.
  destruct (bool_decide (Some (Agent.written_key (mk true)) = Agent._last_written_action_key a))
    eqn:Eb; cbn [negb].
  - apply bool_decide_eq_true in Eb.
    exists (mk false). split; [reflexivity |]. split; [reflexivity |].
    split; [apply Hkey |]. split; [reflexivity |].
    assert (Hh : StateWriter.af_history (StateWriter.write_action (mk false) (Some f))
                 = StateWriter.af_history f).
    { unfold StateWriter.write_action. cbv zeta. cbn [StateWriter.af_history].
      now rewrite Hflag. }
    split; [split; rewrite Hh; assumption |].
    split; [intros _; repeat split; exact Hh | intros Hne; now rewrite Eb in Hne].
  - apply bool_decide_eq_false in Eb.
    exists (mk true). split; [reflexivity |]. split; [reflexivity |].
    split; [reflexivity |]. split; [reflexivity |].
    assert (Hh : StateWriter.af_history (StateWriter.write_action (mk true) (Some f))
                 = (let all := StateWriter.af_history f ++ [mk true] in
                    if StateWriter.MAX_ACTIONS_HISTORY <? len all
                    then slice_last StateWriter.MAX_ACTIONS_HISTORY all else all)).
    { unfold StateWriter.write_action. cbv zeta. cbn [StateWriter.af_history].
      now rewrite Hflag. }
    split.
    { unfold Notions.history_in_step. rewrite Hh. cbv zeta.
      destruct (capped_append StateWriter.MAX_ACTIONS_HISTORY (StateWriter.af_history f)
                  (mk true) ltac:(reflexivity)) as (_ & Hl & _).
      cbv zeta in Hl. rewrite Hl. split; [reflexivity |].
      assert (Hall : Notions.no_repeat
                       (map Agent.written_key (StateWriter.af_history f ++ [mk true]))).
      { rewrite map_app. apply no_repeat_snoc; [exact Hnr |].
        intros k Hk. rewrite last_map in Hk.
        destruct (last (StateWriter.af_history f)) as [e|]; [| discriminate].
        injection Hk as <-. intros E. apply Eb. now rewrite Hlast, E. }
      destruct (_ <? _); [| exact Hall].
      rewrite slice_last_map. now apply no_repeat_slice_last. }
    split; [intros E; exfalso; apply Eb; now rewrite E |].
    intros _. repeat split. exact Hh.
Qed.
Lemma regression_is_learned_as_hurt_witness :
  Executor._active_actions
    (Agent.executor
       (fst (Agent.check_rollback_and_learn (fst Cases.reroute_running)
               (SampleExec.metrics (6 # 10) 300) 101 (snd Cases.reroute_running)))) = [].
Proof.
  assert (Hact : Executor._active_actions (Agent.executor (fst Cases.reroute_running)) <> [])
    by (vm_compute; discriminate).
  eassert (Hbase : Executor._baseline_metrics (Agent.executor (fst Cases.reroute_running))
                   = Some _) by (vm_compute; reflexivity).
  eassert (Hc : Learner._context_before_action (Agent.learner (fst Cases.reroute_running))
                = Some _) by (vm_compute; reflexivity).
  eassert (Hp : Learner._action_pending (Agent.learner (fst Cases.reroute_running))
                = Some _) by (vm_compute; reflexivity).
  assert (Hflag : Agent._last_action_executed (fst Cases.reroute_running) = true)
    by (vm_compute; reflexivity).
  pose proof (regression_is_learned_as_hurt (fst Cases.reroute_running)
                (SampleExec.metrics (6 # 10) 300) _ 101 (snd Cases.reroute_running) _ _
                Hact Hbase ltac:(vm_compute; reflexivity) Hflag Hc Hp) as H.
  destruct (Agent.check_rollback_and_learn _ _ _ _) as [a' w'].
  exact (proj1 H).
Defined.

Lemma dedup_keeps_history_in_step_witness :
  let '(a', w') :=
    Agent.write_action_dedup SampleRun.agent0 Cases.noop_write SampleRun.world0 in
  exists aw,
    Agent.published w' = Agent.published SampleRun.world0 ++ [Agent.PubAction aw] /\
    aw = Cases.noop_write true /\
    StateWriter.af_history (StateWriter.write_action aw (Some Cases.empty_actions)) = [aw] /\
    Notions.history_in_step a' (StateWriter.write_action aw (Some Cases.empty_actions)).
Proof.
  assert (Hk : forall b, Agent.written_key (Cases.noop_write b)
                         = Agent.written_key (Cases.noop_write true))
    by (intros b; reflexivity).
  assert (Hf : forall b, Agent.aw_append_to_history (Cases.noop_write b) = b)
    by (intros b; reflexivity).
  assert (Hi : Notions.history_in_step SampleRun.agent0 Cases.empty_actions)
    by (split; exact I).
  pose proof (dedup_keeps_history_in_step SampleRun.agent0 Cases.noop_write SampleRun.world0
                Cases.empty_actions Hk Hf Hi) as H.
  destruct (Agent.write_action_dedup _ _ _) as [a' w'].
  destruct H as (aw & Hpub & _ & _ & _ & Hstep & _ & Hnew).
  destruct (Hnew ltac:(discriminate)) as (Haw & _ & _ & Hh).
  exists aw. split; [exact Hpub |]. split; [exact Haw |].
  split; [rewrite Hh, Haw; reflexivity | exact Hstep].
Defined.
(** X28.  A no-op decision is inert: [act] leaves the Executor, the Learner,
    the outside world of the Executor and every debounce key as they were,
    and only publishes a no_op entry (with executed = false) followed by the
    control state. *)
Theorem act_no_op_is_inert (a : Agent.t) (metrics : WindowMetrics) (h : Hyp)
    (trace : DecisionTrace) (ts now : Q) (w : Agent.World) :
  action_type (action trace) = ActionType.NO_OP ->
  let r := Agent.act a metrics h trace ts now w in
  Agent.executor (fst r) = Agent.executor a /\
  Agent.learner (fst r) = Agent.learner a /\
  Agent.exw (snd r) = Agent.exw w /\
  Agent._last_action_executed (fst r) = Agent._last_action_executed a /\
  Agent._last_executed_action_key (fst r) = Agent._last_executed_action_key a /\
  Agent._last_executed_cycle (fst r) = Agent._last_executed_cycle a /\
  Agent._last_decision_ts (fst r) = Agent._last_decision_ts a /\
  Agent._last_decision_action_key (fst r) = Agent._last_decision_action_key a /\
  Agent._cooldown_until_cycle (fst r) = Agent._cooldown_until_cycle a /\
  exists aw cw,
    Agent.published (snd r) =
      Agent.published w ++ [Agent.PubAction aw; Agent.PubControl cw] /\
    Agent.aw_action_type aw = "no_op" /\
    Agent.aw_executed aw = false /\
    Agent.aw_reason aw = reason (action trace).
Proof.
  intros Hno. cbv zeta. unfold Agent.act. cbv zeta.
  apply String.eqb_eq in Hno. rewrite Hno.
  match goal with
  | |- context [Agent.write_action_dedup ?a0 ?mk ?w0] =>
      destruct (write_action_dedup_spec a0 mk w0) as (b & -> & _)
  end.
  destruct b;
    (do 9 (split; [reflexivity |]));
    cbn [fst snd];
    match goal with
    | |- context [Agent._write_control_state ?a0 ?m0 ?t0 ?c0 ?w0] =>
        destruct (published_control a0 m0 t0 c0 w0) as (cw & -> & _)
    end;
    (eexists; exists cw; split;
     [apply (published_shape_nil _ (Agent.published w)); reflexivity |
      split; [reflexivity | split; reflexivity]]).
Qed.

Lemma act_no_op_is_inert_witness :
  Agent.executor
    (fst (Agent.act SampleRun.agent0 SampleRun.degraded SampleRun.quiet
            (SampleExec.trace_of (Decision.no_op "Insufficient signal")) 100 100
            SampleRun.world0))
  = Agent.executor SampleRun.agent0.
Proof.
  exact (proj1 (act_no_op_is_inert SampleRun.agent0 SampleRun.degraded SampleRun.quiet
                  (SampleExec.trace_of (Decision.no_op "Insufficient signal")) 100 100
                  SampleRun.world0 eq_refl)).
Defined.
